(** * Kenny V4 gateway: session manager and Open WebUI pipeline

    A shallow embedding of [services/kenny_session_manager.py] and
    [services/kenny_pipeline.py], and the properties of the conversational
    gateway checked against it.

    Conventions of the embedding:
    - a Python [str] is the list of its Unicode code points ([list N]);
    - a Python [float] is an IEEE 754 binary64 value: [spec_float] with
      precision 53 and maximal exponent 1024;
    - a Python dict with [str] keys is the list of its items in insertion
      order; the network cache, a key-value server, is a [gmap];
    - the inbound request is the record of the chat interface: a list of
      messages with a textual content, and a user record whose id, email
      and name may be absent;
    - what the workflow replies is decoded from JSON and dynamically typed
      ([pyval]); an operation applied to a value of the wrong type raises;
    - a function that reads the clock, draws an identifier, calls a server
      or yields is a computation [M State A] over an explicit state, which
      holds the object ([self]), the servers, the readings the clock will
      give, and a record of the calls made; an exception leaves the state
      as it was when it was raised;
    - a generator is run to exhaustion: its result is the list of the events
      it yields; [time.sleep] is left out;
    - standard output is a text stream encoded in UTF-8 with the strict
      error handler: [print] raises for a text that holds a surrogate, and
      is kept where the text comes from outside, the message of the user
      that [pipe] prints when the debug valve is on; the other calls of
      [print] write text that the program or its libraries made, and are
      left out. *)

From Stdlib Require Import ZArith NArith List String Ascii Bool Lia.
From Stdlib Require Import SpecFloat.
From stdpp Require Import base option list gmap.

Import ListNotations.
Local Open Scope Z_scope.
Set Warnings "-register-all".

(* ===================================================================== *)
(** * Python strings *)
(* ===================================================================== *)

Module PyStr.

(** A Python [str]: a sequence of code points. *)
Abbreviation pystr := (list N).

(** A source literal made of ASCII characters only. *)
Fixpoint lit (s : string) : pystr :=
  match s with
  | EmptyString => []
  | String a s' => N_of_ascii a :: lit s'
  end.

(** [str.isspace] on one character, as CPython's [_PyUnicode_IsWhitespace]. *)
Definition is_space (c : N) : bool :=
  ((9 <=? c) && (c <=? 13) || (28 <=? c) && (c <=? 32)
   || (c =? 133) || (c =? 160) || (c =? 5760)
   || (8192 <=? c) && (c <=? 8202)
   || (c =? 8232) || (c =? 8233) || (c =? 8239) || (c =? 8287)
   || (c =? 12288))%N.

(** [s.split()]: maximal runs of non-whitespace characters.  [cur] is the
    word being read, reversed. *)
Fixpoint split_from (cur : pystr) (s : pystr) : list pystr :=
  match s with
  | [] => match cur with [] => [] | _ => [rev cur] end
  | c :: s' =>
      if is_space c
      then match cur with
           | [] => split_from [] s'
           | _ => rev cur :: split_from [] s'
           end
      else split_from (c :: cur) s'
  end.

Definition split (s : pystr) : list pystr := split_from [] s.

(** [needle in hay], executable. *)
Fixpoint starts_with (needle hay : pystr) : bool :=
  match needle, hay with
  | [], _ => true
  | _ :: _, [] => false
  | a :: n', b :: h' => (a =? b)%N && starts_with n' h'
  end.

Fixpoint contains (needle hay : pystr) : bool :=
  starts_with needle hay ||
  match hay with
  | [] => false
  | _ :: h' => contains needle h'
  end.

(** [needle in hay], as a proposition. *)
Definition substring (needle hay : pystr) : Prop :=
  exists pre post, hay = pre ++ needle ++ post.

(** A scan of a string that follows whether the last character read was
    part of a word ([b]), and stops with [None] at a whitespace character
    that is not a single space between two words. *)
Fixpoint scan (b : bool) (x : pystr) : option bool :=
  match x with
  | [] => Some b
  | c :: x' =>
      if is_space c
      then (if (c =? 32)%N && b then scan false x' else None)
      else scan true x'
  end.

(** A text put between two words is single-spaced when its only whitespace
    is single spaces, none next to another. *)
Definition single_spaced (m : pystr) : bool :=
  match scan true m with Some _ => true | None => false end.

(** Decimal digits of a number, [str(n)] for a non-negative [int]. *)
Fixpoint uint_chars (d : Decimal.uint) : pystr :=
  match d with
  | Decimal.Nil => []
  | Decimal.D0 d => 48%N :: uint_chars d
  | Decimal.D1 d => 49%N :: uint_chars d
  | Decimal.D2 d => 50%N :: uint_chars d
  | Decimal.D3 d => 51%N :: uint_chars d
  | Decimal.D4 d => 52%N :: uint_chars d
  | Decimal.D5 d => 53%N :: uint_chars d
  | Decimal.D6 d => 54%N :: uint_chars d
  | Decimal.D7 d => 55%N :: uint_chars d
  | Decimal.D8 d => 56%N :: uint_chars d
  | Decimal.D9 d => 57%N :: uint_chars d
  end.

Definition str_of_N (n : N) : pystr := uint_chars (N.to_uint n).

(** [str(z)] for an [int]. *)
Definition str_of_Z (z : Z) : pystr :=
  match z with
  | Zneg p => 45%N :: str_of_N (Npos p)
  | _ => str_of_N (Z.to_N z)
  end.

End PyStr.
Export PyStr.

(* ===================================================================== *)
(** * Python floats *)
(* ===================================================================== *)

Module PyFloat.

Abbreviation float := spec_float.

Definition prec : Z := 53.
Definition emax : Z := 1024.

(** [float(z)] for an [int] that fits: rounded to nearest, ties to even.
    The result is an infinity exactly when Python raises [OverflowError]. *)
Definition of_Z (z : Z) : float := binary_normalize prec emax z 0 false.

Definition fmul : float -> float -> float := SFmul prec emax.
Definition fsub : float -> float -> float := SFsub prec emax.

(** [x > z] for a float [x] and an [int] [z]; Python compares the exact
    values, and every comparison with a NaN is false. *)
Definition gt_int (x : float) (z : Z) : bool :=
  match x with
  | S754_nan => false
  | S754_infinity s => negb s
  | S754_zero _ => z <? 0
  | S754_finite s m e =>
      let v := if s then Zneg m else Zpos m in
      if 0 <=? e then z <? v * 2 ^ e else z * 2 ^ (- e) <? v
  end.

(** The digits of [m * 2^e] in fixed notation with one fractional digit,
    correctly rounded, ties to even: what [format(v, '.1f')] prints for a
    positive finite [v]. *)
Definition tenths (m : positive) (e : Z) : Z :=
  if 0 <=? e then Zpos m * 2 ^ e * 10
  else
    let num := Zpos m * 10 in
    let den := 2 ^ (- e) in
    let q := num / den in
    let r := num mod den in
    match 2 * r ?= den with
    | Lt => q
    | Gt => q + 1
    | Eq => if Z.even q then q else q + 1
    end.

Definition fixed1 (m : positive) (e : Z) : pystr :=
  let t := tenths m e in
  str_of_Z (t / 10) ++ lit "." ++ str_of_Z (t mod 10).

(** [format(x, '.1%')] for a float: the value is multiplied by 100 in
    floating point, printed with one fractional digit, and followed by a
    percent sign. *)
Definition format_percent1 (x : float) : pystr :=
  match fmul x (of_Z 100) with
  | S754_nan => lit "nan%"
  | S754_infinity s => (if s then lit "-inf%" else lit "inf%")
  | S754_zero s => (if s then lit "-0.0%" else lit "0.0%")
  | S754_finite s m e =>
      (if s then lit "-" else []) ++ fixed1 m e ++ lit "%"
  end.

End PyFloat.
Export PyFloat.

(* ===================================================================== *)
(** * Dynamically typed values and exceptions *)
(* ===================================================================== *)

Module PyVal.

(** A value decoded by [json.loads] / [response.json()], or a dict literal
    built by the program. *)
Inductive pyval :=
| PNone
| PBool (b : bool)
| PInt (z : Z)
| PFloat (x : float)
| PStr (s : pystr)
| PList (l : list pyval)
| PDict (d : list (pystr * pyval)).

(** [type(v).__name__] *)
Definition type_name (v : pyval) : pystr :=
  match v with
  | PNone => lit "NoneType"
  | PBool _ => lit "bool"
  | PInt _ => lit "int"
  | PFloat _ => lit "float"
  | PStr _ => lit "str"
  | PList _ => lit "list"
  | PDict _ => lit "dict"
  end.

(** [bool(v)] *)
Definition truthy (v : pyval) : bool :=
  match v with
  | PNone => false
  | PBool b => b
  | PInt z => negb (z =? 0)
  | PFloat (S754_zero _) => false
  | PFloat _ => true
  | PStr s => match s with [] => false | _ => true end
  | PList l => match l with [] => false | _ => true end
  | PDict d => match d with [] => false | _ => true end
  end.

(** [v != s] for a [str] [s]: only an equal [str] compares equal. *)
Definition ne_str (v : pyval) (s : pystr) : bool :=
  match v with
  | PStr s' => negb (bool_decide (s' = s))
  | _ => true
  end.

(** The exceptions the program tells apart: [requests.exceptions.Timeout]
    and every other [Exception]; [msg] is [str(e)]. *)
Inductive pyexn :=
| RequestTimeout (msg : pystr)
| Error (msg : pystr).

Definition exn_str (e : pyexn) : pystr :=
  match e with RequestTimeout msg => msg | Error msg => msg end.

(** ['T' object has no attribute 'a'] *)
Definition attribute_error (v : pyval) (attr : string) : pyexn :=
  Error ([39%N] ++ type_name v ++ lit "' object has no attribute '"
         ++ lit attr ++ [39%N]).

End PyVal.
Export PyVal.

(* ===================================================================== *)
(** * Computations with state and exceptions *)
(* ===================================================================== *)

Module Eff.

(** The result of running a piece of Python: a value or a raised exception.
    The state reached is kept in both cases: what was mutated before a
    [raise] stays mutated. *)
Inductive outcome (A : Type) :=
| Ret (a : A)
| Raise (e : pyexn).
Arguments Ret {A} a.
Arguments Raise {A} e.

Definition M (S A : Type) : Type := S -> outcome A * S.

Definition ret {S A} (a : A) : M S A := fun s => (Ret a, s).

Definition raise {S A} (e : pyexn) : M S A := fun s => (Raise e, s).

Definition bind {S A B} (c : M S A) (k : A -> M S B) : M S B :=
  fun s =>
    match c s with
    | (Ret a, s') => k a s'
    | (Raise e, s') => (Raise e, s')
    end.

(** [try: c  except Exception as e: h e] *)
Definition try_except {S A} (c : M S A) (h : pyexn -> M S A) : M S A :=
  fun s =>
    match c s with
    | (Ret a, s') => (Ret a, s')
    | (Raise e, s') => h e s'
    end.

Definition gets {S A} (f : S -> A) : M S A := fun s => (Ret (f s), s).

Definition modify {S} (f : S -> S) : M S unit := fun s => (Ret tt, f s).

(** [for x in l: body x] *)
Fixpoint for_each {S A} (l : list A) (body : A -> M S unit) : M S unit :=
  match l with
  | [] => ret tt
  | x :: l' => bind (body x) (fun _ => for_each l' body)
  end.

End Eff.
Export Eff.

Notation "x <- c ;; k" := (bind c (fun x => k))
  (at level 100, c at next level, right associativity).
Notation "c ;; k" := (bind c (fun _ => k))
  (at level 100, right associativity).

(* ===================================================================== *)
(** * Operations on dynamically typed values *)
(* ===================================================================== *)

Module PyOps.

(** A dict with [str] keys is kept as the list of its items in insertion
    order. *)

(** [d.get(k)] *)
Fixpoint dict_lookup {V} (k : pystr) (d : list (pystr * V)) : option V :=
  match d with
  | [] => None
  | (k', v) :: d' => if bool_decide (k' = k) then Some v else dict_lookup k d'
  end.

(** [del d[k]] *)
Fixpoint dict_del {V} (k : pystr) (d : list (pystr * V)) : list (pystr * V) :=
  match d with
  | [] => []
  | (k', v) :: d' =>
      if bool_decide (k' = k) then d' else (k', v) :: dict_del k d'
  end.

(** [d[k] = v]: in place for a key already there, at the end otherwise. *)
Fixpoint dict_set {V} (k : pystr) (v : V) (d : list (pystr * V))
  : list (pystr * V) :=
  match d with
  | [] => [(k, v)]
  | (k', v') :: d' =>
      if bool_decide (k' = k) then (k, v) :: d' else (k', v') :: dict_set k v d'
  end.

(** [d[k]] replaced by [f d[k]], for a key of [d]. *)
Fixpoint dict_update {V} (k : pystr) (f : V -> V) (d : list (pystr * V))
  : list (pystr * V) :=
  match d with
  | [] => []
  | (k', v) :: d' =>
      if bool_decide (k' = k) then (k', f v) :: d'
      else (k', v) :: dict_update k f d'
  end.

(** [v.get(key, dflt)]: defined on dicts only. *)
Definition py_get {S} (v : pyval) (key : string) (dflt : pyval) : M S pyval :=
  match v with
  | PDict d => ret (default dflt (dict_lookup (lit key) d))
  | _ => raise (attribute_error v "get")
  end.

(** [v.split()]: defined on strings only. *)
Definition py_split {S} (v : pyval) : M S (list pystr) :=
  match v with
  | PStr s => ret (split s)
  | _ => raise (attribute_error v "split")
  end.

(** [format(v, '.1%')]: floats, and ints (bools among them) converted to
    float first. *)
Definition py_format_percent1 {S} (v : pyval) : M S pystr :=
  let of_int z :=
    match of_Z z with
    | S754_infinity _ => raise (Error (lit "int too large to convert to float"))
    | x => ret (format_percent1 x)
    end in
  match v with
  | PFloat x => ret (format_percent1 x)
  | PInt z => of_int z
  | PBool b => of_int (if b then 1 else 0)
  | PStr _ =>
      raise (Error (lit "Unknown format code '%' for object of type 'str'"))
  | _ =>
      raise (Error (lit "unsupported format string passed to "
                    ++ type_name v ++ lit ".__format__"))
  end.

(** [print(text)].  UTF-8 has no encoding for a surrogate (U+D800 to
    U+DFFF): the encoder raises [UnicodeEncodeError] at the first run of
    surrogates, and names the character, or the positions for a run of
    several. *)
Definition is_surrogate (c : N) : bool :=
  ((55296 <=? c) && (c <=? 57343))%N.

(** The surrogates at the head of a text. *)
Fixpoint leading_surrogates (text : pystr) : pystr :=
  match text with
  | [] => []
  | c :: text' => if is_surrogate c then c :: leading_surrogates text' else []
  end.

(** The first run of surrogates of a text that starts at index [i]: the
    index of the run and its characters. *)
Fixpoint surrogate_run (i : nat) (text : pystr) : option (nat * pystr) :=
  match text with
  | [] => None
  | c :: text' =>
      if is_surrogate c then Some (i, c :: leading_surrogates text')
      else surrogate_run (S i) text'
  end.

(** A character below U+10000 as the message of the exception shows it:
    a backslash, [u] and four hexadecimal digits in lower case. *)
Definition hex_lower (n : N) : N :=
  (if n <? 10 then 48 + n else 87 + n)%N.

Definition escaped_char (c : N) : pystr :=
  [92%N; 117%N; hex_lower (c / 4096 mod 16); hex_lower (c / 256 mod 16);
   hex_lower (c / 16 mod 16); hex_lower (c mod 16)]%N.

(** The exception of [text.encode('utf-8')], if it raises. *)
Definition unicode_encode_error (text : pystr) : option pyexn :=
  match surrogate_run 0 text with
  | None => None
  | Some (start, run) =>
      Some (Error
              (lit "'utf-8' codec can't encode "
               ++ match run with
                  | [c] =>
                      lit "character '" ++ escaped_char c
                      ++ lit "' in position " ++ str_of_Z (Z.of_nat start)
                  | _ =>
                      lit "characters in position "
                      ++ str_of_Z (Z.of_nat start) ++ lit "-"
                      ++ str_of_Z (Z.of_nat (start + length run - 1))
                  end
               ++ lit ": surrogates not allowed"))
  end.

Definition py_print {S} (text : pystr) : M S unit :=
  match unicode_encode_error text with
  | None => ret tt
  | Some e => raise e
  end.

(** [l[-n:]] for a positive [n]: the last [n] elements, all of them when
    the list is shorter. *)
Definition last_n {A} (n : nat) (l : list A) : list A :=
  drop (length l - n) l.

(** The keys of a dict are distinct: what the list of its items satisfies
    whenever it stands for a Python dict. *)
Definition dict_wf {V} (d : list (pystr * V)) : Prop := NoDup (fst <$> d).

End PyOps.
Export PyOps.

(* ===================================================================== *)
(** * services/kenny_pipeline.py *)
(* ===================================================================== *)

Module Pipeline.

(** ** Data *)

(** [Pipe.Valves] *)
Record Valves := {
  n8n_webhook_url : pystr;
  n8n_timeout : Z;
  fallback_model : pystr;
  debug_mode : bool;
  session_timeout : Z
}.

Definition default_valves : Valves := {|
  n8n_webhook_url :=
    lit "http://host.docker.internal:5678/webhook/kenny-router";
  n8n_timeout := 30;
  fallback_model := lit "qwen2.5:7b-instruct";
  debug_mode := true;
  session_timeout := 3600
|}.

(** The user-identity record of the inbound request; [None] is an absent
    key. *)
Record UserInfo := {
  u_id : option pystr;
  u_email : option pystr;
  u_name : option pystr
}.

(** One chat message of the inbound request; only its [content] is read. *)
Record Message := { content : option pystr }.

(** The inbound request [body]: [body.get("messages", [])] and
    [body.get("user", {})]. *)
Record Body := {
  messages : list Message;
  user : UserInfo
}.

(** One entry of a session's ["conversation_history"]. *)
Record Exchange := {
  user_message : pystr;
  kenny_response : pyval;
  intent : pyval;
  confidence : pyval;
  timestamp : float
}.

(** One value of [self.session_cache]. *)
Record SessionData := {
  user_id : pystr;
  created_at : float;
  last_activity : float;
  conversation_history : list Exchange
}.

(** The JSON body posted to the workflow. *)
Record Payload := {
  p_message : pystr;
  p_session_id : pystr;
  p_user_id : pystr;
  p_user_email : pystr;
  p_user_name : pystr;
  p_timestamp : float;
  p_conversation_history : list Exchange
}.

(** One call of [requests.post]. *)
Record Request := {
  req_url : pystr;
  req_json : Payload;
  req_timeout : Z
}.

(** What [requests.post] returned; [json_body] is what [response.json()]
    gives: the decoded value, or the message of the exception it raises. *)
Record Response := {
  status_code : Z;
  text : pystr;
  json_body : pyval + pystr
}.

(** The three ways a call of [requests.post] ends. *)
Inductive http_result :=
| HttpTimeout (msg : pystr)
| HttpFailure (msg : pystr)
| HttpOk (r : Response).

(** The events of the streaming protocol. *)
Inductive Event :=
| EContent (text : pystr)
| EFinish
| EError (msg : pystr)
| EDone.

(** The [Pipe] object ([valves], [session_cache]), the world it runs in
    (the readings of the clock, the identifiers drawn, the workflow behind
    the webhook, the calls made so far) and the events yielded so far. *)
Record State := {
  valves : Valves;
  session_cache : list (pystr * SessionData);
  clock : nat -> float;
  ticks : nat;
  uuid4 : nat -> pystr;
  uuids_drawn : nat;
  n8n : nat -> Request -> http_result;
  posted : list Request;
  yielded : list Event
}.

Definition with_cache (c : list (pystr * SessionData)) (s : State) : State :=
  {| valves := valves s; session_cache := c; clock := clock s;
     ticks := ticks s; uuid4 := uuid4 s; uuids_drawn := uuids_drawn s;
     n8n := n8n s; posted := posted s; yielded := yielded s |}.

Definition tick (s : State) : State :=
  {| valves := valves s; session_cache := session_cache s; clock := clock s;
     ticks := S (ticks s); uuid4 := uuid4 s; uuids_drawn := uuids_drawn s;
     n8n := n8n s; posted := posted s; yielded := yielded s |}.

Definition drawn (s : State) : State :=
  {| valves := valves s; session_cache := session_cache s; clock := clock s;
     ticks := ticks s; uuid4 := uuid4 s; uuids_drawn := S (uuids_drawn s);
     n8n := n8n s; posted := posted s; yielded := yielded s |}.

Definition sent (req : Request) (s : State) : State :=
  {| valves := valves s; session_cache := session_cache s; clock := clock s;
     ticks := ticks s; uuid4 := uuid4 s; uuids_drawn := uuids_drawn s;
     n8n := n8n s; posted := posted s ++ [req]; yielded := yielded s |}.

Definition emitted (l : list Event) (s : State) : State :=
  {| valves := valves s; session_cache := session_cache s; clock := clock s;
     ticks := ticks s; uuid4 := uuid4 s; uuids_drawn := uuids_drawn s;
     n8n := n8n s; posted := posted s; yielded := yielded s ++ l |}.

(** ** Effects *)

(** [time.time()] *)
Definition time_time : M State float :=
  fun s => (Ret (clock s (ticks s)), tick s).

(** [str(uuid.uuid4())] *)
Definition uuid_uuid4 : M State pystr :=
  fun s => (Ret (uuid4 s (uuids_drawn s)), drawn s).

(** [requests.post(url, json=..., timeout=...)]: the call is recorded, and
    the workflow's answer to the k-th call is [n8n k]. *)
Definition requests_post (req : Request) : M State Response :=
  fun s =>
    match n8n s (length (posted s)) req with
    | HttpTimeout msg => (Raise (RequestTimeout msg), sent req s)
    | HttpFailure msg => (Raise (Error msg), sent req s)
    | HttpOk r => (Ret r, sent req s)
    end.

(** [response.json()] *)
Definition response_json (r : Response) : M State pyval :=
  match json_body r with
  | inl v => ret v
  | inr msg => raise (Error msg)
  end.

(** [yield e] *)
Definition yield (e : Event) : M State unit :=
  fun s => (Ret tt, emitted [e] s).

(** ** The session cache *)

(** [current_time - data["last_activity"] > self.valves.session_timeout] *)
Definition is_expired (current_time : float) (timeout : Z) (data : SessionData)
  : bool :=
  gt_int (fsub current_time (last_activity data)) timeout.

Definition touch (current_time : float) (data : SessionData) : SessionData :=
  {| user_id := user_id data; created_at := created_at data;
     last_activity := current_time;
     conversation_history := conversation_history data |}.

(** The loop "find existing active session for user": the first entry of
    that user has its [last_activity] set and its key returned. *)
Fixpoint find_session (uid : pystr) (current_time : float)
    (cache : list (pystr * SessionData))
  : option (pystr * list (pystr * SessionData)) :=
  match cache with
  | [] => None
  | (sid, data) :: rest =>
      if bool_decide (user_id data = uid)
      then Some (sid, (sid, touch current_time data) :: rest)
      else match find_session uid current_time rest with
           | Some (found, rest') => Some (found, (sid, data) :: rest')
           | None => None
           end
  end.

(** ** [Pipe.get_session_id] *)

Definition get_session_id (user : UserInfo) : M State pystr :=
  let uid := default (lit "anonymous") (u_id user) in
  current_time <- time_time ;;
  cache <- gets session_cache ;;
  timeout <- gets (fun s => session_timeout (valves s)) ;;
  let expired_sessions :=
    map fst (filter (fun e => is_expired current_time timeout (snd e) = true)
                    cache) in
  modify (with_cache
            (fold_left (fun c sid => dict_del sid c) expired_sessions cache)) ;;
  cache <- gets session_cache ;;
  match find_session uid current_time cache with
  | Some (session_id, cache') =>
      modify (with_cache cache') ;;
      ret session_id
  | None =>
      session_id <- uuid_uuid4 ;;
      modify (fun s =>
                with_cache
                  (dict_set session_id
                     {| user_id := uid; created_at := current_time;
                        last_activity := current_time;
                        conversation_history := [] |}
                     (session_cache s)) s) ;;
      ret session_id
  end.

(** ** [Pipe.call_n8n_router] *)

(** [{"error": msg, "fallback": True}] *)
Definition fallback_result (msg : pystr) : pyval :=
  PDict [(lit "error", PStr msg); (lit "fallback", PBool true)].

Definition record_exchange (x : Exchange) (data : SessionData) : SessionData :=
  let history := conversation_history data ++ [x] in
  {| user_id := user_id data; created_at := created_at data;
     last_activity := last_activity data;
     conversation_history :=
       if (10 <? length history)%nat then last_n 10 history
       else history |}.

(** [self.session_cache.get(session_id, {}).get("conversation_history", [])] *)
Definition history_of (sid : pystr) (cache : list (pystr * SessionData))
  : list Exchange :=
  match dict_lookup sid cache with
  | Some data => conversation_history data
  | None => []
  end.

(** The dict [payload]. *)
Definition build_payload (message session_id : pystr) (user_info : UserInfo)
    (now : float) (cache : list (pystr * SessionData)) : Payload :=
  {| p_message := message;
     p_session_id := session_id;
     p_user_id := default (lit "anonymous") (u_id user_info);
     p_user_email := default [] (u_email user_info);
     p_user_name := default (lit "User") (u_name user_info);
     p_timestamp := now;
     p_conversation_history := last_n 5 (history_of session_id cache) |}.

(** The call of [requests.post] made from the state [s]. *)
Definition router_request (message session_id : pystr) (user_info : UserInfo)
    (s : State) : Request :=
  {| req_url := n8n_webhook_url (valves s);
     req_json := build_payload message session_id user_info
                   (clock s (ticks s)) (session_cache s);
     req_timeout := n8n_timeout (valves s) |}.

(** The dict appended to the history for the reply [d], at time [t]. *)
Definition exchange_of (message : pystr) (d : list (pystr * pyval))
    (t : float) : Exchange :=
  {| user_message := message;
     kenny_response := default (PStr []) (dict_lookup (lit "response") d);
     intent := default (PStr (lit "unknown")) (dict_lookup (lit "intent") d);
     confidence :=
       default (PFloat (S754_zero false)) (dict_lookup (lit "confidence") d);
     timestamp := t |}.

Definition call_n8n_router (message session_id : pystr) (user_info : UserInfo)
  : M State pyval :=
  try_except
    (now <- time_time ;;
     cache <- gets session_cache ;;
     let payload := build_payload message session_id user_info now cache in
     v <- gets valves ;;
     response <- requests_post
                   {| req_url := n8n_webhook_url v; req_json := payload;
                      req_timeout := n8n_timeout v |} ;;
     if status_code response =? 200 then
       result <- response_json response ;;
       cache <- gets session_cache ;;
       match dict_lookup session_id cache with
       | Some _ =>
           r <- py_get result "response" (PStr []) ;;
           i <- py_get result "intent" (PStr (lit "unknown")) ;;
           c <- py_get result "confidence" (PFloat (S754_zero false)) ;;
           t <- time_time ;;
           modify (fun s =>
                     with_cache
                       (dict_update session_id
                          (record_exchange
                             {| user_message := message; kenny_response := r;
                                intent := i; confidence := c;
                                timestamp := t |})
                          (session_cache s)) s)
       | None => ret tt
       end ;;
       ret result
     else
       ret (fallback_result
              (lit "n8n router failed: " ++ str_of_Z (status_code response))))
    (fun e =>
       match e with
       | RequestTimeout _ => ret (fallback_result (lit "Kenny router timeout"))
       | Error msg =>
           ret (fallback_result (lit "Kenny router error: " ++ msg))
       end).

(** ** [Pipe.pipe] *)

Section Pipe.

(** [repr] of a float, a list or a dict: the one part of [str(v)] left
    open. *)
Variable py_repr : pyval -> pystr.

(** [str(v)], as an f-string field [{v}] formats it. *)
Definition py_str (v : pyval) : pystr :=
  match v with
  | PStr s => s
  | PNone => lit "None"
  | PBool b => if b then lit "True" else lit "False"
  | PInt z => str_of_Z z
  | _ => py_repr v
  end.

(** The notice of the degraded mode.  Its literal sits inside the
    expression part of an f-string and ends with a doubled backslash and
    [n], twice.  Python reads a backslash there from version 3.12 on, as in
    any string literal: the text ends with a backslash and the letter [n],
    twice, and not with line breaks; so does the literal below, since this
    language has no escape for the backslash. *)
Definition fallback_notice : pystr :=
  [9888%N; 65039%N] ++ lit " Kenny router unavailable, using fallback mode.\n\n".

Definition fallback_response (user_message : pystr) : pystr :=
  lit "I received your message: '" ++ user_message
  ++ lit "', but Kenny's advanced features are currently unavailable. Please check that all services are running.".

(** The diagnostic line; it ends like [fallback_notice]. *)
Definition intent_line (intent : pyval) (percent : pystr) : pystr :=
  [127919%N] ++ lit " Intent: " ++ py_str intent ++ lit " (" ++ percent
  ++ lit ")\n\n".

(** The chunks of the loop over [enumerate(words)]: each word, followed by
    a space unless it is the last one. *)
Definition word_chunks (words : list pystr) : list pystr :=
  imap (fun i word =>
          word ++ (if (i <? length words - 1)%nat then lit " " else []))
       words.

(** The branch taken when the router's result asks for the fallback. *)
Definition stream_fallback (user_message : pystr) : M State unit :=
  yield (EContent fallback_notice) ;;
  for_each (split (fallback_response user_message))
    (fun chunk => yield (EContent (chunk ++ lit " "))).

(** The other branch: the router's result is streamed. *)
Definition stream_response (kenny_result : pyval) : M State unit :=
  kenny_response <-
    py_get kenny_result "response"
      (PStr (lit "I'm having trouble processing your request.")) ;;
  intent <- py_get kenny_result "intent" (PStr (lit "unknown")) ;;
  confidence <-
    py_get kenny_result "confidence" (PFloat (S754_zero false)) ;;
  debug <- gets (fun s => debug_mode (valves s)) ;;
  (if debug && ne_str intent (lit "unknown") then
     percent <- py_format_percent1 confidence ;;
     yield (EContent (intent_line intent percent))
   else ret tt) ;;
  words <- py_split kenny_response ;;
  for_each (word_chunks words) (fun chunk => yield (EContent chunk)).

(** [if self.valves.debug_mode: print(f"[Kenny Pipeline] Processing
    message: {user_message}")] *)
Definition log_message (user_message : pystr) : M State unit :=
  debug <- gets (fun s => debug_mode (valves s)) ;;
  if debug
  then py_print (lit "[Kenny Pipeline] Processing message: " ++ user_message)
  else ret tt.

(** The body of the [try] block. *)
Definition pipe_body (body : Body) : M State unit :=
  match last (messages body) with
  | None => yield (EError (lit "No messages provided"))
  | Some last_message =>
      let user_message := default [] (content last_message) in
      let user_info := user body in
      log_message user_message ;;
      session_id <- get_session_id user_info ;;
      kenny_result <- call_n8n_router user_message session_id user_info ;;
      fallback <- py_get kenny_result "fallback" PNone ;;
      (if truthy fallback then stream_fallback user_message
       else stream_response kenny_result) ;;
      yield EFinish ;;
      yield EDone
  end.

Definition pipe (body : Body) : M State unit :=
  try_except (pipe_body body)
    (fun e =>
       yield (EError (lit "Pipeline error: " ++ exn_str e)) ;;
       yield EDone).

(** A generator starts with nothing yielded. *)
Definition started (s : State) : State :=
  {| valves := valves s; session_cache := session_cache s; clock := clock s;
     ticks := ticks s; uuid4 := uuid4 s; uuids_drawn := uuids_drawn s;
     n8n := n8n s; posted := posted s; yielded := [] |}.

(** The events a caller receives when it consumes [pipe(body)] to the end,
    and the state the [Pipe] and the world are left in. *)
Definition run_pipe (body : Body) (s : State) : list Event * State :=
  let s' := snd (pipe body (started s)) in
  (yielded s', s').

End Pipe.

(** The print of the user's message goes through: the debug valve is off,
    or the message holds no surrogate. *)
Definition log_passes (debug : bool) (user_message : pystr) : bool :=
  negb debug || negb (existsb is_surrogate user_message).

(** ** The events on the wire *)

(** [json.dumps(s)] for a [str], with the default [ensure_ascii]. *)
Definition hex_digit (n : N) : N :=
  (if n <? 10 then 48 + n else 87 + n)%N.

Definition u_escape (c : N) : pystr :=
  [92%N; 117%N; hex_digit (c / 4096 mod 16); hex_digit (c / 256 mod 16);
   hex_digit (c / 16 mod 16); hex_digit (c mod 16)]%N.

Definition json_char (c : N) : pystr :=
  (if c =? 34 then [92; 34]
   else if c =? 92 then [92; 92]
   else if c =? 10 then [92; 110]
   else if c =? 13 then [92; 114]
   else if c =? 9 then [92; 116]
   else if c =? 8 then [92; 98]
   else if c =? 12 then [92; 102]
   else if (32 <=? c) && (c <=? 126) then [c]
   else if c <? 65536 then u_escape c
   else u_escape (55296 + (c - 65536) / 1024)
        ++ u_escape (56320 + (c - 65536) mod 1024))%N.

Definition json_str (s : pystr) : pystr :=
  [34%N] ++ concat (map json_char s) ++ [34%N].

(** ["key": ] *)
Definition json_key (k : string) : pystr := json_str (lit k) ++ lit ": ".

(** One event as the text the generator yields. *)
Definition render (e : Event) : pystr :=
  match e with
  | EContent text =>
      lit "data: {" ++ json_key "choices" ++ lit "[{" ++ json_key "delta"
      ++ lit "{" ++ json_key "content" ++ json_str text ++ lit "}}]}"
      ++ [10%N; 10%N]
  | EFinish =>
      lit "data: {" ++ json_key "choices" ++ lit "[{"
      ++ json_key "finish_reason" ++ json_str (lit "stop") ++ lit "}]}"
      ++ [10%N; 10%N]
  | EError msg =>
      lit "data: {" ++ json_key "error" ++ json_str msg ++ lit "}"
      ++ [10%N; 10%N]
  | EDone => lit "data: [DONE]" ++ [10%N; 10%N]
  end.

(** ** Relay outcomes and what a client reads *)

(** The answers of the workflow that make [call_n8n_router] give up: a
    timeout, any other failure of the call, a status other than 200, a body
    that [response.json()] cannot decode. *)
Definition relay_fails (answer : http_result) : bool :=
  match answer with
  | HttpTimeout _ => true
  | HttpFailure _ => true
  | HttpOk r =>
      negb (status_code r =? 200)
      || match json_body r with inr _ => true | inl _ => false end
  end.

Definition is_content (e : Event) : bool :=
  match e with EContent _ => true | _ => false end.

(** The content events of the fallback branch for the user's message: the
    notice, then the words of the fallback message, a space after each. *)
Definition fallback_events (message : pystr) : list Event :=
  EContent fallback_notice
  :: map (fun chunk => EContent (chunk ++ lit " "))
         (split (fallback_response message)).

(** The text a client puts together from the content events of a stream. *)
Definition content_text (events : list Event) : pystr :=
  concat (map (fun e => match e with EContent t => t | _ => [] end) events).

(** ** Concrete runs *)

Definition alice : UserInfo :=
  {| u_id := Some (lit "alice"); u_email := None; u_name := None |}.

(** A request whose only message is [text]. *)
Definition ask (text : pystr) : Body :=
  {| messages := [{| content := Some text |}]; user := alice |}.

(** A [Pipe] just constructed, with the default valves, in front of the
    given workflow; the clock reads 1000, 1001, ... seconds. *)
Definition new_pipe (workflow : nat -> Request -> http_result) : State :=
  {| valves := default_valves; session_cache := [];
     clock := fun n => of_Z (1000 + Z.of_nat n); ticks := 0;
     uuid4 := fun n => lit "session-" ++ str_of_Z (Z.of_nat n);
     uuids_drawn := 0; n8n := workflow; posted := []; yielded := [] |}.

(** A workflow that answers every call with status 200 and the body [v]. *)
Definition answers (v : pyval) : nat -> Request -> http_result :=
  fun _ _ => HttpOk {| status_code := 200; text := []; json_body := inl v |}.

(** A workflow that lets every call run into the deadline. *)
Definition times_out : nat -> Request -> http_result :=
  fun _ _ => HttpTimeout (lit "Read timed out.").

(** The float that the JSON number 0.92 decodes to. *)
Definition confidence_092 : float :=
  S754_finite false 8286623314361713 (-53).

Definition calendar_reply : pyval :=
  PDict [(lit "response", PStr (lit "You have 2 meetings."));
         (lit "intent", PStr (lit "calendar_query"));
         (lit "confidence", PFloat confidence_092)].

(** No float, list or dict is printed in the runs below. *)
Definition repr_unused (v : pyval) : pystr := [].

(** The pipe after [n] more requests of alice, each consumed to the end. *)
Fixpoint after_turns (n : nat) (s : State) : State :=
  match n with
  | O => s
  | S n' => after_turns n' (snd (run_pipe repr_unused (ask (lit "hi")) s))
  end.

(** A pipe that has answered seven requests of alice, and her session. *)
Definition seven_turns : State :=
  after_turns 7 (new_pipe (answers calendar_reply)).

Definition seven_turns_data : SessionData :=
  default {| user_id := []; created_at := of_Z 0; last_activity := of_Z 0;
             conversation_history := [] |}
          (dict_lookup (lit "session-0") (session_cache seven_turns)).

(** ** The streams and the history, as the specification has them *)

(** Scenario A: one diagnostic chunk that mentions the intent and [percent],
    then word chunks that make up the response, then the finish chunk and
    the sentinel. *)
Definition scenario_A_stream (percent : pystr) (events : list Event) : Prop :=
  exists diagnostic words,
    events = EContent diagnostic :: map EContent words ++ [EFinish; EDone] /\
    contains (lit "calendar_query") diagnostic = true /\
    contains percent diagnostic = true /\
    concat words = lit "You have 2 meetings.".


(** ** Properties of the cache, of the stream and of its frames *)

(** What the cache of a [Pipe] satisfies at any time: the keys of a dict
    are distinct, no two sessions belong to the same user, and no history
    is longer than ten exchanges. *)
Definition cache_ok (cache : list (pystr * SessionData)) : Prop :=
  dict_wf cache /\
  NoDup ((fun e => user_id (snd e)) <$> cache) /\
  Forall (fun e => (length (conversation_history (snd e)) <= 10)%nat) cache.

(** The request gets as far as the workflow: it has a message, and the
    print of that message goes through. *)
Definition reaches_router (debug : bool) (body : Body) : bool :=
  match last (messages body) with
  | Some m => log_passes debug (default [] (content m))
  | None => false
  end.

Section Serve.
Variable py_repr : pyval -> pystr.


End Serve.

(** A character that [json.dumps] leaves in its output: printable ASCII. *)
Definition printable (c : N) : Prop := (32 <= c <= 126)%N.

(** The diagnostic chunk for an intent and a confidence that is a float. *)
Definition diagnostic (repr : pyval -> pystr) (debug : bool) (intent : pyval)
    (c : float) : list Event :=
  if debug && ne_str intent (lit "unknown")
  then [EContent (intent_line repr intent (format_percent1 c))]
  else [].

(** ** Further concrete runs *)

(** A pipe like [new_pipe] whose clock reads 2000 seconds more at each
    reading. *)
Definition slow_clock_pipe (workflow : nat -> Request -> http_result) : State :=
  {| valves := default_valves; session_cache := [];
     clock := fun n => of_Z (1000 + 2000 * Z.of_nat n); ticks := 0;
     uuid4 := fun n => lit "session-" ++ str_of_Z (Z.of_nat n);
     uuids_drawn := 0; n8n := workflow; posted := []; yielded := [] |}.

(** A reply with a response only. *)
Definition plain_reply : pyval :=
  PDict [(lit "response", PStr (lit "All done."))].

(** A reply whose response is a number. *)
Definition numeric_reply : pyval :=
  PDict [(lit "response", PInt 42)].

(** A reply whose confidence is a word. *)
Definition vague_reply : pyval :=
  PDict [(lit "response", PStr (lit "You have 2 meetings."));
         (lit "intent", PStr (lit "calendar_query"));
         (lit "confidence", PStr (lit "high"))].

End Pipeline.

(* ===================================================================== *)
(** * services/kenny_session_manager.py *)
(* ===================================================================== *)

Module SessionManager.

(** ** Data *)

(** One element of [ConversationContext.turns]: the dict [turn_data]. *)
Record Turn := {
  user_message : pystr;
  kenny_response : pystr;
  intent_classified : pystr;
  intent_confidence : float;
  timestamp : float;
  turn_number : Z
}.

Record ConversationContext := {
  session_id : pystr;
  user_id : pystr;
  turns : list Turn;
  created_at : float;
  last_activity : float;
  metadata : pyval
}.

(** The durable store, as far as the manager uses it: the rows of the
    tables [conversations] and [conversation_turns].  [None] in
    [row_metadata] is a row without that key. *)
Record ConversationRow := {
  row_id : Z;
  row_session_id : pystr;
  row_user_id : pystr;
  row_created_at : float;
  row_last_activity : float;
  row_metadata : option pyval
}.

Record TurnRow := {
  row_conversation_id : Z;
  row_turn : Turn
}.

(** The calls made to the network cache and to the durable store. *)
Inductive Call :=
| RedisGet (key : pystr)
| RedisSetex (key : pystr) (ttl : Z)
| RedisDelete (key : pystr)
| SelectConversations (sid : pystr)
| SelectTurns (conversation_id : Z)
| InsertConversation (sid : pystr).

(** The manager ([sessions], [session_timeout], [redis]: [None] until
    [initialize] has run), the two servers behind it, the clock, and the
    calls made to the servers so far.  A cache entry is the time to live it
    was stored with and the serialised session; the server's own expiry of
    entries is not modelled. *)
Record State := {
  sessions : list (pystr * ConversationContext);
  session_timeout : Z;
  redis : option (gmap pystr (Z * ConversationContext));
  conversations : list ConversationRow;
  conversation_turns : list TurnRow;
  clock : nat -> float;
  ticks : nat;
  calls : list Call
}.

Definition with_sessions (m : list (pystr * ConversationContext)) (s : State)
  : State :=
  {| sessions := m; session_timeout := session_timeout s; redis := redis s;
     conversations := conversations s;
     conversation_turns := conversation_turns s;
     clock := clock s; ticks := ticks s; calls := calls s |}.

(** ** Effects *)

(** [time.time()] *)
Definition time_time : M State float :=
  fun s =>
    (Ret (clock s (ticks s)),
     {| sessions := sessions s; session_timeout := session_timeout s;
        redis := redis s; conversations := conversations s;
        conversation_turns := conversation_turns s;
        clock := clock s; ticks := S (ticks s); calls := calls s |}).

Definition log_call (c : Call) (s : State) : State :=
  {| sessions := sessions s; session_timeout := session_timeout s;
     redis := redis s; conversations := conversations s;
     conversation_turns := conversation_turns s;
     clock := clock s; ticks := ticks s; calls := calls s ++ [c] |}.

Definition with_redis (r : gmap pystr (Z * ConversationContext)) (s : State)
  : State :=
  {| sessions := sessions s; session_timeout := session_timeout s;
     redis := Some r; conversations := conversations s;
     conversation_turns := conversation_turns s;
     clock := clock s; ticks := ticks s; calls := calls s |}.

(** [f"kenny:session:{session_id}"] *)
Definition cache_key (sid : pystr) : pystr := lit "kenny:session:" ++ sid.

(** [await self.redis.get(key)], then, on a hit, [json.loads] and the
    construction of a [ConversationContext] from the decoded dict. *)
Definition redis_get (r : gmap pystr (Z * ConversationContext)) (key : pystr)
  : M State (option ConversationContext) :=
  modify (log_call (RedisGet key)) ;;
  ret (snd <$> r !! key).

(** [await self.redis.setex(key, ttl, json.dumps(asdict(session)))] *)
Definition redis_setex (r : gmap pystr (Z * ConversationContext))
    (key : pystr) (ttl : Z) (session : ConversationContext) : M State unit :=
  modify (log_call (RedisSetex key ttl)) ;;
  modify (with_redis (<[key := (ttl, session)]> r)).

(** [await self.redis.delete(key)] *)
Definition redis_delete (r : gmap pystr (Z * ConversationContext))
    (key : pystr) : M State unit :=
  modify (log_call (RedisDelete key)) ;;
  modify (with_redis (delete key r)).

(** The rows of [conversations] whose [session_id] is [sid]. *)
Definition select_conversations (sid : pystr) : M State (list ConversationRow) :=
  modify (log_call (SelectConversations sid)) ;;
  gets (fun s =>
          filter (fun row => row_session_id row = sid) (conversations s)).

(** Insertion of a turn into a list ordered by turn number. *)
Fixpoint insert_by_number (t : Turn) (l : list Turn) : list Turn :=
  match l with
  | [] => [t]
  | t' :: l' =>
      if turn_number t <=? turn_number t' then t :: t' :: l'
      else t' :: insert_by_number t l'
  end.

(** [.order('turn_number')]: ascending; rows with the same number are left
    in the order of the table. *)
Definition order_by_number (l : list Turn) : list Turn :=
  foldr insert_by_number [] l.

(** The rows of [conversation_turns] whose [conversation_id] is [cid],
    ordered by [turn_number]. *)
Definition select_turns (cid : Z) : M State (list Turn) :=
  modify (log_call (SelectTurns cid)) ;;
  gets (fun s =>
          order_by_number
            (map row_turn
               (filter (fun row => row_conversation_id row = cid)
                       (conversation_turns s)))).

(** [table('conversations').insert({...}).execute()]; the store gives the
    row the next free [id]. *)
Definition insert_conversation (sid uid : pystr) (created last : float)
  : M State unit :=
  modify (log_call (InsertConversation sid)) ;;
  modify (fun s =>
    {| sessions := sessions s; session_timeout := session_timeout s;
       redis := redis s;
       conversations :=
         conversations s ++
         [{| row_id := 1 + foldr Z.max 0 (map row_id (conversations s));
             row_session_id := sid; row_user_id := uid;
             row_created_at := created; row_last_activity := last;
             row_metadata := None |}];
       conversation_turns := conversation_turns s;
       clock := clock s; ticks := ticks s; calls := calls s |}).

(** ** [KennySessionManager._cache_session] *)

Definition _cache_session (session : ConversationContext) : M State unit :=
  r <- gets redis ;;
  match r with
  | Some r =>
      ttl <- gets session_timeout ;;
      redis_setex r (cache_key (session_id session)) ttl session
  | None => ret tt
  end.

(** ** [KennySessionManager.get_or_create_session] *)

Definition refresh (now : float) (c : ConversationContext)
  : ConversationContext :=
  {| session_id := session_id c; user_id := user_id c; turns := turns c;
     created_at := created_at c; last_activity := now;
     metadata := metadata c |}.

(** [self.sessions[sid] = session] *)
Definition store_session (sid : pystr) (session : ConversationContext)
  : M State unit :=
  modify (fun s => with_sessions (dict_set sid session (sessions s)) s).

(** The value returned stands for the object now held in [self.sessions]
    under [sid]. *)
Definition get_or_create_session (sid uid : pystr)
  : M State ConversationContext :=
  in_memory <- gets (fun s => dict_lookup sid (sessions s)) ;;
  match in_memory with
  | Some session =>
      now <- time_time ;;
      let session := refresh now session in
      store_session sid session ;;
      ret session
  | None =>
      r <- gets redis ;;
      cached <- match r with
                | Some r => redis_get r (cache_key sid)
                | None => ret None
                end ;;
      match cached with
      | Some session =>
          store_session sid session ;;
          ret session
      | None =>
          result <- select_conversations sid ;;
          session <-
            match result with
            | conv_data :: _ =>
                turns_result <- select_turns (row_id conv_data) ;;
                now <- time_time ;;
                ret {| session_id := sid; user_id := uid;
                       turns := turns_result;
                       created_at := row_created_at conv_data;
                       last_activity := now;
                       metadata :=
                         default (PDict []) (row_metadata conv_data) |}
            | [] =>
                t1 <- time_time ;;
                t2 <- time_time ;;
                insert_conversation sid uid t1 t2 ;;
                t3 <- time_time ;;
                t4 <- time_time ;;
                ret {| session_id := sid; user_id := uid; turns := [];
                       created_at := t3; last_activity := t4;
                       metadata := PDict [] |}
            end ;;
          store_session sid session ;;
          _cache_session session ;;
          ret session
      end
  end.

(** ** [KennySessionManager.add_turn] *)

(** The session after [turns.append(turn_data)], the update of
    [last_activity] and the cut to the last ten turns. *)
Definition with_turn (turn_data : Turn) (now : float)
    (session : ConversationContext) : ConversationContext :=
  let appended := turns session ++ [turn_data] in
  {| session_id := session_id session; user_id := user_id session;
     turns := if (10 <? length appended)%nat then last_n 10 appended
              else appended;
     created_at := created_at session; last_activity := now;
     metadata := metadata session |}.

Definition add_turn (sid message response intent : pystr)
    (confidence : float) : M State unit :=
  found <- gets (fun s => dict_lookup sid (sessions s)) ;;
  match found with
  | None => ret tt
  | Some session =>
      t <- time_time ;;
      let turn_data :=
        {| user_message := message; kenny_response := response;
           intent_classified := intent; intent_confidence := confidence;
           timestamp := t;
           turn_number := Z.of_nat (length (turns session)) + 1 |} in
      now <- time_time ;;
      let session := with_turn turn_data now session in
      store_session sid session ;;
      _cache_session session
  end.

(** ** [KennySessionManager.cleanup_sessions] *)

(** [current_time - session.last_activity > self.session_timeout] *)
Definition is_expired (current_time : float) (timeout : Z)
    (session : ConversationContext) : bool :=
  gt_int (fsub current_time (last_activity session)) timeout.

Definition cleanup_sessions : M State unit :=
  current_time <- time_time ;;
  timeout <- gets session_timeout ;;
  all <- gets sessions ;;
  let expired :=
    map fst (filter (fun e => is_expired current_time timeout (snd e) = true)
                    all) in
  for_each expired
    (fun sid =>
       modify (fun s => with_sessions (dict_del sid (sessions s)) s) ;;
       r <- gets redis ;;
       match r with
       | Some r => redis_delete r (cache_key sid)
       | None => ret tt
       end).

(** ** Sequences of appends *)

(** The arguments of one call of [add_turn] for a given session. *)
Record Append := {
  a_message : pystr;
  a_response : pystr;
  a_intent : pystr;
  a_confidence : float
}.

(** The turn a call of [add_turn] has just appended to the session: the
    last one of its turns. *)
Definition appended_turn (sid : pystr) (s : State) : option Turn :=
  match dict_lookup sid (sessions s) with
  | Some c => last (turns c)
  | None => None
  end.

(** The calls of [add_turn] for [sid] made one after the other: the turns
    they appended, in order, and the state reached. *)
Fixpoint run_appends (sid : pystr) (l : list Append) (s : State)
  : list Turn * State :=
  match l with
  | [] => ([], s)
  | a :: l' =>
      let s1 :=
        snd (add_turn sid (a_message a) (a_response a) (a_intent a)
               (a_confidence a) s) in
      let '(created, s2) := run_appends sid l' s1 in
      (option_list (appended_turn sid s1) ++ created, s2)
  end.

(** ** Concrete managers *)

(** A manager connected to an empty cache and an empty store, whose clock
    reads 0, 1, 2, ... seconds. *)
Definition empty_manager : State :=
  {| sessions := []; session_timeout := 3600; redis := Some ∅;
     conversations := []; conversation_turns := [];
     clock := fun n => of_Z (Z.of_nat n); ticks := 0; calls := [] |}.

(** The manager after session ["s"] of user ["u"] has been created. *)
Definition fresh_manager : State :=
  snd (get_or_create_session (lit "s") (lit "u") empty_manager).

Definition hello : Append :=
  {| a_message := lit "hi"; a_response := lit "hello"; a_intent := lit "chat";
     a_confidence := of_Z 1 |}.

(** A session last active at time 0, in a manager whose clock reads 10000
    seconds, with a cache and a store that are both connected. *)
Definition stale_session : ConversationContext :=
  {| session_id := lit "s"; user_id := lit "u"; turns := [];
     created_at := of_Z 0; last_activity := of_Z 0; metadata := PDict [] |}.

Definition stale_manager : State :=
  {| sessions := [(lit "s", stale_session)]; session_timeout := 3600;
     redis := Some ∅; conversations := []; conversation_turns := [];
     clock := fun _ => of_Z 10000; ticks := 0; calls := [] |}.

(** ** The lookup in the process-local map, as the specification has it *)

(** An entry of the process-local map that is expired is not returned from
    the first step: the lookup goes on to the network cache or to the
    durable store, that is, it makes a call. *)
Definition skips_expired_entry (sid uid : pystr) (s : State) : Prop :=
  forall c,
    dict_lookup sid (sessions s) = Some c ->
    is_expired (clock s (ticks s)) (session_timeout s) c = true ->
    calls (snd (get_or_create_session sid uid s)) <> calls s.

(** ** The tiers of a manager *)

(** The network cache has no entry for the session, or is not connected. *)
Definition cache_misses (sid : pystr) (s : State) : Prop :=
  match redis s with
  | Some r => r !! cache_key sid = None
  | None => True
  end.

(** The calls that go to the network cache. *)
Definition is_cache_call (c : Call) : bool :=
  match c with
  | RedisGet _ | RedisSetex _ _ | RedisDelete _ => true
  | _ => false
  end.

(** A manager that was never connected to the network cache, as the
    constructor leaves it. *)
Definition offline_manager : State :=
  {| sessions := []; session_timeout := 3600; redis := None;
     conversations := []; conversation_turns := [];
     clock := fun n => of_Z (Z.of_nat n); ticks := 0; calls := [] |}.

End SessionManager.

(* ===================================================================== *)
(** * Facts about lists, dicts and strings *)
(* ===================================================================== *)

Module ListFacts.

(** The slice [l[-n:]]: its length, and what it keeps. *)
Lemma length_last_n {A} n (l : list A) :
  length (last_n n l) = Nat.min (length l) n.
Proof. unfold last_n. rewrite length_drop. lia. Qed.

Lemma last_n_short {A} n (l : list A) : (length l <= n)%nat -> last_n n l = l.
Proof.
  intros H. unfold last_n. replace (length l - n)%nat with 0%nat by lia.
  apply drop_0.
Qed.

Lemma last_n_suffix {A} n (l : list A) :
  exists older, l = older ++ last_n n l.
Proof. exists (take (length l - n) l). unfold last_n. by rewrite take_drop. Qed.


Lemma last_last_n {A} n (l : list A) :
  (0 < n)%nat -> last (last_n n l) = last l.
Proof.
  intros Hn. destruct (last_n_suffix n l) as [older Hl].
  destruct (last_n n l) as [|x t] eqn:E.
  - assert (length (last_n n l) = 0%nat) as H0 by (by rewrite E).
    rewrite length_last_n in H0. destruct l; [done|cbn [length] in H0; lia].
  - rewrite Hl. by rewrite last_app_cons.
Qed.

End ListFacts.

Module DictFacts.

(** Reading a dict after an assignment or an update in place. *)
Lemma dict_lookup_set_eq {V} k (v : V) d :
  dict_lookup k (dict_set k v d) = Some v.
Proof.
  induction d as [|[k' v'] d IH]; simpl.
  - by rewrite bool_decide_eq_true_2.
  - destruct (bool_decide (k' = k)) eqn:E; simpl.
    + by rewrite bool_decide_eq_true_2.
    + by rewrite E.
Qed.

Lemma dict_lookup_set_ne {V} k k0 (v : V) d :
  k <> k0 -> dict_lookup k0 (dict_set k v d) = dict_lookup k0 d.
Proof.
  intros Hne. induction d as [|[k' v'] d IH]; simpl.
  - by rewrite bool_decide_eq_false_2.
  - destruct (bool_decide (k' = k)) eqn:E; simpl.
    + apply bool_decide_eq_true_1 in E. subst k'.
      by rewrite !bool_decide_eq_false_2.
    + by rewrite IH.
Qed.

Lemma dict_lookup_update_same {V} k (f : V -> V) d :
  dict_lookup k (dict_update k f d) = f <$> dict_lookup k d.
Proof.
  induction d as [|[k' v] d IH]; cbn; [done|].
  destruct (bool_decide (k' = k)) eqn:E; cbn; by rewrite E.
Qed.

End DictFacts.

Module StrFacts.

Lemma starts_with_app n b : starts_with n (n ++ b) = true.
Proof. induction n as [|c n IH]; cbn; [done|]. by rewrite N.eqb_refl. Qed.

Lemma contains_unfold n h :
  contains n h =
  starts_with n h || match h with [] => false | _ :: h' => contains n h' end.
Proof. by destruct h. Qed.

Lemma contains_app n a b : contains n (a ++ n ++ b) = true.
Proof.
  induction a as [|c a IH]; cbn [app].
  - by rewrite contains_unfold, starts_with_app.
  - rewrite contains_unfold, IH. apply orb_true_r.
Qed.

(** The executable test finds every occurrence. *)
Lemma contains_complete n h : substring n h -> contains n h = true.
Proof. intros (pre & post & ->). apply contains_app. Qed.

(** Splitting at a whitespace character. *)
Lemma split_from_app_space cur a c b :
  is_space c = true ->
  split_from cur (a ++ c :: b) = split_from cur a ++ split b.
Proof.
  intros Hc. revert cur.
  induction a as [|x a IH]; intros cur; cbn [app split_from].
  - rewrite Hc. by destruct cur.
  - destruct (is_space x); [destruct cur|]; by rewrite IH.
Qed.

(** The text of a single-spaced string survives the splitting: the words,
    each followed by a space, make up the string and one more space. *)
Lemma single_spaced_text x : forall cur,
  scan (match cur with [] => false | _ => true end) x = Some true ->
  concat (map (fun w => w ++ lit " ") (split_from cur x))
  = rev cur ++ x ++ lit " ".
Proof.
  induction x as [|c x IH]; intros cur; cbn [scan split_from].
  - destruct cur; [done|]. intros _. cbn [map concat]. by rewrite app_nil_r.
  - destruct (is_space c) eqn:Hc.
    + destruct (c =? 32)%N eqn:H32; [|done]. apply N.eqb_eq in H32. subst c.
      destruct cur as [|c' cur]; [done|]. cbn [andb]. intros Hx.
      cbn [map concat]. rewrite (IH [] Hx). cbn [rev app].
      by rewrite <- !app_assoc.
    + intros Hx. rewrite (IH (c :: cur) Hx). cbn [rev].
      by rewrite <- !app_assoc.
Qed.

Lemma scan_app x y : forall b,
  scan b (x ++ y) = match scan b x with Some b' => scan b' y | None => None end.
Proof.
  induction x as [|c x IH]; intros b; cbn [app scan]; [done|].
  destruct (is_space c); [destruct ((c =? 32)%N && b)|]; by rewrite ?IH.
Qed.

End StrFacts.

(* ===================================================================== *)
(** * Facts about computations *)
(* ===================================================================== *)

Module EffFacts.

Lemma bind_ret_run {S A B} (c : M S A) (k : A -> M S B) s a s' :
  c s = (Ret a, s') -> bind c k s = k a s'.
Proof. intros H. unfold bind. by rewrite H. Qed.

Lemma bind_raise_run {S A B} (c : M S A) (k : A -> M S B) s e s' :
  c s = (Raise e, s') -> bind c k s = (Raise e, s').
Proof. intros H. unfold bind. by rewrite H. Qed.

End EffFacts.

(* ===================================================================== *)
(** * The session manager *)
(* ===================================================================== *)

Module SessionFacts.
Import SessionManager ListFacts DictFacts.

(** One call of [add_turn] on a session of the map. *)
Lemma add_turn_present sid m r i c s ctx :
  dict_lookup sid (sessions s) = Some ctx ->
  exists s',
    add_turn sid m r i c s = (Ret tt, s') /\
    dict_lookup sid (sessions s') =
      Some (with_turn
              {| user_message := m; kenny_response := r;
                 intent_classified := i; intent_confidence := c;
                 timestamp := clock s (ticks s);
                 turn_number := Z.of_nat (length (turns ctx)) + 1 |}
              (clock s (S (ticks s))) ctx).
Proof.
  intros Hctx. unfold add_turn, bind, gets. rewrite Hctx. cbn.
  unfold _cache_session, bind, gets. cbn.
  destruct (redis s) as [rd|]; cbn; eexists; (split; [reflexivity|]); cbn;
    apply dict_lookup_set_eq.
Qed.

Lemma turns_with_turn t now ctx :
  turns (with_turn t now ctx) = last_n 10 (turns ctx ++ [t]).
Proof.
  unfold with_turn; cbn [turns].
  destruct (10 <? length (turns ctx ++ [t]))%nat eqn:E; [done|].
  apply Nat.ltb_ge in E. by rewrite last_n_short.
Qed.

Lemma appended_after_add_turn sid m r i c s ctx :
  dict_lookup sid (sessions s) = Some ctx ->
  appended_turn sid (snd (add_turn sid m r i c s)) =
    Some {| user_message := m; kenny_response := r;
            intent_classified := i; intent_confidence := c;
            timestamp := clock s (ticks s);
            turn_number := Z.of_nat (length (turns ctx)) + 1 |}.
Proof.
  intros Hctx. destruct (add_turn_present sid m r i c s ctx Hctx) as (s' & Hrun & Hs').
  rewrite Hrun. cbn [snd]. unfold appended_turn. rewrite Hs'.
  rewrite turns_with_turn, last_last_n by lia. apply last_snoc.
Qed.


(** A record that already holds ten turns gives every further turn the
    number 11. *)
Lemma turn_number_of_full_record sid m r i c s ctx :
  dict_lookup sid (sessions s) = Some ctx ->
  length (turns ctx) = 10%nat ->
  exists ctx',
    dict_lookup sid (sessions (snd (add_turn sid m r i c s))) = Some ctx' /\
    length (turns ctx') = 10%nat /\
    turn_number <$> appended_turn sid (snd (add_turn sid m r i c s)) = Some 11.
Proof.
  intros Hctx Hlen.
  rewrite (appended_after_add_turn sid m r i c s ctx Hctx).
  destruct (add_turn_present sid m r i c s ctx Hctx) as (s' & Hrun & Hs').
  rewrite Hrun. cbn [snd]. eexists. split; [exact Hs'|].
  rewrite turns_with_turn, length_last_n, length_app, Hlen. by cbn.
Qed.

(** C1: the numbers [add_turn] gives to twelve turns appended one after the
    other to a new session are 1, 2, ..., 10, 11 and 11 again: the number is
    one more than the count of the turns kept, and that count stays at ten
    once the list has been cut. *)
Theorem turn_numbers_repeat_after_ten :
  map turn_number
      (fst (run_appends (lit "s") (replicate 12 hello) fresh_manager))
  = [1; 2; 3; 4; 5; 6; 7; 8; 9; 10; 11; 11].
Proof. vm_compute. reflexivity. Qed.



(** C10: for a session id that is not in [sessions], [add_turn] returns
    at once: no exception, and the whole state is as before, so no turn is
    created, no session is touched, the clock is not read and no call goes
    to the network cache. *)
Theorem add_turn_unknown_session_noop sid m r i c s :
  dict_lookup sid (sessions s) = None ->
  add_turn sid m r i c s = (Ret tt, s).
Proof. intros Hnone. unfold add_turn, bind, gets. by rewrite Hnone. Qed.

Lemma add_turn_unknown_session_noop_witness :
  dict_lookup (lit "nobody") (sessions fresh_manager) = None /\
  add_turn (lit "nobody") (lit "hi") (lit "hello") (lit "chat") (of_Z 1)
    fresh_manager
  = (Ret tt, fresh_manager).
Proof.
  split; [reflexivity|].
  apply (add_turn_unknown_session_noop (lit "nobody") (lit "hi") (lit "hello")
           (lit "chat") (of_Z 1) fresh_manager).
  reflexivity.
Defined.

(** What the lookup does with the stale session of [stale_manager]. *)
Example stale_session_served :
  is_expired (clock stale_manager (ticks stale_manager))
    (session_timeout stale_manager) stale_session = true /\
  fst (get_or_create_session (lit "s") (lit "u") stale_manager)
  = Ret (refresh (of_Z 10000) stale_session) /\
  calls (snd (get_or_create_session (lit "s") (lit "u") stale_manager)) = [].
Proof. repeat split; vm_compute; reflexivity. Qed.

(** C4, as stated, fails: the session of [stale_manager] has been idle for
    10000 seconds, more than the 3600 allowed, and the lookup returns it
    without a single call to the network cache or to the durable store. *)
Lemma stale_entry_not_skipped :
  ~ skips_expired_entry (lit "s") (lit "u") stale_manager.
Proof.
  intros Hskip. apply (Hskip stale_session); vm_compute; reflexivity.
Qed.

(** C4, amended: a session id found in [sessions] is answered from there
    whatever the age of the entry: the entry gets the current time as its
    last activity and is returned, and neither the network cache nor the
    durable store is called or changed. *)
Theorem memory_entry_returned_at_any_age sid uid s ctx :
  dict_lookup sid (sessions s) = Some ctx ->
  let now := clock s (ticks s) in
  let s' := snd (get_or_create_session sid uid s) in
  fst (get_or_create_session sid uid s) = Ret (refresh now ctx) /\
  dict_lookup sid (sessions s') = Some (refresh now ctx) /\
  last_activity (refresh now ctx) = now /\
  turns (refresh now ctx) = turns ctx /\
  calls s' = calls s /\ redis s' = redis s /\
  conversations s' = conversations s /\
  conversation_turns s' = conversation_turns s.
Proof.
  intros Hctx now s'. subst s'.
  unfold get_or_create_session, bind, gets. rewrite Hctx. cbn.
  repeat split. apply dict_lookup_set_eq.
Qed.

Lemma memory_entry_returned_at_any_age_witness :
  dict_lookup (lit "s") (sessions stale_manager) = Some stale_session /\
  let now := clock stale_manager (ticks stale_manager) in
  let s' := snd (get_or_create_session (lit "s") (lit "u") stale_manager) in
  fst (get_or_create_session (lit "s") (lit "u") stale_manager)
  = Ret (refresh now stale_session) /\
  dict_lookup (lit "s") (sessions s') = Some (refresh now stale_session) /\
  last_activity (refresh now stale_session) = now /\
  turns (refresh now stale_session) = turns stale_session /\
  calls s' = calls stale_manager /\ redis s' = redis stale_manager /\
  conversations s' = conversations stale_manager /\
  conversation_turns s' = conversation_turns stale_manager.
Proof.
  split; [reflexivity|].
  apply (memory_entry_returned_at_any_age (lit "s") (lit "u") stale_manager
           stale_session).
  reflexivity.
Defined.

End SessionFacts.

(* ===================================================================== *)
(** * The pipeline *)
(* ===================================================================== *)

Module PipelineFacts.
Import Pipeline EffFacts StrFacts ListFacts DictFacts.

(** *** The state *)

Lemma emitted_nil s : emitted [] s = s.
Proof. destruct s. unfold emitted. cbn. by rewrite app_nil_r. Qed.

Lemma emitted_emitted l1 l2 s :
  emitted l2 (emitted l1 s) = emitted (l1 ++ l2) s.
Proof. unfold emitted. cbn. by rewrite app_assoc. Qed.

Lemma for_each_yield {A} (f : A -> Event) (l : list A) : forall s,
  for_each l (fun x => yield (f x)) s = (Ret tt, emitted (map f l) s).
Proof.
  induction l as [|x l IH]; intros s; cbn [for_each map].
  - unfold ret. by rewrite emitted_nil.
  - unfold bind, yield. rewrite IH, emitted_emitted. reflexivity.
Qed.

(** *** [get_session_id] *)

Lemma find_session_lookup uid now cache : forall sid cache',
  find_session uid now cache = Some (sid, cache') ->
  is_Some (dict_lookup sid cache').
Proof.
  induction cache as [|[k data] rest IH]; intros sid cache'; cbn; [done|].
  destruct (bool_decide (user_id data = uid)).
  - intros [= <- <-]. cbn. by rewrite bool_decide_eq_true_2.
  - destruct (find_session uid now rest) as [[found rest']|]; [|done].
    intros [= <- <-]. cbn. destruct (bool_decide (k = found)); [done|].
    by apply IH.
Qed.

(** [get_session_id] returns: it reads the clock once, leaves the valves, the
    workflow, the calls made and the events yielded as they were, and the
    id it returns is a key of the cache. *)
Lemma get_session_id_run user s :
  exists sid s1,
    get_session_id user s = (Ret sid, s1) /\
    is_Some (dict_lookup sid (session_cache s1)) /\
    valves s1 = valves s /\ clock s1 = clock s /\ ticks s1 = S (ticks s) /\
    n8n s1 = n8n s /\ posted s1 = posted s /\ yielded s1 = yielded s.
Proof.
  unfold get_session_id, bind, time_time, gets, modify, ret. cbn.
  match goal with |- context [find_session ?u ?t ?c] =>
    destruct (find_session u t c) as [[sid cache']|] eqn:E end; cbn.
  - eexists _, _. split; [reflexivity|]. cbn.
    split; [by eapply find_session_lookup|]. done.
  - eexists _, _. split; [reflexivity|]. cbn.
    split; [by rewrite dict_lookup_set_eq|]. done.
Qed.

(** *** [call_n8n_router] *)

(** The run of [call_n8n_router], case by case on the answer to the one
    call it makes. *)
Lemma call_n8n_router_run message sid user s :
  call_n8n_router message sid user s =
  let req := router_request message sid user s in
  let s1 := sent req (tick s) in
  match n8n s (length (posted s)) req with
  | HttpTimeout _ => (Ret (fallback_result (lit "Kenny router timeout")), s1)
  | HttpFailure msg =>
      (Ret (fallback_result (lit "Kenny router error: " ++ msg)), s1)
  | HttpOk r =>
      if status_code r =? 200 then
        match json_body r with
        | inr msg =>
            (Ret (fallback_result (lit "Kenny router error: " ++ msg)), s1)
        | inl result =>
            match dict_lookup sid (session_cache s) with
            | None => (Ret result, s1)
            | Some _ =>
                match result with
                | PDict d =>
                    (Ret result,
                     with_cache
                       (dict_update sid
                          (record_exchange
                             (exchange_of message d (clock s (S (ticks s)))))
                          (session_cache s))
                       (tick s1))
                | _ =>
                    (Ret (fallback_result
                            (lit "Kenny router error: "
                             ++ exn_str (attribute_error result "get"))), s1)
                end
            end
        end
      else
        (Ret (fallback_result
                (lit "n8n router failed: " ++ str_of_Z (status_code r))), s1)
  end.
Proof.
  unfold call_n8n_router, try_except, bind, time_time, gets, requests_post.
  cbn. fold (router_request message sid user s).
  destruct (n8n s (length (posted s)) (router_request message sid user s))
    as [msg|msg|r]; cbn; try reflexivity.
  destruct (status_code r =? 200); cbn; [|reflexivity].
  unfold response_json. destruct (json_body r) as [result|msg]; cbn; [|reflexivity].
  destruct (dict_lookup sid (session_cache s)); cbn; [|reflexivity].
  destruct result; reflexivity.
Qed.

(** *** The operations on values do not touch the state *)

Lemma py_get_pure {S} v key dflt (s : S) :
  exists o, py_get v key dflt s = (o, s).
Proof. destruct v; cbn; eauto. Qed.

Lemma py_split_pure {S} v (s : S) : exists o, py_split v s = (o, s).
Proof. destruct v; cbn; eauto. Qed.

Lemma py_format_percent1_pure {S} v (s : S) :
  exists o, py_format_percent1 v s = (o, s).
Proof.
  destruct v as [|b|z|x|str|l|d]; cbn; eauto.
  - destruct (of_Z (if b then 1 else 0)); cbn; eauto.
  - destruct (of_Z z); cbn; eauto.
Qed.

(** *** The print of the message *)

Lemma surrogate_run_clean text : forall i,
  existsb is_surrogate text = false -> surrogate_run i text = None.
Proof.
  induction text as [|c text IH]; intros i Hclean; [done|].
  cbn [existsb] in Hclean. apply orb_false_elim in Hclean as [Hc Hclean].
  cbn [surrogate_run]. rewrite Hc. by apply IH.
Qed.

Lemma surrogate_run_app a b : forall i,
  existsb is_surrogate a = false ->
  surrogate_run i (a ++ b) = surrogate_run (i + length a) b.
Proof.
  induction a as [|c a IH]; intros i Hclean.
  - cbn [app length]. by rewrite Nat.add_0_r.
  - cbn [existsb] in Hclean. apply orb_false_elim in Hclean as [Hc Hclean].
    cbn [app surrogate_run length]. rewrite Hc, IH by done.
    by rewrite Nat.add_succ_r.
Qed.

Lemma surrogate_run_found text : forall i,
  existsb is_surrogate text = true -> is_Some (surrogate_run i text).
Proof.
  induction text as [|c text IH]; intros i Hfound; [done|].
  cbn [existsb] in Hfound. cbn [surrogate_run].
  destruct (is_surrogate c); [by eexists|]. by apply IH.
Qed.

(** A text without surrogates is printed. *)
Lemma py_print_clean {S} text (s : S) :
  existsb is_surrogate text = false -> py_print text s = (Ret tt, s).
Proof.
  intros Hclean. unfold py_print, unicode_encode_error.
  by rewrite surrogate_run_clean.
Qed.

Lemma log_message_run s message :
  log_passes (debug_mode (valves s)) message = true ->
  log_message message s = (Ret tt, s).
Proof.
  unfold log_passes, log_message, bind, gets. intros Hlog.
  destruct (debug_mode (valves s)); [|done].
  cbn [negb orb] in Hlog. apply negb_true_iff in Hlog.
  apply py_print_clean. rewrite existsb_app, Hlog. reflexivity.
Qed.

Lemma log_message_fails s message :
  log_passes (debug_mode (valves s)) message = false ->
  exists e, log_message message s = (Raise e, s).
Proof.
  unfold log_passes, log_message, bind, gets. intros Hlog.
  destruct (debug_mode (valves s)); [|done].
  cbn [negb orb] in Hlog. apply negb_false_iff in Hlog.
  unfold py_print, unicode_encode_error.
  rewrite surrogate_run_app by reflexivity.
  destruct (surrogate_run_found message
              (0 + length (lit "[Kenny Pipeline] Processing message: ")) Hlog)
    as [[start run] Hrun].
  rewrite Hrun. by eexists.
Qed.

(** *** The two branches of [pipe] *)

Lemma stream_fallback_run message s :
  stream_fallback message s =
  (Ret tt,
   emitted (fallback_events message) s).
Proof.
  unfold stream_fallback, bind, yield.
  rewrite (for_each_yield (fun chunk => EContent (chunk ++ lit " "))).
  by rewrite emitted_emitted.
Qed.

(** The branch that streams the response yields content events only,
    whether it returns or raises. *)
Lemma stream_response_run repr result s :
  exists evs o,
    Forall (fun e => is_content e = true) evs /\
    stream_response repr result s = (o, emitted evs s).
Proof.
  unfold stream_response.
  destruct (py_get_pure result "response"
              (PStr (lit "I'm having trouble processing your request.")) s)
    as [[response|e] Hr].
  2:{ exists [], (Raise e). split; [constructor|].
      by rewrite (bind_raise_run _ _ _ _ _ Hr), emitted_nil. }
  rewrite (bind_ret_run _ _ _ _ _ Hr).
  destruct (py_get_pure result "intent" (PStr (lit "unknown")) s)
    as [[intent|e] Hi].
  2:{ exists [], (Raise e). split; [constructor|].
      by rewrite (bind_raise_run _ _ _ _ _ Hi), emitted_nil. }
  rewrite (bind_ret_run _ _ _ _ _ Hi).
  destruct (py_get_pure result "confidence" (PFloat (S754_zero false)) s)
    as [[confidence|e] Hc].
  2:{ exists [], (Raise e). split; [constructor|].
      by rewrite (bind_raise_run _ _ _ _ _ Hc), emitted_nil. }
  rewrite (bind_ret_run _ _ _ _ _ Hc).
  unfold bind at 1, gets at 1.
  assert (forall pre s0,
            Forall (fun e => is_content e = true) pre ->
            exists evs o,
              Forall (fun e => is_content e = true) evs /\
              (words <- py_split response ;;
               for_each (word_chunks words) (fun chunk => yield (EContent chunk)))
                (emitted pre s0) = (o, emitted evs s0)) as Hwords.
  { intros pre s0 Hpre.
    destruct (py_split_pure response (emitted pre s0)) as [[words|e] Hw].
    - rewrite (bind_ret_run _ _ _ _ _ Hw), (for_each_yield EContent).
      rewrite emitted_emitted. eexists _, _. split; [|reflexivity].
      apply Forall_app. split; [done|]. by apply Forall_map, Forall_true.
    - rewrite (bind_raise_run _ _ _ _ _ Hw). by exists pre, (Raise e). }
  destruct (debug_mode (valves s) && ne_str intent (lit "unknown")).
  - destruct (py_format_percent1_pure confidence s) as [[percent|e] Hp].
    + unfold bind at 1. rewrite (bind_ret_run _ _ _ _ _ Hp). unfold yield at 1.
      apply Hwords. by repeat constructor.
    + unfold bind at 1. rewrite (bind_raise_run _ _ _ _ _ Hp).
      exists [], (Raise e). split; [constructor|]. by rewrite emitted_nil.
  - unfold bind at 1, ret at 1.
    destruct (Hwords [] s) as (evs & o & Hevs & Hrun); [constructor|].
    rewrite emitted_nil in Hrun. by exists evs, o.
Qed.

(** [call_n8n_router] returns, having made one call; the valves and the
    events yielded are as before. *)
Lemma call_n8n_router_frame message sid user s :
  exists result s',
    call_n8n_router message sid user s = (Ret result, s') /\
    posted s' = posted s ++ [router_request message sid user s] /\
    valves s' = valves s /\ yielded s' = yielded s.
Proof.
  rewrite call_n8n_router_run. cbv zeta.
  destruct (n8n s (length (posted s)) (router_request message sid user s))
    as [msg|msg|r]; [by eexists _, _ ..|].
  destruct (status_code r =? 200); [|by eexists _, _].
  destruct (json_body r) as [result|msg]; [|by eexists _, _].
  destruct (dict_lookup sid (session_cache s)); [|by eexists _, _].
  destruct result; by eexists _, _.
Qed.

(** The run of [pipe] on a body with messages: the session is resolved, the
    router is called, and what is yielded depends on the router's result
    alone. *)
Lemma pipe_run repr body s m :
  last (messages body) = Some m ->
  log_passes (debug_mode (valves s)) (default [] (content m)) = true ->
  exists sid s1 result s2 evs,
    (get_session_id (user body) (started s) = (Ret sid, s1) /\
     is_Some (dict_lookup sid (session_cache s1)) /\
     valves s1 = valves s /\ clock s1 = clock s /\ ticks s1 = S (ticks s) /\
     n8n s1 = n8n s /\ posted s1 = posted s /\ yielded s1 = []) /\
    call_n8n_router (default [] (content m)) sid (user body) s1
    = (Ret result, s2) /\
    pipe repr body (started s) = (Ret tt, emitted evs s2) /\
    match result with
    | PDict d =>
        if truthy (default PNone (dict_lookup (lit "fallback") d))
        then evs = fallback_events (default [] (content m)) ++ [EFinish; EDone]
        else exists contents,
               Forall (fun e => is_content e = true) contents /\
               (evs = contents ++ [EFinish; EDone] \/
                exists msg, evs = contents ++ [EError msg; EDone])
    | _ => exists msg, evs = [EError msg; EDone]
    end.
Proof.
  intros Hlast Hlog.
  destruct (get_session_id_run (user body) (started s))
    as (sid & s1 & Hsid & Hframe).
  change (valves (started s)) with (valves s) in Hframe.
  change (clock (started s)) with (clock s) in Hframe.
  change (ticks (started s)) with (ticks s) in Hframe.
  change (n8n (started s)) with (n8n s) in Hframe.
  change (posted (started s)) with (posted s) in Hframe.
  change (yielded (started s)) with (@nil Event) in Hframe.
  destruct (call_n8n_router_frame (default [] (content m)) sid (user body) s1)
    as (result & s2 & Hcall & _).
  exists sid, s1, result, s2.
  unfold pipe, try_except, pipe_body. rewrite Hlast. cbv zeta.
  rewrite (bind_ret_run _ _ _ _ _ (log_message_run (started s) _ Hlog)).
  rewrite (bind_ret_run _ _ _ _ _ Hsid), (bind_ret_run _ _ _ _ _ Hcall).
  destruct result as [|b|z|x|str|l|d];
    try (unfold bind at 1, py_get at 1, raise at 1; cbv beta iota;
         unfold bind, yield; rewrite emitted_emitted;
         eexists; split; [exact (conj Hsid Hframe)|]; split; [exact Hcall|];
         split; [reflexivity|]; eexists; reflexivity).
  unfold bind at 1, py_get at 1, ret at 1.
  destruct (truthy (default PNone (dict_lookup (lit "fallback") d))).
  - unfold bind at 1. rewrite stream_fallback_run.
    unfold bind, yield. rewrite !emitted_emitted.
    eexists. split; [exact (conj Hsid Hframe)|]. split; [exact Hcall|].
    split; [reflexivity|]. unfold fallback_events.
    rewrite <- ?app_assoc. reflexivity.
  - destruct (stream_response_run repr (PDict d) s2) as (evs & o & Hevs & Hrun).
    unfold bind at 1. rewrite Hrun. destruct o as [[]|e].
    + unfold bind, yield. rewrite !emitted_emitted.
      eexists. split; [exact (conj Hsid Hframe)|]. split; [exact Hcall|].
      split; [reflexivity|]. exists evs. split; [done|]. left.
      rewrite <- ?app_assoc. reflexivity.
    + unfold bind, yield. rewrite !emitted_emitted.
      eexists. split; [exact (conj Hsid Hframe)|]. split; [exact Hcall|].
      split; [reflexivity|]. exists evs. split; [done|]. right.
      eexists. rewrite <- ?app_assoc. reflexivity.
Qed.

(** The run of [pipe] when the print of the message raises: the handler
    yields the error event and the sentinel, and nothing else happens. *)
Lemma pipe_print_fails repr body s m :
  last (messages body) = Some m ->
  log_passes (debug_mode (valves s)) (default [] (content m)) = false ->
  exists e,
    pipe repr body (started s)
    = (Ret tt,
       emitted [EError (lit "Pipeline error: " ++ exn_str e); EDone]
         (started s)).
Proof.
  intros Hlast Hlog.
  destruct (log_message_fails (started s) _ Hlog) as [e He].
  exists e. unfold pipe, try_except, pipe_body. rewrite Hlast. cbv zeta.
  rewrite (bind_raise_run _ _ _ _ _ He).
  unfold bind, yield. by rewrite emitted_emitted.
Qed.

(** Every stream for a body with messages ends with the sentinel, which
    occurs nowhere else; before it comes the finish chunk, or the error
    chunk when an exception was caught, and before that content chunks
    only. *)
Lemma nonempty_stream_ends_with_sentinel repr body s m :
  last (messages body) = Some m ->
  exists contents closing,
    fst (run_pipe repr body s) = contents ++ [closing; EDone] /\
    Forall (fun e => is_content e = true) contents /\
    (closing = EFinish \/ exists msg, closing = EError msg).
Proof.
  intros Hlast.
  destruct (log_passes (debug_mode (valves s)) (default [] (content m)))
    eqn:Hlog.
  2:{ destruct (pipe_print_fails repr body s m Hlast Hlog) as [e Hpipe].
      unfold run_pipe. rewrite Hpipe. cbn [fst snd].
      exists [], (EError (lit "Pipeline error: " ++ exn_str e)).
      split; [reflexivity|]. split; [constructor|]. right. by eexists. }
  destruct (pipe_run repr body s m Hlast Hlog)
    as (sid & s1 & result & s2 & evs & (Hsid & Hin & Hframe) & Hcall & Hpipe & Hevs).
  destruct (call_n8n_router_frame (default [] (content m)) sid (user body) s1)
    as (result' & s2' & Hcall' & _ & _ & Hy).
  rewrite Hcall in Hcall'. injection Hcall' as <- <-.
  assert (yielded s2 = []) as Hnil.
  { rewrite Hy. by destruct Hframe as (_ & _ & _ & _ & _ & ->). }
  unfold run_pipe. rewrite Hpipe. cbn [fst snd]. 
  change (yielded (emitted evs s2)) with (yielded s2 ++ evs). rewrite Hnil.
  cbn [app].
  destruct result as [|b|z|x|str|l|d];
    try (destruct Hevs as [msg ->]; exists [], (EError msg);
         split; [done|]; split; [constructor|]; right; by exists msg).
  destruct (truthy (default PNone (dict_lookup (lit "fallback") d))).
  - subst evs. eexists _, EFinish. split; [reflexivity|].
    split; [|by left]. constructor; [done|]. by apply Forall_map, Forall_true.
  - destruct Hevs as (contents & Hc & [->|[msg ->]]).
    + exists contents, EFinish. by repeat split; [|left].
    + exists contents, (EError msg). repeat split; [done|]. right. by exists msg.
Qed.

(** *** The router and the history *)

Lemma history_after_exchange sid x cache :
  is_Some (dict_lookup sid cache) ->
  history_of sid (dict_update sid (record_exchange x) cache)
  = last_n 10 (history_of sid cache ++ [x]).
Proof.
  intros [data Hdata]. unfold history_of.
  rewrite dict_lookup_update_same, Hdata.
  change (record_exchange x <$> Some data) with (Some (record_exchange x data)).
  unfold record_exchange. cbn [conversation_history].
  destruct (10 <? length (conversation_history data ++ [x]))%nat eqn:E; [done|].
  apply Nat.ltb_ge in E. by rewrite last_n_short.
Qed.

(** An answer that makes the relay fail gives the fallback result, and the
    cache is left as it was. *)
Lemma call_n8n_router_failure message sid user s :
  relay_fails (n8n s (length (posted s)) (router_request message sid user s))
  = true ->
  exists msg s',
    call_n8n_router message sid user s = (Ret (fallback_result msg), s') /\
    session_cache s' = session_cache s.
Proof.
  rewrite call_n8n_router_run. cbv zeta.
  destruct (n8n s (length (posted s)) (router_request message sid user s))
    as [msg|msg|r]; cbn [relay_fails]; [by eexists _, _ ..|].
  destruct (status_code r =? 200); [|by eexists _, _].
  destruct (json_body r) as [result|msg]; [done|by eexists _, _].
Qed.


(** C9: for a session of the cache whose history has H exchanges, the one
    request sent carries the user's message, the session id, the identity
    of the caller (id, email and name, with their defaults), the time read
    from the clock, and as conversation history the last min(H, 5)
    exchanges of the session, in their order, the most recent last. *)
Theorem payload_carries_last_five message sid user s data :
  dict_lookup sid (session_cache s) = Some data ->
  let history := conversation_history data in
  exists req older,
    posted (snd (call_n8n_router message sid user s)) = posted s ++ [req] /\
    p_message (req_json req) = message /\
    p_session_id (req_json req) = sid /\
    p_user_id (req_json req) = default (lit "anonymous") (u_id user) /\
    p_user_email (req_json req) = default [] (u_email user) /\
    p_user_name (req_json req) = default (lit "User") (u_name user) /\
    p_timestamp (req_json req) = clock s (ticks s) /\
    length (p_conversation_history (req_json req))
    = Nat.min (length history) 5 /\
    history = older ++ p_conversation_history (req_json req).
Proof.
  intros Hdata history.
  destruct (call_n8n_router_frame message sid user s)
    as (result & s' & Hrun & Hposted & _).
  destruct (last_n_suffix 5 history) as [older Holder].
  exists (router_request message sid user s), older.
  rewrite Hrun. cbn [snd]. split; [exact Hposted|].
  unfold router_request, build_payload, history_of. cbn. rewrite Hdata.
  fold history. repeat split; [apply length_last_n | exact Holder].
Qed.

Lemma payload_carries_last_five_witness :
  dict_lookup (lit "session-0") (session_cache seven_turns)
  = Some seven_turns_data /\
  length (conversation_history seven_turns_data) = 7%nat /\
  let history := conversation_history seven_turns_data in
  exists req older,
    posted (snd (call_n8n_router (lit "more") (lit "session-0") alice
                   seven_turns))
    = posted seven_turns ++ [req] /\
    p_message (req_json req) = lit "more" /\
    p_session_id (req_json req) = lit "session-0" /\
    p_user_id (req_json req) = default (lit "anonymous") (u_id alice) /\
    p_user_email (req_json req) = default [] (u_email alice) /\
    p_user_name (req_json req) = default (lit "User") (u_name alice) /\
    p_timestamp (req_json req) = clock seven_turns (ticks seven_turns) /\
    length (p_conversation_history (req_json req))
    = Nat.min (length history) 5 /\
    history = older ++ p_conversation_history (req_json req).
Proof.
  split; [vm_compute; reflexivity|]. split; [vm_compute; reflexivity|].
  apply (payload_carries_last_five (lit "more") (lit "session-0") alice
           seven_turns seven_turns_data).
  vm_compute. reflexivity.
Defined.

(** *** [pipe] *)

(** C2: a body without messages gets one error event and nothing more: the
    generator returns before the sentinel, so the stream does not end with
    it. *)
Theorem empty_messages_stream_lacks_sentinel repr who s :
  fst (run_pipe repr {| messages := []; user := who |} s)
  = [EError (lit "No messages provided")] /\
  last (map render (fst (run_pipe repr {| messages := []; user := who |} s)))
  <> Some (lit "data: [DONE]" ++ [10%N; 10%N]).
Proof. split; [reflexivity|]. vm_compute. discriminate. Qed.

(** The run of [pipe] from the result of the router on. *)
Lemma pipe_after_router repr body s m sid s1 result s2 :
  last (messages body) = Some m ->
  log_passes (debug_mode (valves s)) (default [] (content m)) = true ->
  get_session_id (user body) (started s) = (Ret sid, s1) ->
  call_n8n_router (default [] (content m)) sid (user body) s1
  = (Ret result, s2) ->
  pipe repr body (started s) =
  try_except
    (fallback <- py_get result "fallback" PNone ;;
     (if truthy fallback then stream_fallback (default [] (content m))
      else stream_response repr result) ;;
     yield EFinish ;;
     yield EDone)
    (fun e =>
       yield (EError (lit "Pipeline error: " ++ exn_str e)) ;;
       yield EDone) s2.
Proof.
  intros Hlast Hlog Hsid Hcall. unfold pipe, try_except, pipe_body.
  rewrite Hlast. cbv zeta.
  rewrite (bind_ret_run _ _ _ _ _ (log_message_run (started s) _ Hlog)).
  by rewrite (bind_ret_run _ _ _ _ _ Hsid), (bind_ret_run _ _ _ _ _ Hcall).
Qed.




(** *** Scenario A *)

(** The response branch on the reply of scenario A, with the debug valve
    on. *)
Lemma stream_response_calendar repr s :
  debug_mode (valves s) = true ->
  stream_response repr calendar_reply s =
  (Ret tt,
   emitted
     [EContent ([127919%N] ++ lit " Intent: calendar_query (92.0%)\n\n");
      EContent (lit "You "); EContent (lit "have "); EContent (lit "2 ");
      EContent (lit "meetings.")] s).
Proof.
  intros Hdebug. unfold stream_response.
  rewrite (bind_ret_run _ _ s (PStr (lit "You have 2 meetings.")) s)
    by reflexivity.
  rewrite (bind_ret_run _ _ s (PStr (lit "calendar_query")) s) by reflexivity.
  rewrite (bind_ret_run _ _ s (PFloat confidence_092) s) by reflexivity.
  unfold bind at 1, gets at 1. rewrite Hdebug.
  change (true && ne_str (PStr (lit "calendar_query")) (lit "unknown"))
    with true. cbv beta iota.
  unfold bind at 1.
  rewrite (bind_ret_run _ _ s (lit "92.0%") s) by (vm_compute; reflexivity).
  unfold yield at 1.
  rewrite (bind_ret_run _ _ _ [lit "You"; lit "have"; lit "2"; lit "meetings."]
             (emitted
                [EContent (intent_line repr (PStr (lit "calendar_query"))
                             (lit "92.0%"))] s))
    by reflexivity.
  rewrite (for_each_yield EContent), emitted_emitted. reflexivity.
Qed.

(** C5, as stated, fails: in the stream of scenario A no chunk mentions
    "92%"; the confidence is printed with one decimal, "92.0%". *)
Lemma calendar_stream_has_no_92_percent :
  ~ scenario_A_stream (lit "92%")
      (fst (run_pipe repr_unused (ask (lit "What's on my calendar today?"))
              (new_pipe (answers calendar_reply)))).
Proof.
  intros (diagnostic & words & Hevents & _ & Hpercent & _).
  assert (fst (run_pipe repr_unused (ask (lit "What's on my calendar today?"))
                 (new_pipe (answers calendar_reply)))
          = [EContent ([127919%N] ++ lit " Intent: calendar_query (92.0%)\n\n");
             EContent (lit "You "); EContent (lit "have "); EContent (lit "2 ");
             EContent (lit "meetings."); EFinish; EDone])
    as Hrun by (vm_compute; reflexivity).
  rewrite Hrun in Hevents. injection Hevents as <- _.
  vm_compute in Hpercent. discriminate Hpercent.
Qed.

(** C5, amended: when the workflow answers with the reply of scenario A and
    the debug valve is on, the stream is: one diagnostic chunk that
    mentions "calendar_query" and "92.0%", the four word chunks whose
    concatenation is "You have 2 meetings.", the finish chunk, the
    sentinel.  This holds for a new session and for any other, and for
    every message that can be printed, that is, holds no surrogate. *)
Theorem calendar_stream_shows_one_decimal repr body s m txt :
  last (messages body) = Some m ->
  debug_mode (valves s) = true ->
  existsb is_surrogate (default [] (content m)) = false ->
  (forall req,
     n8n s (length (posted s)) req
     = HttpOk {| status_code := 200; text := txt;
                 json_body := inl calendar_reply |}) ->
  fst (run_pipe repr body s)
  = [EContent ([127919%N] ++ lit " Intent: calendar_query (92.0%)\n\n");
     EContent (lit "You "); EContent (lit "have "); EContent (lit "2 ");
     EContent (lit "meetings."); EFinish; EDone] /\
  scenario_A_stream (lit "92.0%") (fst (run_pipe repr body s)).
Proof.
  intros Hlast Hdebug Hclean Hanswer.
  assert (log_passes (debug_mode (valves s)) (default [] (content m)) = true)
    as Hlog by (unfold log_passes; by rewrite Hdebug, Hclean).
  assert (fst (run_pipe repr body s)
          = [EContent ([127919%N] ++ lit " Intent: calendar_query (92.0%)\n\n");
             EContent (lit "You "); EContent (lit "have "); EContent (lit "2 ");
             EContent (lit "meetings."); EFinish; EDone]) as Hrun.
  { destruct (get_session_id_run (user body) (started s))
      as (sid & s1 & Hsid & [data Hdata] & Hvalves & _ & _ & Hn8n & Hposted & Hy).
    assert (exists s2,
              call_n8n_router (default [] (content m)) sid (user body) s1
              = (Ret calendar_reply, s2) /\
              valves s2 = valves s /\ yielded s2 = []) as (s2 & Hcall & Hv2 & Hy2).
    { rewrite call_n8n_router_run. cbv zeta. rewrite Hn8n, Hposted.
      change (n8n (started s)) with (n8n s).
      change (posted (started s)) with (posted s).
      rewrite Hanswer. cbn [status_code json_body].
      change (200 =? 200) with true. cbv iota. rewrite Hdata.
      unfold calendar_reply at 1. eexists. split; [reflexivity|].
      split; [exact Hvalves|exact Hy]. }
    unfold run_pipe.
    rewrite (pipe_after_router repr body s m sid s1 calendar_reply s2
               Hlast Hlog Hsid Hcall).
    unfold try_except.
    rewrite (bind_ret_run _ _ s2 PNone s2) by reflexivity.
    change (truthy PNone) with false. cbv iota.
    unfold bind at 1. rewrite stream_response_calendar by (by rewrite Hv2).
    unfold bind, yield. rewrite !emitted_emitted. cbn [fst snd].
    change (yielded (emitted ?l s2)) with (yielded s2 ++ l). rewrite Hy2.
    reflexivity. }
  split; [exact Hrun|]. rewrite Hrun.
  exists ([127919%N] ++ lit " Intent: calendar_query (92.0%)\n\n"),
    [lit "You "; lit "have "; lit "2 "; lit "meetings."].
  repeat split; vm_compute; reflexivity.
Qed.

Lemma calendar_stream_shows_one_decimal_witness :
  last (messages (ask (lit "What's on my calendar today?")))
  = Some {| content := Some (lit "What's on my calendar today?") |} /\
  debug_mode (valves (new_pipe (answers calendar_reply))) = true /\
  existsb is_surrogate (lit "What's on my calendar today?") = false /\
  fst (run_pipe repr_unused (ask (lit "What's on my calendar today?"))
         (new_pipe (answers calendar_reply)))
  = [EContent ([127919%N] ++ lit " Intent: calendar_query (92.0%)\n\n");
     EContent (lit "You "); EContent (lit "have "); EContent (lit "2 ");
     EContent (lit "meetings."); EFinish; EDone] /\
  scenario_A_stream (lit "92.0%")
    (fst (run_pipe repr_unused (ask (lit "What's on my calendar today?"))
            (new_pipe (answers calendar_reply)))).
Proof.
  split; [reflexivity|]. split; [reflexivity|]. split; [reflexivity|].
  apply (calendar_stream_shows_one_decimal repr_unused
           (ask (lit "What's on my calendar today?"))
           (new_pipe (answers calendar_reply))
           {| content := Some (lit "What's on my calendar today?") |} []).
  - reflexivity.
  - reflexivity.
  - reflexivity.
  - intros req. reflexivity.
Defined.

(** *** The fallback stream *)

Lemma content_text_app l1 l2 :
  content_text (l1 ++ l2) = content_text l1 ++ content_text l2.
Proof. unfold content_text. by rewrite map_app, concat_app. Qed.

Lemma content_text_cons text l :
  content_text (EContent text :: l) = text ++ content_text l.
Proof. reflexivity. Qed.

Lemma content_text_chunks (f : pystr -> pystr) words :
  content_text (map (fun w => EContent (f w)) words) = concat (map f words).
Proof.
  unfold content_text. induction words as [|w words IH]; cbn; [done|].
  by rewrite IH.
Qed.

(** What a client reads in the fallback stream of a single-spaced message:
    the notice, the fallback message, one more space. *)
Lemma fallback_text_single_spaced message :
  single_spaced message = true ->
  content_text (fallback_events message ++ [EFinish; EDone])
  = fallback_notice ++ fallback_response message ++ lit " ".
Proof.
  unfold single_spaced. intros Hm.
  destruct (scan true message) as [b|] eqn:Hscan; [|done].
  rewrite content_text_app. unfold fallback_events.
  rewrite content_text_cons.
  rewrite content_text_chunks.
  change (content_text [EFinish; EDone]) with (@nil N). rewrite app_nil_r.
  f_equal. unfold split. rewrite single_spaced_text; [reflexivity|].
  unfold fallback_response. rewrite scan_app.
  change (scan false (lit "I received your message: '")) with (Some true).
  cbv iota. rewrite scan_app, Hscan. destruct b; reflexivity.
Qed.

(** C6, as stated, fails: the message "hello  world", with its two spaces,
    is not in the text streamed after a timeout; the stream carries
    "hello world". *)
Lemma fallback_stream_collapses_spaces :
  ~ substring (lit "hello  world")
      (content_text
         (fst (run_pipe repr_unused (ask (lit "hello  world"))
                 (new_pipe times_out)))).
Proof.
  intros Hsub. apply contains_complete in Hsub.
  vm_compute in Hsub. discriminate Hsub.
Qed.

(** C6, amended: on every failure of the relay the stream is the notice of
    the degraded mode, then the whitespace-delimited words of a fallback
    message built from the user's message alone, each followed by one
    space, then the finish chunk and the sentinel.  The fallback message,
    before it is split, contains the user's message as it is and says that
    the advanced features are unavailable; the text streamed contains the
    message as it is when the message is single-spaced.  Nothing received
    from the workflow occurs in the stream: it is a function of the user's
    message.  The relay is reached when the print of the message goes
    through: the debug valve is off, or the message holds no surrogate. *)
Theorem fallback_stream_is_local repr body s m :
  last (messages body) = Some m ->
  log_passes (debug_mode (valves s)) (default [] (content m)) = true ->
  (forall req, relay_fails (n8n s (length (posted s)) req) = true) ->
  let message := default [] (content m) in
  let events := fst (run_pipe repr body s) in
  events = fallback_events message ++ [EFinish; EDone] /\
  substring message (fallback_response message) /\
  substring (lit "advanced features are currently unavailable")
    (fallback_response message) /\
  (single_spaced message = true ->
   content_text events
   = fallback_notice ++ fallback_response message ++ lit " ").
Proof.
  intros Hlast Hlog Hfails message events.
  assert (events = fallback_events message ++ [EFinish; EDone]) as Hevents.
  { subst events.
    destruct (get_session_id_run (user body) (started s))
      as (sid & s1 & Hsid & _ & _ & _ & _ & Hn8n & Hposted & Hy).
    destruct (call_n8n_router_failure message sid (user body) s1)
      as (msg & s2 & Hcall & _).
    { rewrite Hn8n, Hposted. apply Hfails. }
    destruct (call_n8n_router_frame message sid (user body) s1)
      as (result' & s2' & Hcall' & _ & _ & Hy2).
    rewrite Hcall in Hcall'. injection Hcall' as _ <-.
    unfold run_pipe.
    rewrite (pipe_after_router repr body s m sid s1 (fallback_result msg) s2
               Hlast Hlog Hsid Hcall).
    unfold try_except.
    rewrite (bind_ret_run _ _ s2 (PBool true) s2) by reflexivity.
    change (truthy (PBool true)) with true. cbv iota.
    unfold bind at 1. rewrite stream_fallback_run.
    unfold bind, yield. rewrite !emitted_emitted. cbn [fst snd].
    change (yielded (emitted ?l s2)) with (yielded s2 ++ l).
    rewrite Hy2, Hy. reflexivity. }
  split; [exact Hevents|]. split; [|split].
  - unfold fallback_response. by eexists _, _.
  - unfold fallback_response.
    exists (lit "I received your message: '" ++ message
            ++ lit "', but Kenny's "),
      (lit ". Please check that all services are running.").
    rewrite <- !app_assoc. reflexivity.
  - intros Hm. rewrite Hevents. by apply fallback_text_single_spaced.
Qed.

Lemma fallback_stream_is_local_witness :
  last (messages (ask (lit "What's on my calendar today?")))
  = Some {| content := Some (lit "What's on my calendar today?") |} /\
  log_passes (debug_mode (valves (new_pipe times_out)))
    (lit "What's on my calendar today?") = true /\
  single_spaced (lit "What's on my calendar today?") = true /\
  let message :=
    default [] (content {| content := Some (lit "What's on my calendar today?") |}) in
  let events :=
    fst (run_pipe repr_unused (ask (lit "What's on my calendar today?"))
           (new_pipe times_out)) in
  events = fallback_events message ++ [EFinish; EDone] /\
  substring message (fallback_response message) /\
  substring (lit "advanced features are currently unavailable")
    (fallback_response message) /\
  (single_spaced message = true ->
   content_text events
   = fallback_notice ++ fallback_response message ++ lit " ").
Proof.
  split; [reflexivity|]. split; [reflexivity|]. split; [reflexivity|].
  apply (fallback_stream_is_local repr_unused
           (ask (lit "What's on my calendar today?")) (new_pipe times_out)
           {| content := Some (lit "What's on my calendar today?") |}).
  - reflexivity.
  - reflexivity.
  - intros req. reflexivity.
Defined.

End PipelineFacts.

(* ===================================================================== *)
(** * Further facts about dicts *)
(* ===================================================================== *)

Module DictMore.
Import DictFacts.

Lemma filter_ext_in {A} (P Q : A -> Prop) `{!forall x, Decision (P x)}
    `{!forall x, Decision (Q x)} (l : list A) :
  (forall x, x ∈ l -> P x <-> Q x) -> filter P l = filter Q l.
Proof.
  induction l as [|x l IH]; intros Hext; [done|].
  rewrite !filter_cons.
  assert (P x <-> Q x) as Hx by (apply Hext; left).
  rewrite IH by (intros y Hy; apply Hext; by right).
  destruct (decide (P x)), (decide (Q x)); tauto || done.
Qed.

Lemma filter_all {A} (P : A -> Prop) `{!forall x, Decision (P x)} (l : list A) :
  (forall x, x ∈ l -> P x) -> filter P l = l.
Proof.
  induction l as [|x l IH]; intros Hall; [done|].
  rewrite filter_cons_True by (apply Hall; left).
  f_equal. apply IH. intros y Hy. apply Hall. by right.
Qed.

Lemma dict_wf_filter {V} (P : pystr * V -> Prop) `{!forall x, Decision (P x)}
    (d : list (pystr * V)) :
  dict_wf d -> dict_wf (filter P d).
Proof.
  unfold dict_wf. intros Hwf. eapply sublist_NoDup; [exact Hwf|].
  apply fmap_sublist, sublist_filter.
Qed.

Lemma dict_lookup_None {V} k (d : list (pystr * V)) :
  dict_lookup k d = None <-> k ∉ fst <$> d.
Proof.
  induction d as [|[k' v] d IH]; cbn.
  - split; [intros _; apply not_elem_of_nil|done].
  - rewrite not_elem_of_cons. destruct (bool_decide (k' = k)) eqn:E.
    + apply bool_decide_eq_true_1 in E. split; [done|]. intros [Hne _]. done.
    + apply bool_decide_eq_false_1 in E. rewrite IH. split; [|tauto].
      intros H. split; [congruence|done].
Qed.

Lemma dict_lookup_elem {V} k v (d : list (pystr * V)) :
  dict_lookup k d = Some v -> (k, v) ∈ d.
Proof.
  induction d as [|[k' v'] d IH]; cbn; [done|].
  destruct (bool_decide (k' = k)) eqn:E.
  - apply bool_decide_eq_true_1 in E. intros [= <-]. subst. left.
  - intros H. right. by apply IH.
Qed.

Lemma dict_lookup_wf {V} k v (d : list (pystr * V)) :
  dict_wf d -> (k, v) ∈ d -> dict_lookup k d = Some v.
Proof.
  unfold dict_wf. induction d as [|[k' v'] d IH]; cbn; intros Hwf Hin.
  - by apply elem_of_nil in Hin.
  - apply NoDup_cons in Hwf as [Hk Hwf].
    apply elem_of_cons in Hin as [[= -> ->]|Hin].
    + by rewrite bool_decide_eq_true_2.
    + rewrite bool_decide_eq_false_2; [by apply IH|].
      intros ->. apply Hk. apply list_elem_of_fmap. by exists (k, v).
Qed.

(** [del d[k]] on a dict removes the item of that key and keeps the
    others in their order. *)
Lemma dict_del_filter {V} k (d : list (pystr * V)) :
  dict_wf d -> dict_del k d = filter (fun e => fst e <> k) d.
Proof.
  unfold dict_wf. induction d as [|[k' v] d IH]; intros Hwf; [done|].
  rewrite fmap_cons in Hwf. cbn [fst] in Hwf.
  apply NoDup_cons in Hwf as [Hk Hwf]. cbn [dict_del].
  destruct (bool_decide (k' = k)) eqn:E.
  - apply bool_decide_eq_true_1 in E. subst k'.
    rewrite filter_cons_False by (cbn; tauto).
    symmetry. apply filter_all. intros [k2 v2] Hin. cbn. intros ->.
    apply Hk. apply list_elem_of_fmap. by exists (k, v2).
  - apply bool_decide_eq_false_1 in E.
    rewrite filter_cons_True by done. by rewrite IH.
Qed.

(** The loop [for k in ks: del d[k]]. *)
Lemma fold_dict_del_filter {V} ks : forall (d : list (pystr * V)),
  dict_wf d ->
  fold_left (fun c k => dict_del k c) ks d = filter (fun e => fst e ∉ ks) d.
Proof.
  induction ks as [|k ks IH]; intros d Hwf; cbn [fold_left].
  - symmetry. apply filter_all. intros x _. apply not_elem_of_nil.
  - rewrite dict_del_filter by done.
    rewrite IH by (by apply dict_wf_filter).
    rewrite list_filter_filter. apply list_filter_iff. intros x.
    rewrite not_elem_of_cons. tauto.
Qed.

(** Deleting the keys of the items that satisfy [P] leaves the items that
    do not. *)
Lemma del_matching_filter {V} (P : pystr * V -> Prop)
    `{!forall x, Decision (P x)} (d : list (pystr * V)) :
  dict_wf d ->
  fold_left (fun c k => dict_del k c) (fst <$> filter P d) d
  = filter (fun e => ~ P e) d.
Proof.
  intros Hwf. rewrite fold_dict_del_filter by done.
  apply filter_ext_in. intros [k v] Hin. cbn. split.
  - intros Hk HP. apply Hk. apply list_elem_of_fmap. exists (k, v).
    split; [done|]. by apply list_elem_of_filter.
  - intros HP Hk. apply list_elem_of_fmap in Hk as ([k2 v2] & Hk2 & Hin2).
    cbn in Hk2. subst k2. apply list_elem_of_filter in Hin2 as [HP2 Hin2].
    assert (v2 = v) as ->; [|done].
    pose proof (dict_lookup_wf k v d Hwf Hin) as H1.
    pose proof (dict_lookup_wf k v2 d Hwf Hin2) as H2. congruence.
Qed.

Lemma dict_lookup_filter {V} (P : pystr * V -> Prop)
    `{!forall x, Decision (P x)} k (d : list (pystr * V)) :
  dict_wf d ->
  dict_lookup k (filter P d)
  = match dict_lookup k d with
    | Some v => if decide (P (k, v)) then Some v else None
    | None => None
    end.
Proof.
  intros Hwf. destruct (dict_lookup k d) as [v|] eqn:E.
  - apply dict_lookup_elem in E. destruct (decide (P (k, v))) as [HP|HP].
    + apply dict_lookup_wf; [by apply dict_wf_filter|].
      by apply list_elem_of_filter.
    + apply dict_lookup_None. intros Hin.
      apply list_elem_of_fmap in Hin as ([k2 v2] & Hk & Hin). cbn in Hk. subst k2.
      apply list_elem_of_filter in Hin as [HP2 Hin].
      pose proof (dict_lookup_wf k v d Hwf E) as H1.
      pose proof (dict_lookup_wf k v2 d Hwf Hin) as H2.
      assert (v2 = v) as -> by congruence. done.
  - apply dict_lookup_None. apply dict_lookup_None in E. intros Hin. apply E.
    apply list_elem_of_fmap in Hin as (x & -> & Hin).
    apply list_elem_of_filter in Hin as [_ Hin].
    apply list_elem_of_fmap. by exists x.
Qed.

Lemma dict_set_keys_wf {V} k (v : V) d : dict_wf d -> dict_wf (dict_set k v d).
Proof.
  unfold dict_wf. induction d as [|[k' v'] d IH]; cbn; intros Hwf.
  - apply NoDup_singleton.
  - apply NoDup_cons in Hwf as [Hk Hwf].
    destruct (bool_decide (k' = k)) eqn:E; cbn.
    + apply bool_decide_eq_true_1 in E. subst k'. by apply NoDup_cons.
    + apply bool_decide_eq_false_1 in E. apply NoDup_cons. split; [|by apply IH].
      intros Hin. apply list_elem_of_fmap in Hin as ([k2 v2] & Hk2 & Hin).
      cbn in Hk2. subst k2.
      destruct (decide (k = k')) as [->|Hne]; [done|].
      assert (dict_lookup k' (dict_set k v d) = dict_lookup k' d) as Hl
        by (by apply dict_lookup_set_ne).
      assert (k' ∈ map fst (dict_set k v d)) as Hin'
        by (apply list_elem_of_fmap; by exists (k', v2)).
      apply Hk. destruct (dict_lookup k' d) eqn:E2.
      * apply dict_lookup_elem in E2. apply list_elem_of_fmap. by eexists (_, _).
      * apply dict_lookup_None in Hl. done.
Qed.

Lemma dict_update_keys {V} k (f : V -> V) d :
  fst <$> dict_update k f d = fst <$> d.
Proof.
  induction d as [|[k' v] d IH]; cbn; [done|].
  destruct (bool_decide (k' = k)); cbn; by rewrite ?IH.
Qed.

Lemma dict_lookup_update_ne {V} k k0 (f : V -> V) d :
  k <> k0 -> dict_lookup k0 (dict_update k f d) = dict_lookup k0 d.
Proof.
  intros Hne. induction d as [|[k' v] d IH]; cbn; [done|].
  destruct (bool_decide (k' = k)) eqn:E; cbn.
  - apply bool_decide_eq_true_1 in E. subst k'.
    by rewrite !bool_decide_eq_false_2.
  - by rewrite IH.
Qed.

Lemma dict_set_keys_present {V} k (v v0 : V) d :
  dict_lookup k d = Some v0 -> fst <$> dict_set k v d = fst <$> d.
Proof.
  induction d as [|[k' v'] d IH]; cbn; [done|].
  destruct (bool_decide (k' = k)) eqn:E; cbn.
  - apply bool_decide_eq_true_1 in E. by subst.
  - intros H. by rewrite IH.
Qed.

End DictMore.

(* ===================================================================== *)
(** * The session manager: tiers, write-through and clean-up *)
(* ===================================================================== *)

Module SessionExtras.
Import SessionManager ListFacts DictFacts DictMore SessionFacts.

(** The answer from the process-local map. *)
Lemma resolve_from_memory sid uid s c :
  dict_lookup sid (sessions s) = Some c ->
  exists s',
    get_or_create_session sid uid s = (Ret (refresh (clock s (ticks s)) c), s') /\
    dict_lookup sid (sessions s') = Some (refresh (clock s (ticks s)) c) /\
    calls s' = calls s /\ redis s' = redis s /\
    conversations s' = conversations s /\
    conversation_turns s' = conversation_turns s.
Proof.
  intros Hc. unfold get_or_create_session, bind, gets. rewrite Hc. cbn.
  eexists. split; [reflexivity|]. cbn. by rewrite dict_lookup_set_eq.
Qed.

(** Whatever tier answers, the record returned is then the one of the
    process-local map. *)
Lemma resolve_stores sid uid s :
  exists c s',
    get_or_create_session sid uid s = (Ret c, s') /\
    dict_lookup sid (sessions s') = Some c.
Proof.
  destruct (dict_lookup sid (sessions s)) as [c|] eqn:Hc.
  { destruct (resolve_from_memory sid uid s c Hc) as (s' & Hrun & Hs' & _).
    by eexists _, _. }
  unfold get_or_create_session, bind, gets. rewrite Hc. cbn -[cache_key].
  destruct (redis s) as [r|] eqn:Hr; cbn -[cache_key].
  - destruct (r !! cache_key sid) as [[ttl c]|]; cbn -[cache_key].
    + eexists _, _. split; [reflexivity|]. cbn. apply dict_lookup_set_eq.
    + destruct (filter _ (conversations s)) as [|row rows]; cbn -[cache_key];
        rewrite Hr; cbn -[cache_key];
        eexists _, _; (split; [reflexivity|]); cbn; apply dict_lookup_set_eq.
  - destruct (filter _ (conversations s)) as [|row rows]; cbn -[cache_key];
      rewrite Hr; cbn -[cache_key];
      eexists _, _; (split; [reflexivity|]); cbn; apply dict_lookup_set_eq.
Qed.

(** X1: whatever tier answers [get_or_create_session], the record it returns
    is the one then held in [sessions] under the id, and a second call for
    that id, by any user, is answered from there: it returns the same
    record, its owner included, with only [last_activity] set to the
    current time, and calls neither the network cache nor the durable
    store. *)
Theorem resolve_twice_is_served_from_memory sid uid uid' s :
  exists c s1 s2,
    get_or_create_session sid uid s = (Ret c, s1) /\
    dict_lookup sid (sessions s1) = Some c /\
    get_or_create_session sid uid' s1
    = (Ret (refresh (clock s1 (ticks s1)) c), s2) /\
    turns (refresh (clock s1 (ticks s1)) c) = turns c /\
    user_id (refresh (clock s1 (ticks s1)) c) = user_id c /\
    created_at (refresh (clock s1 (ticks s1)) c) = created_at c /\
    calls s2 = calls s1 /\ redis s2 = redis s1 /\
    conversations s2 = conversations s1 /\
    conversation_turns s2 = conversation_turns s1.
Proof.
  destruct (resolve_stores sid uid s) as (c & s1 & Hrun & Hc).
  destruct (resolve_from_memory sid uid' s1 c Hc)
    as (s2 & Hrun2 & _ & Hcalls & Hredis & Hconv & Hturns).
  exists c, s1, s2. by repeat split.
Qed.

(** The answer when no tier knows the session: a record is made, a row
    inserted, both caches filled. *)
Lemma resolve_creates sid uid s :
  dict_lookup sid (sessions s) = None ->
  cache_misses sid s ->
  filter (fun row => row_session_id row = sid) (conversations s) = [] ->
  exists row s',
    get_or_create_session sid uid s
    = (Ret {| session_id := sid; user_id := uid; turns := [];
              created_at := clock s (S (S (ticks s)));
              last_activity := clock s (S (S (S (ticks s))));
              metadata := PDict [] |}, s') /\
    conversations s' = conversations s ++ [row] /\
    row_session_id row = sid /\ row_user_id row = uid /\
    row_created_at row = clock s (ticks s) /\
    row_last_activity row = clock s (S (ticks s)) /\
    conversation_turns s' = conversation_turns s.
Proof.
  intros Hmem Hcache Hstore. unfold cache_misses in Hcache.
  unfold get_or_create_session, bind, gets. rewrite Hmem. cbn -[cache_key].
  destruct (redis s) as [r|] eqn:Hr; cbn -[cache_key].
  - rewrite Hcache. cbn -[cache_key]. rewrite Hstore. cbn -[cache_key].
    rewrite Hr. cbn -[cache_key]. eexists _, _. split; [reflexivity|]. by cbn.
  - rewrite Hstore. cbn -[cache_key]. rewrite Hr. cbn -[cache_key].
    eexists _, _. split; [reflexivity|]. by cbn.
Qed.

(** The answer from the durable store: nothing is inserted, and the record
    is built from the first row found and from the caller's user id. *)
Lemma resolve_from_store sid uid s row rows :
  dict_lookup sid (sessions s) = None ->
  cache_misses sid s ->
  filter (fun row => row_session_id row = sid) (conversations s) = row :: rows ->
  exists c s',
    get_or_create_session sid uid s = (Ret c, s') /\
    session_id c = sid /\ user_id c = uid /\
    created_at c = row_created_at row /\
    last_activity c = clock s (ticks s) /\
    conversations s' = conversations s /\
    conversation_turns s' = conversation_turns s.
Proof.
  intros Hmem Hcache Hstore. unfold cache_misses in Hcache.
  unfold get_or_create_session, bind, gets. rewrite Hmem. cbn -[cache_key].
  destruct (redis s) as [r|] eqn:Hr; cbn -[cache_key].
  - rewrite Hcache. cbn -[cache_key]. rewrite Hstore. cbn -[cache_key].
    rewrite Hr. cbn -[cache_key]. eexists _, _. split; [reflexivity|]. by cbn.
  - rewrite Hstore. cbn -[cache_key]. rewrite Hr. cbn -[cache_key].
    eexists _, _. split; [reflexivity|]. by cbn.
Qed.

(** X2: a session that no tier knows gets one row in the durable store, and
    that row is what a later lookup finds when both caches have lost the
    session: the second lookup inserts nothing, and builds its record from
    the row (its creation time) and from the user id of the second
    caller. *)
Theorem created_session_is_found_again sid uid uid' s s2 :
  dict_lookup sid (sessions s) = None ->
  cache_misses sid s ->
  filter (fun row => row_session_id row = sid) (conversations s) = [] ->
  dict_lookup sid (sessions s2) = None ->
  cache_misses sid s2 ->
  conversations s2 = conversations (snd (get_or_create_session sid uid s)) ->
  exists row c,
    conversations s2 = conversations s ++ [row] /\
    row_session_id row = sid /\ row_user_id row = uid /\
    row_created_at row = clock s (ticks s) /\
    fst (get_or_create_session sid uid' s2) = Ret c /\
    session_id c = sid /\ user_id c = uid' /\
    created_at c = clock s (ticks s) /\
    conversations (snd (get_or_create_session sid uid' s2)) = conversations s2.
Proof.
  intros Hmem Hcache Hstore Hmem2 Hcache2 Hconv.
  destruct (resolve_creates sid uid s Hmem Hcache Hstore)
    as (row & s1 & Hrun & Hrows & Hsid & Huid & Hcreated & _).
  rewrite Hrun in Hconv. cbn [snd] in Hconv. rewrite Hrows in Hconv.
  destruct (resolve_from_store sid uid' s2 row [] Hmem2 Hcache2)
    as (c & s3 & Hrun2 & Hc1 & Hc2 & Hc3 & _ & Hconv3 & _).
  { rewrite Hconv, filter_app, Hstore. cbn [app].
    by rewrite filter_cons_True, filter_nil. }
  exists row, c. rewrite Hrun2. cbn [fst snd].
  repeat split; try done. congruence.
Qed.

(** [f"kenny:session:{sid}"] tells session ids apart. *)
Lemma cache_key_inj sid1 sid2 : cache_key sid1 = cache_key sid2 -> sid1 = sid2.
Proof. unfold cache_key. apply app_inv_head. Qed.

(** Everything one call of [add_turn] does for a session of the map. *)
Lemma add_turn_effect sid m r i conf s ctx :
  dict_lookup sid (sessions s) = Some ctx ->
  let c1 :=
    with_turn
      {| user_message := m; kenny_response := r; intent_classified := i;
         intent_confidence := conf; timestamp := clock s (ticks s);
         turn_number := Z.of_nat (length (turns ctx)) + 1 |}
      (clock s (S (ticks s))) ctx in
  exists s1,
    add_turn sid m r i conf s = (Ret tt, s1) /\
    sessions s1 = dict_set sid c1 (sessions s) /\
    redis s1
    = (fun rd => <[cache_key (session_id ctx) := (session_timeout s, c1)]> rd)
        <$> redis s /\
    conversations s1 = conversations s /\
    conversation_turns s1 = conversation_turns s /\
    session_timeout s1 = session_timeout s.
Proof.
  intros Hctx c1. unfold add_turn, bind, gets. rewrite Hctx. cbn -[cache_key].
  unfold _cache_session, bind, gets. cbn -[cache_key].
  destruct (redis s) as [rd|]; cbn -[cache_key]; eexists;
    (split; [reflexivity|]); by cbn -[cache_key].
Qed.


(** X4: [add_turn] touches one session only: the map keeps its keys in
    their order and every other session as it was, the network cache
    changes under the key of that session only, and the durable store is
    not written. *)
Theorem add_turn_touches_one_session sid m r i conf s ctx :
  dict_lookup sid (sessions s) = Some ctx ->
  let s1 := snd (add_turn sid m r i conf s) in
  fst <$> sessions s1 = fst <$> sessions s /\
  (forall other, other <> sid ->
     dict_lookup other (sessions s1) = dict_lookup other (sessions s)) /\
  (forall key, key <> cache_key (session_id ctx) ->
     (fun rd => rd !! key) <$> redis s1 = (fun rd => rd !! key) <$> redis s) /\
  conversations s1 = conversations s /\
  conversation_turns s1 = conversation_turns s.
Proof.
  intros Hctx s1. subst s1.
  destruct (add_turn_effect sid m r i conf s ctx Hctx)
    as (s1 & Hrun & Hsessions & Hredis & Hconv & Hturns & _).
  rewrite Hrun. cbn [snd]. rewrite Hsessions, Hredis.
  split; [by eapply dict_set_keys_present|].
  split; [intros other Hne; by apply dict_lookup_set_ne|].
  split; [|done].
  intros key Hkey. destruct (redis s) as [rd|]; cbn; [|done].
  by rewrite lookup_insert_ne.
Qed.

(** The loop of [cleanup_sessions] over the expired ids. *)
Lemma cleanup_loop ks : forall s,
  exists s',
    for_each ks
      (fun sid =>
         modify (fun s => with_sessions (dict_del sid (sessions s)) s) ;;
         r <- gets redis ;;
         match r with
         | Some r => redis_delete r (cache_key sid)
         | None => ret tt
         end) s = (Ret tt, s') /\
    sessions s' = fold_left (fun c k => dict_del k c) ks (sessions s) /\
    redis s'
    = (fun rd => fold_left (fun rd k => delete (cache_key k) rd) ks rd)
        <$> redis s /\
    conversations s' = conversations s /\
    conversation_turns s' = conversation_turns s.
Proof.
  induction ks as [|k ks IH]; intros s; cbn [for_each fold_left].
  - exists s. split; [done|]. split; [done|]. split; [by destruct (redis s)|done].
  - unfold bind at 1 2 3, modify at 1, gets at 1. cbn -[cache_key for_each].
    destruct (redis s) as [rd|] eqn:Hrd; cbn -[cache_key for_each].
    + match goal with |- context [for_each ks _ ?s0] =>
        destruct (IH s0) as (s' & Hrun & Hs & Hr & Hc & Ht) end.
      rewrite Hrun. exists s'. split; [done|]. by cbn -[cache_key] in *.
    + match goal with |- context [for_each ks _ ?s0] =>
        destruct (IH s0) as (s' & Hrun & Hs & Hr & Hc & Ht) end.
      rewrite Hrun. exists s'. split; [done|]. cbn -[cache_key] in *.
      by rewrite Hrd in Hr.
Qed.

Lemma lookup_fold_delete {V} (f : pystr -> pystr) ks : forall (rd : gmap pystr V) key,
  fold_left (fun rd k => delete (f k) rd) ks rd !! key
  = if decide (key ∈ f <$> ks) then None else rd !! key.
Proof.
  induction ks as [|k ks IH]; intros rd key; cbn [fold_left].
  - rewrite decide_False; [done|]. apply not_elem_of_nil.
  - rewrite IH, fmap_cons. destruct (decide (key = f k)) as [->|Hne].
    + rewrite lookup_delete_eq, (decide_True (P := _ ∈ _ :: _)); [|left].
      by destruct (decide _).
    + rewrite lookup_delete_ne by done.
      destruct (decide (key ∈ f <$> ks)) as [Hin|Hin].
      * rewrite decide_True; [done|by right].
      * rewrite decide_False; [done|]. rewrite not_elem_of_cons. done.
Qed.

(** X5: [cleanup_sessions] removes from the map exactly the sessions that
    have been idle for more than the timeout at the time it reads, and
    deletes their entries of the network cache; the sessions it keeps stay
    as they were, in their order, with their cache entries, and the durable
    store is not touched. *)
Theorem cleanup_evicts_expired_sessions s :
  dict_wf (sessions s) ->
  let now := clock s (ticks s) in
  let s' := snd (cleanup_sessions s) in
  fst (cleanup_sessions s) = Ret tt /\
  sessions s'
  = filter (fun e => is_expired now (session_timeout s) (snd e) = false)
           (sessions s) /\
  (forall sid c,
     dict_lookup sid (sessions s) = Some c ->
     is_expired now (session_timeout s) c = true ->
     dict_lookup sid (sessions s') = None /\
     (fun rd => rd !! cache_key sid) <$> redis s'
     = (fun _ => None) <$> redis s) /\
  (forall sid c,
     dict_lookup sid (sessions s) = Some c ->
     is_expired now (session_timeout s) c = false ->
     dict_lookup sid (sessions s') = Some c /\
     (fun rd => rd !! cache_key sid) <$> redis s'
     = (fun rd => rd !! cache_key sid) <$> redis s) /\
  conversations s' = conversations s /\
  conversation_turns s' = conversation_turns s.
Proof.
  intros Hwf now s'. subst s'.
  unfold cleanup_sessions. unfold bind at 1 2 3, time_time, gets.
  cbn -[cache_key for_each filter].
  match goal with |- context [for_each ?ks ?b ?s0] =>
    destruct (cleanup_loop ks s0) as (s' & Hrun & Hs & Hr & Hc & Ht);
    change (for_each ks b s0 = (Ret tt, s')) in Hrun end.
  rewrite Hrun. cbn -[cache_key filter] in *. fold now in Hs, Hr.
  assert (sessions s'
          = filter (fun e => is_expired now (session_timeout s) (snd e) = false)
                   (sessions s)) as Hkept.
  { rewrite Hs.
    change (map fst ?l) with (fst <$> l).
    rewrite (del_matching_filter
               (fun e => is_expired now (session_timeout s) (snd e) = true))
      by done.
    apply list_filter_iff. intros e.
    by destruct (is_expired now (session_timeout s) (snd e)). }
  split; [done|]. split; [exact Hkept|].
  split; [|split; [|done]].
  - intros sid c Hc' Hexp. split.
    + rewrite Hkept, dict_lookup_filter, Hc' by done.
      rewrite decide_False; [done|]. cbn. by rewrite Hexp.
    + rewrite Hr. destruct (redis s) as [rd|]; cbn -[cache_key]; [|done].
      f_equal. rewrite lookup_fold_delete, decide_True; [done|].
      apply list_elem_of_fmap. exists sid. split; [done|].
      change (map fst ?l) with (fst <$> l).
      apply list_elem_of_fmap. exists (sid, c). split; [done|].
      apply list_elem_of_filter. split; [done|]. by apply dict_lookup_elem.
  - intros sid c Hc' Hexp. split.
    + rewrite Hkept, dict_lookup_filter, Hc' by done.
      by rewrite decide_True.
    + rewrite Hr. destruct (redis s) as [rd|]; cbn -[cache_key]; [|done].
      f_equal. rewrite lookup_fold_delete, decide_False; [done|].
      intros Hin. apply list_elem_of_fmap in Hin as (sid2 & Hkey & Hin).
      apply cache_key_inj in Hkey. subst sid2.
      change (map fst ?l) with (fst <$> l) in Hin.
      apply list_elem_of_fmap in Hin as ([k c2] & Hk & Hin). cbn in Hk. subst k.
      apply list_elem_of_filter in Hin as [Hexp2 Hin]. cbn in Hexp2.
      pose proof (dict_lookup_wf sid c2 _ Hwf Hin) as Hc2.
      assert (c2 = c) as -> by congruence. congruence.
Qed.

(** X6: the numbers [add_turn] gives to turns appended one after the other
    to a record of k <= 10 turns: the j-th of them (from 0) is numbered
    min(k + j, 10) + 1.  The numbers count up from k + 1 while the record
    holds fewer than ten turns, and every turn appended to a full record is
    numbered 11. *)
Theorem turn_numbers_follow_kept_count sid appends : forall s ctx,
  dict_lookup sid (sessions s) = Some ctx ->
  (length (turns ctx) <= 10)%nat ->
  map turn_number (fst (run_appends sid appends s))
  = map (fun j => Z.of_nat (Nat.min (length (turns ctx) + j) 10) + 1)
        (seq 0 (length appends)).
Proof.
  induction appends as [|a appends IH]; intros s ctx Hctx Hlen; [done|].
  cbn [run_appends].
  pose proof (appended_after_add_turn sid (a_message a) (a_response a)
                (a_intent a) (a_confidence a) s ctx Hctx) as Happ.
  destruct (add_turn_present sid (a_message a) (a_response a) (a_intent a)
              (a_confidence a) s ctx Hctx) as (s1 & Hrun & Hs1).
  rewrite Hrun in *. cbn [snd] in *. rewrite Happ.
  specialize (IH s1 _ Hs1).
  destruct (run_appends sid appends s1) as [created s2]. cbn [fst snd] in *.
  rewrite turns_with_turn, length_last_n, length_app in IH. cbn [length] in IH.
  cbn [option_list option_rect app length seq map turn_number].
  rewrite IH by lia. f_equal.
  - f_equal. lia.
  - rewrite <- seq_shift, map_map. apply map_ext. intros j. f_equal. lia.
Qed.

(** [add_turn] does not write to the durable store. *)
Lemma add_turn_store sid m r i conf s :
  conversations (snd (add_turn sid m r i conf s)) = conversations s /\
  conversation_turns (snd (add_turn sid m r i conf s)) = conversation_turns s.
Proof.
  destruct (dict_lookup sid (sessions s)) as [ctx|] eqn:Hctx.
  - destruct (add_turn_effect sid m r i conf s ctx Hctx)
      as (s1 & -> & _ & _ & Hc & Ht & _). done.
  - unfold add_turn, bind, gets. by rewrite Hctx.
Qed.

(** The record built from a row of the durable store holds the turns of
    that conversation in the store. *)
Lemma resolve_from_store_turns sid uid s row rows :
  dict_lookup sid (sessions s) = None ->
  cache_misses sid s ->
  filter (fun row => row_session_id row = sid) (conversations s) = row :: rows ->
  exists c s',
    get_or_create_session sid uid s = (Ret c, s') /\
    turns c
    = order_by_number
        (map row_turn
           (filter (fun t => row_conversation_id t = row_id row)
                   (conversation_turns s))).
Proof.
  intros Hmem Hcache Hstore. unfold cache_misses in Hcache.
  unfold get_or_create_session, bind, gets. rewrite Hmem. cbn -[cache_key filter].
  destruct (redis s) as [r|] eqn:Hr; cbn -[cache_key filter].
  - rewrite Hcache. cbn -[cache_key filter]. rewrite Hstore.
    cbn -[cache_key filter]. rewrite Hr. cbn -[cache_key filter].
    eexists _, _. split; [reflexivity|]. by cbn -[filter].
  - rewrite Hstore. cbn -[cache_key filter]. rewrite Hr. cbn -[cache_key filter].
    eexists _, _. split; [reflexivity|]. by cbn -[filter].
Qed.

(** X7: the turns [add_turn] appends are never written to the durable
    store.  When the process-local map and the network cache have lost a
    session that has a row in the store, the record that
    [get_or_create_session] rebuilds holds the turns the store had before
    the call of [add_turn], whatever turn was added. *)
Theorem added_turn_does_not_reach_the_store sid m r i conf uid s s2 row rows :
  dict_lookup sid (sessions s2) = None ->
  cache_misses sid s2 ->
  conversations s2 = conversations (snd (add_turn sid m r i conf s)) ->
  conversation_turns s2
  = conversation_turns (snd (add_turn sid m r i conf s)) ->
  filter (fun row => row_session_id row = sid) (conversations s)
  = row :: rows ->
  exists c,
    fst (get_or_create_session sid uid s2) = Ret c /\
    turns c
    = order_by_number
        (map row_turn
           (filter (fun t => row_conversation_id t = row_id row)
                   (conversation_turns s))).
Proof.
  intros Hmem Hcache Hconv Hturns Hrow.
  destruct (add_turn_store sid m r i conf s) as [Hc Ht].
  rewrite Hc in Hconv. rewrite Ht in Hturns. rewrite <- Hconv in Hrow.
  destruct (resolve_from_store_turns sid uid s2 row rows Hmem Hcache Hrow)
    as (c & s' & Hrun & Hc').
  exists c. rewrite Hrun. split; [done|]. by rewrite Hc', Hturns.
Qed.

(** The loop of [cleanup_sessions] in a manager without a cache. *)
Lemma cleanup_loop_no_cache ks : forall s,
  redis s = None ->
  exists s',
    for_each ks
      (fun sid =>
         modify (fun s => with_sessions (dict_del sid (sessions s)) s) ;;
         r <- gets redis ;;
         match r with
         | Some r => redis_delete r (cache_key sid)
         | None => ret tt
         end) s = (Ret tt, s') /\
    redis s' = None /\ calls s' = calls s.
Proof.
  induction ks as [|k ks IH]; intros s Hr; cbn [for_each].
  - by exists s.
  - unfold bind at 1 2 3, modify at 1, gets at 1. cbn -[cache_key for_each].
    rewrite Hr. cbn -[cache_key for_each].
    match goal with |- context [for_each ks _ ?s0] =>
      destruct (IH s0 Hr) as (s' & Hrun & Hr' & Hc) end.
    rewrite Hrun. by exists s'.
Qed.

(** X8: a manager that has no connection to the network cache (as it is
    before [initialize]) works without it: no operation calls the cache or
    connects it, and the calls [get_or_create_session] makes all go to the
    durable store. *)
Theorem manager_without_cache_never_calls_it sid uid m r i conf s :
  redis s = None ->
  (exists made,
     calls (snd (get_or_create_session sid uid s)) = calls s ++ made /\
     Forall (fun c => is_cache_call c = false) made) /\
  redis (snd (get_or_create_session sid uid s)) = None /\
  calls (snd (add_turn sid m r i conf s)) = calls s /\
  redis (snd (add_turn sid m r i conf s)) = None /\
  calls (snd (cleanup_sessions s)) = calls s /\
  redis (snd (cleanup_sessions s)) = None.
Proof.
  intros Hr.
  assert ((exists made,
             calls (snd (get_or_create_session sid uid s)) = calls s ++ made /\
             Forall (fun c => is_cache_call c = false) made) /\
          redis (snd (get_or_create_session sid uid s)) = None) as [Hget Hget'].
  { destruct (dict_lookup sid (sessions s)) as [c|] eqn:Hc.
    - destruct (resolve_from_memory sid uid s c Hc)
        as (s' & -> & _ & Hcalls & Hredis & _). cbn [snd].
      split; [|congruence]. exists []. by rewrite app_nil_r.
    - unfold get_or_create_session, bind, gets. rewrite Hc.
      cbn -[cache_key filter]. rewrite Hr. cbn -[cache_key filter].
      destruct (filter _ (conversations s)) as [|row rows];
        cbn -[cache_key filter]; rewrite Hr; cbn -[cache_key filter].
      + split; [|done]. eexists. rewrite <- !app_assoc. split; [reflexivity|].
        by repeat constructor.
      + split; [|done]. eexists. rewrite <- !app_assoc. split; [reflexivity|].
        by repeat constructor. }
  split; [exact Hget|]. split; [exact Hget'|].
  assert (calls (snd (add_turn sid m r i conf s)) = calls s /\
          redis (snd (add_turn sid m r i conf s)) = None) as [Hadd Hadd'].
  { unfold add_turn, bind, gets.
    destruct (dict_lookup sid (sessions s)) as [ctx|]; [|done].
    cbn -[cache_key]. unfold _cache_session, bind, gets. cbn -[cache_key].
    by rewrite Hr. }
  split; [exact Hadd|]. split; [exact Hadd'|].
  unfold cleanup_sessions. unfold bind at 1 2 3, time_time, gets.
  cbn -[cache_key for_each filter].
  match goal with |- context [for_each ?ks ?b ?s0] =>
    destruct (cleanup_loop_no_cache ks s0 Hr) as (s' & Hrun & Hr' & Hc);
    change (for_each ks b s0 = (Ret tt, s')) in Hrun end.
  rewrite Hrun. by cbn in *.
Qed.

Lemma turn_numbers_follow_kept_count_witness :
  dict_lookup (lit "s") (sessions fresh_manager)
  = Some {| session_id := lit "s"; user_id := lit "u"; turns := [];
            created_at := of_Z 2; last_activity := of_Z 3;
            metadata := PDict [] |} /\
  (length (@nil Turn) <= 10)%nat /\
  map turn_number
      (fst (run_appends (lit "s") (replicate 3 hello) fresh_manager))
  = map (fun j => Z.of_nat (Nat.min (length (@nil Turn) + j) 10) + 1)
        (seq 0 (length (replicate 3 hello))).
Proof.
  split; [reflexivity|]. split; [simpl; lia|].
  apply (turn_numbers_follow_kept_count (lit "s") (replicate 3 hello)
           fresh_manager
           {| session_id := lit "s"; user_id := lit "u"; turns := [];
              created_at := of_Z 2; last_activity := of_Z 3;
              metadata := PDict [] |}); [reflexivity | simpl; lia].
Defined.

Lemma created_session_is_found_again_witness :
  let s2 := with_sessions [] (with_redis ∅ fresh_manager) in
  exists row c,
    conversations s2 = conversations empty_manager ++ [row] /\
    row_session_id row = lit "s" /\ row_user_id row = lit "u" /\
    row_created_at row = clock empty_manager (ticks empty_manager) /\
    fst (get_or_create_session (lit "s") (lit "v") s2) = Ret c /\
    session_id c = lit "s" /\ user_id c = lit "v" /\
    created_at c = clock empty_manager (ticks empty_manager) /\
    conversations (snd (get_or_create_session (lit "s") (lit "v") s2))
    = conversations s2.
Proof.
  apply (created_session_is_found_again (lit "s") (lit "u") (lit "v")
           empty_manager (with_sessions [] (with_redis ∅ fresh_manager)));
    vm_compute; reflexivity.
Defined.


Lemma add_turn_touches_one_session_witness :
  let s1 := snd (add_turn (lit "s") (lit "hi") (lit "hello") (lit "chat")
                   (of_Z 1) fresh_manager) in
  fst <$> sessions s1 = fst <$> sessions fresh_manager /\
  (forall other, other <> lit "s" ->
     dict_lookup other (sessions s1)
     = dict_lookup other (sessions fresh_manager)) /\
  (forall key, key <> cache_key (lit "s") ->
     (fun rd => rd !! key) <$> redis s1
     = (fun rd => rd !! key) <$> redis fresh_manager) /\
  conversations s1 = conversations fresh_manager /\
  conversation_turns s1 = conversation_turns fresh_manager.
Proof.
  apply (add_turn_touches_one_session (lit "s") (lit "hi") (lit "hello")
           (lit "chat") (of_Z 1) fresh_manager
           {| session_id := lit "s"; user_id := lit "u"; turns := [];
              created_at := of_Z 2; last_activity := of_Z 3;
              metadata := PDict [] |}).
  vm_compute; reflexivity.
Defined.

Lemma cleanup_evicts_expired_sessions_witness :
  dict_wf (sessions stale_manager) /\
  dict_lookup (lit "s") (sessions (snd (cleanup_sessions stale_manager)))
  = None.
Proof.
  assert (dict_wf (sessions stale_manager)) as Hwf.
  { unfold dict_wf. simpl. apply NoDup_singleton. }
  split; [exact Hwf|].
  destruct (cleanup_evicts_expired_sessions stale_manager Hwf)
    as (_ & _ & Hgone & _).
  apply (Hgone (lit "s") stale_session); vm_compute; reflexivity.
Defined.



Lemma added_turn_does_not_reach_the_store_witness :
  let s1 := snd (add_turn (lit "s") (lit "hi") (lit "hello") (lit "chat")
                   (of_Z 1) fresh_manager) in
  let s2 := with_sessions [] (with_redis ∅ s1) in
  exists c,
    fst (get_or_create_session (lit "s") (lit "u") s2) = Ret c /\
    turns c
    = order_by_number
        (map row_turn
           (filter (fun t => row_conversation_id t = 1)
                   (conversation_turns fresh_manager))).
Proof.
  apply (added_turn_does_not_reach_the_store (lit "s") (lit "hi") (lit "hello")
           (lit "chat") (of_Z 1) (lit "u") fresh_manager
           (with_sessions []
              (with_redis ∅
                 (snd (add_turn (lit "s") (lit "hi") (lit "hello") (lit "chat")
                         (of_Z 1) fresh_manager))))
           {| row_id := 1; row_session_id := lit "s"; row_user_id := lit "u";
              row_created_at := of_Z 0; row_last_activity := of_Z 1;
              row_metadata := None |} []);
    vm_compute; reflexivity.
Defined.

Lemma manager_without_cache_never_calls_it_witness :
  redis offline_manager = None /\
  redis (snd (get_or_create_session (lit "s") (lit "u") offline_manager))
  = None /\
  calls (snd (cleanup_sessions offline_manager)) = calls offline_manager.
Proof.
  split; [reflexivity|].
  destruct (manager_without_cache_never_calls_it (lit "s") (lit "u")
              (lit "hi") (lit "hello") (lit "chat") (of_Z 1) offline_manager
              eq_refl)
    as (_ & Hget & _ & _ & Hclean & _).
  split; [exact Hget|exact Hclean].
Defined.

End SessionExtras.

(* ===================================================================== *)
(** * The pipeline: sessions of a user *)
(* ===================================================================== *)

Module SessionIdFacts.
Import Pipeline ListFacts DictFacts DictMore PipelineFacts.

(** The sessions left by the clean-up at the head of [get_session_id]. *)
Lemma purge_filter now timeout (cache : list (pystr * SessionData)) :
  dict_wf cache ->
  fold_left (fun c sid => dict_del sid c)
    (map fst (filter (fun e => is_expired now timeout (snd e) = true) cache))
    cache
  = filter (fun e => is_expired now timeout (snd e) = false) cache.
Proof.
  intros Hwf. change (map fst ?l) with (fst <$> l).
  rewrite (del_matching_filter
             (fun e => is_expired now timeout (snd e) = true)) by done.
  apply list_filter_iff. intros e.
  by destruct (is_expired now timeout (snd e)).
Qed.

(** The loop over the items: the first session of the user is touched. *)
Lemma find_session_split uid now cache :
  match find_session uid now cache with
  | Some (sid, cache') =>
      exists pre data post,
        cache = pre ++ (sid, data) :: post /\
        Forall (fun e => user_id (snd e) <> uid) pre /\
        user_id data = uid /\
        cache' = pre ++ (sid, touch now data) :: post
  | None => Forall (fun e => user_id (snd e) <> uid) cache
  end.
Proof.
  induction cache as [|[k d] cache IH]; cbn [find_session]; [done|].
  destruct (bool_decide (user_id d = uid)) eqn:E.
  - apply bool_decide_eq_true_1 in E. by exists [], d, cache.
  - apply bool_decide_eq_false_1 in E.
    destruct (find_session uid now cache) as [[sid cache']|].
    + destruct IH as (pre & data & post & -> & Hpre & Hu & ->).
      exists ((k, d) :: pre), data, post. split; [done|].
      split; [by constructor|done].
    + by constructor.
Qed.

Lemma find_session_first uid now pre sid data post :
  Forall (fun e => user_id (snd e) <> uid) pre ->
  user_id data = uid ->
  find_session uid now (pre ++ (sid, data) :: post)
  = Some (sid, pre ++ (sid, touch now data) :: post).
Proof.
  intros Hpre Hu. induction Hpre as [|[k d] pre Hd Hpre IH]; cbn [find_session app].
  - by rewrite bool_decide_eq_true_2.
  - cbn in Hd. rewrite bool_decide_eq_false_2 by done. by rewrite IH.
Qed.

(** The two ways [get_session_id] ends. *)
Lemma get_session_id_cases user s :
  dict_wf (session_cache s) ->
  let uid := default (lit "anonymous") (u_id user) in
  let now := clock s (ticks s) in
  let live :=
    filter (fun e => is_expired now (session_timeout (valves s)) (snd e) = false)
           (session_cache s) in
  (exists pre sid data post,
     live = pre ++ (sid, data) :: post /\
     Forall (fun e => user_id (snd e) <> uid) pre /\
     user_id data = uid /\
     get_session_id user s
     = (Ret sid, with_cache (pre ++ (sid, touch now data) :: post) (tick s)))
  \/
  (Forall (fun e => user_id (snd e) <> uid) live /\
   get_session_id user s
   = (Ret (uuid4 s (uuids_drawn s)),
      with_cache
        (dict_set (uuid4 s (uuids_drawn s))
           {| user_id := uid; created_at := now; last_activity := now;
              conversation_history := [] |} live)
        (drawn (tick s)))).
Proof.
  intros Hwf uid now live.
  unfold get_session_id, bind, time_time, gets, modify, ret, uuid_uuid4.
  cbn -[filter lit]. rewrite purge_filter by done. fold now uid live.
  pose proof (find_session_split uid now live) as Hfind.
  destruct (find_session uid now live) as [[sid cache']|].
  - destruct Hfind as (pre & data & post & Hlive & Hpre & Hu & ->).
    left. by exists pre, sid, data, post.
  - right. done.
Qed.

(** A session of the user that is first among the live ones is resumed. *)
Lemma get_session_id_found user s pre sid data post :
  dict_wf (session_cache s) ->
  let uid := default (lit "anonymous") (u_id user) in
  let now := clock s (ticks s) in
  filter (fun e => is_expired now (session_timeout (valves s)) (snd e) = false)
         (session_cache s)
  = pre ++ (sid, data) :: post ->
  Forall (fun e => user_id (snd e) <> uid) pre ->
  user_id data = uid ->
  get_session_id user s
  = (Ret sid, with_cache (pre ++ (sid, touch now data) :: post) (tick s)).
Proof.
  intros Hwf uid now Hlive Hpre Hu.
  unfold get_session_id, bind, time_time, gets, modify, ret, uuid_uuid4.
  cbn -[filter lit]. rewrite purge_filter by done. fold now uid.
  rewrite Hlive, (find_session_first uid now pre sid data post) by done.
  reflexivity.
Qed.

Lemma dict_lookup_middle {V} k (v : V) pre post :
  dict_wf (pre ++ (k, v) :: post) ->
  dict_lookup k (pre ++ (k, v) :: post) = Some v.
Proof.
  intros Hwf. apply dict_lookup_wf; [done|]. apply elem_of_app. right. by left.
Qed.

Lemma dict_lookup_middle_ne {V} k k0 (v v' : V) pre post :
  k0 <> k ->
  dict_lookup k0 (pre ++ (k, v) :: post)
  = dict_lookup k0 (pre ++ (k, v') :: post).
Proof.
  intros Hne. induction pre as [|[k1 v1] pre IH]; cbn.
  - by rewrite !bool_decide_eq_false_2.
  - by rewrite IH.
Qed.

Lemma keys_middle {V} (k : pystr) (v v' : V) pre post :
  fst <$> (pre ++ (k, v) :: post) = fst <$> (pre ++ (k, v') :: post).
Proof. by rewrite !fmap_app, !fmap_cons. Qed.

(** [d[k] = v] leaves the items before the one it writes. *)
Lemma dict_set_split {V} k (v : V) d :
  exists pre post,
    dict_set k v d = pre ++ (k, v) :: post /\
    forall P : pystr * V -> Prop, Forall P d -> Forall P pre.
Proof.
  induction d as [|[k' v'] d IH]; cbn.
  - exists [], []. split; [done|]. intros P _. constructor.
  - destruct (bool_decide (k' = k)).
    + exists [], d. split; [done|]. intros P _. constructor.
    + destruct IH as (pre & post & -> & Hpre).
      exists ((k', v') :: pre), post. split; [done|]. intros P HP.
      apply Forall_cons in HP as [Hx HP]. constructor; [done|by apply Hpre].
Qed.

Lemma dict_lookup_live now timeout other (cache : list (pystr * SessionData)) :
  dict_wf cache ->
  dict_lookup other
    (filter (fun e => is_expired now timeout (snd e) = false) cache)
  = match dict_lookup other cache with
    | Some d => if is_expired now timeout d then None else Some d
    | None => None
    end.
Proof.
  intros Hwf. rewrite dict_lookup_filter by done.
  destruct (dict_lookup other cache) as [d|]; [|done]. cbn.
  destruct (is_expired now timeout d); by destruct (decide _).
Qed.

(** X9: what [get_session_id] returns and leaves in the cache.  The id
    returned names a session of the caller whose [last_activity] is the
    time of the call; it is a session of that user that was in the cache
    and had not expired, resumed with its history and no identifier drawn,
    or, when every session of the user had expired or there was none, a new
    one with an empty history under the identifier drawn.  Of the other
    sessions the expired ones are gone and the rest are unchanged. *)
Theorem get_session_id_resumes_or_creates user s :
  dict_wf (session_cache s) ->
  let uid := default (lit "anonymous") (u_id user) in
  let now := clock s (ticks s) in
  let timeout := session_timeout (valves s) in
  exists sid data s1,
    get_session_id user s = (Ret sid, s1) /\
    dict_wf (session_cache s1) /\
    dict_lookup sid (session_cache s1) = Some data /\
    user_id data = uid /\ last_activity data = now /\
    (forall other, other <> sid ->
       dict_lookup other (session_cache s1)
       = match dict_lookup other (session_cache s) with
         | Some d => if is_expired now timeout d then None else Some d
         | None => None
         end) /\
    ((exists old,
        dict_lookup sid (session_cache s) = Some old /\
        is_expired now timeout old = false /\
        data = touch now old /\
        uuids_drawn s1 = uuids_drawn s)
     \/
     ((forall k d,
         dict_lookup k (session_cache s) = Some d ->
         user_id d = uid -> is_expired now timeout d = true) /\
      sid = uuid4 s (uuids_drawn s) /\
      data = {| user_id := uid; created_at := now; last_activity := now;
                conversation_history := [] |} /\
      uuids_drawn s1 = S (uuids_drawn s))).
Proof.
  intros Hwf uid now timeout.
  pose proof (dict_wf_filter
                (fun e => is_expired now timeout (snd e) = false)
                (session_cache s) Hwf) as Hwfl.
  destruct (get_session_id_cases user s Hwf)
    as [(pre & sid & data & post & Hlive & Hpre & Hu & Hrun)|[Hnone Hrun]];
    try (fold uid now timeout in Hlive); try (fold uid now timeout in Hnone);
    fold uid now timeout in Hrun.
  - exists sid, (touch now data), (with_cache (pre ++ (sid, touch now data) :: post) (tick s)).
    split; [exact Hrun|]. cbn [session_cache with_cache].
    rewrite Hlive in Hwfl.
    assert (dict_wf (pre ++ (sid, touch now data) :: post)) as Hwf1.
    { unfold dict_wf. by rewrite (keys_middle sid _ data). }
    split; [exact Hwf1|]. split; [by apply dict_lookup_middle|].
    split; [exact Hu|]. split; [done|]. split.
    + intros other Hne.
      rewrite (dict_lookup_middle_ne sid other _ data) by done.
      rewrite <- Hlive. by apply dict_lookup_live.
    + left. exists data.
      pose proof (dict_lookup_middle sid data pre post Hwfl) as Hl.
      rewrite <- Hlive, dict_lookup_live in Hl by done.
      destruct (dict_lookup sid (session_cache s)) as [d|]; [|done].
      fold timeout in Hl.
      destruct (is_expired now timeout d) eqn:E; [done|].
      injection Hl as ->. done.
  - eexists _, _, _. split; [exact Hrun|]. cbn [session_cache with_cache].
    split; [by apply dict_set_keys_wf|].
    split; [by apply dict_lookup_set_eq|]. split; [done|]. split; [done|].
    split.
    + intros other Hne. rewrite dict_lookup_set_ne by done.
      by apply dict_lookup_live.
    + right. split; [|done]. intros k d Hk Hd.
      destruct (is_expired now timeout d) eqn:E; [done|].
      rewrite Forall_forall in Hnone. exfalso.
      apply (Hnone (k, d)); [|exact Hd].
      apply list_elem_of_filter. split; [exact E|by apply dict_lookup_elem].
Qed.

(** After [get_session_id] the session returned is the first one of the
    caller in the cache. *)
Lemma get_session_id_first user s :
  dict_wf (session_cache s) ->
  let uid := default (lit "anonymous") (u_id user) in
  exists sid s1 pre data post,
    get_session_id user s = (Ret sid, s1) /\
    session_cache s1 = pre ++ (sid, data) :: post /\
    Forall (fun e => user_id (snd e) <> uid) pre /\
    user_id data = uid /\ last_activity data = clock s (ticks s) /\
    dict_wf (session_cache s1).
Proof.
  intros Hwf uid.
  pose proof (dict_wf_filter
                (fun e => is_expired (clock s (ticks s))
                            (session_timeout (valves s)) (snd e) = false)
                (session_cache s) Hwf) as Hwfl.
  destruct (get_session_id_cases user s Hwf)
    as [(pre & sid & data & post & Hlive & Hpre & Hu & Hrun)|[Hnone Hrun]].
  - eexists _, _, pre, _, post. split; [exact Hrun|].
    cbn [session_cache with_cache]. split; [done|]. split; [done|].
    split; [done|]. split; [done|].
    rewrite Hlive in Hwfl. unfold dict_wf.
    by rewrite (keys_middle sid _ data).
  - match type of Hrun with context [dict_set ?k ?v ?d] =>
      destruct (dict_set_split k v d) as (pre & post & Hset & Hpre);
      pose proof (dict_set_keys_wf k v d Hwfl) as Hwf1 end.
    eexists _, _, pre, _, post. split; [exact Hrun|].
    cbn [session_cache with_cache]. split; [exact Hset|].
    split; [by apply Hpre|]. done.
Qed.

(** The next call of the same user. *)
Lemma resume_session user user' s s2 :
  dict_wf (session_cache s) ->
  u_id user' = u_id user ->
  Forall2 (fun e2 e1 =>
             fst e2 = fst e1 /\ user_id (snd e2) = user_id (snd e1) /\
             last_activity (snd e2) = last_activity (snd e1))
          (session_cache s2) (session_cache (snd (get_session_id user s))) ->
  gt_int (fsub (clock s2 (ticks s2)) (clock s (ticks s)))
         (session_timeout (valves s2)) = false ->
  exists sid,
    fst (get_session_id user s) = Ret sid /\
    fst (get_session_id user' s2) = Ret sid /\
    uuids_drawn (snd (get_session_id user' s2)) = uuids_drawn s2 /\
    history_of sid (session_cache (snd (get_session_id user' s2)))
    = history_of sid (session_cache s2).
Proof.
  intros Hwf Huser Hsame Hlive.
  destruct (get_session_id_first user s Hwf)
    as (sid & s1 & pre1 & d1 & post1 & Hrun & Hc1 & Hpre1 & Hu1 & Ht1 & Hwf1).
  rewrite Hrun in *. cbn [fst snd] in *. rewrite Hc1 in Hsame.
  apply Forall2_app_inv_r in Hsame as (pre2 & rest & Hpre & Hrest & Hc2).
  apply Forall2_cons_inv_r in Hrest
    as ([sid2 d2] & post2 & (Hk & Hu2 & Ht2) & Hpost & ->).
  cbn [fst snd] in Hk, Hu2, Ht2. subst sid2.
  assert (dict_wf (session_cache s2)) as Hwf2.
  { unfold dict_wf in *. rewrite Hc1 in Hwf1. rewrite Hc2.
    replace (fst <$> pre2 ++ (sid, d2) :: post2)
      with (fst <$> pre1 ++ (sid, d1) :: post1); [done|].
    rewrite !fmap_app, !fmap_cons. cbn [fst]. f_equal; [|f_equal].
    - clear -Hpre. induction Hpre as [|???? (Hk & _) _ IH]; [done|].
      rewrite !fmap_cons. congruence.
    - clear -Hpost. induction Hpost as [|???? (Hk & _) _ IH]; [done|].
      rewrite !fmap_cons. congruence. }
  set (now2 := clock s2 (ticks s2)) in *.
  set (alive := fun e : pystr * SessionData =>
                  is_expired now2 (session_timeout (valves s2)) (snd e) = false).
  assert (filter alive (session_cache s2)
          = filter alive pre2 ++ (sid, d2) :: filter alive post2) as Hlive2.
  { rewrite Hc2, filter_app, filter_cons_True; [done|].
    unfold alive, is_expired. cbn [snd]. by rewrite Ht2, Ht1. }
  assert (Forall (fun e => user_id (snd e)
                           <> default (lit "anonymous") (u_id user'))
                 (filter alive pre2)) as Hothers.
  { rewrite Huser. apply Forall_forall. intros e He.
    apply list_elem_of_filter in He as [_ He].
    clear -Hpre Hpre1 He. induction Hpre as [|e2 e1 ?? (_ & Hu & _) _ IH].
    - by apply elem_of_nil in He.
    - apply Forall_cons in Hpre1 as [H1 Hpre1].
      apply elem_of_cons in He as [->|He]; [congruence|by apply IH]. }
  assert (user_id d2 = default (lit "anonymous") (u_id user')) as Hmine
    by (rewrite Huser; congruence).
  rewrite (get_session_id_found user' s2 _ sid d2 _ Hwf2 Hlive2 Hothers Hmine).
  exists sid. cbn [fst snd session_cache with_cache uuids_drawn tick].
  split; [done|]. split; [done|]. split; [done|].
  unfold history_of.
  pose proof (dict_wf_filter alive _ Hwf2) as Hwfl. rewrite Hlive2 in Hwfl.
  rewrite (dict_lookup_middle sid (touch now2 d2)).
  - rewrite Hc2 in Hwf2 |- *. by rewrite dict_lookup_middle.
  - unfold dict_wf. by rewrite (keys_middle sid _ d2).
Qed.

(** X10: conversation continuity.  A user who has been given a session
    gets the same session again at the next call, without a new identifier
    and with the history as it stands, when the call comes before the
    session has been idle for more than the timeout; what happened to the
    histories in between does not matter. *)
Theorem same_user_resumes_same_session user user' s s2 :
  dict_wf (session_cache s) ->
  u_id user' = u_id user ->
  Forall2 (fun e2 e1 =>
             fst e2 = fst e1 /\ user_id (snd e2) = user_id (snd e1) /\
             last_activity (snd e2) = last_activity (snd e1))
          (session_cache s2) (session_cache (snd (get_session_id user s))) ->
  gt_int (fsub (clock s2 (ticks s2)) (clock s (ticks s)))
         (session_timeout (valves s2)) = false ->
  exists sid,
    fst (get_session_id user s) = Ret sid /\
    fst (get_session_id user' s2) = Ret sid /\
    uuids_drawn (snd (get_session_id user' s2)) = uuids_drawn s2 /\
    history_of sid (session_cache (snd (get_session_id user' s2)))
    = history_of sid (session_cache s2).
Proof. apply resume_session. Qed.


End SessionIdFacts.

(* ===================================================================== *)
(** * The pipeline: one request after another *)
(* ===================================================================== *)

Module PipeFrames.
Import Pipeline ListFacts DictFacts DictMore PipelineFacts SessionIdFacts.

Lemma get_session_id_frame user s :
  exists sid s1,
    get_session_id user s = (Ret sid, s1) /\
    valves s1 = valves s /\ clock s1 = clock s /\ ticks s1 = S (ticks s) /\
    uuid4 s1 = uuid4 s /\ n8n s1 = n8n s /\ posted s1 = posted s /\
    yielded s1 = yielded s /\
    (uuids_drawn s1 = uuids_drawn s \/ uuids_drawn s1 = S (uuids_drawn s)).
Proof.
  unfold get_session_id, bind, time_time, gets, modify, ret, uuid_uuid4.
  cbn -[filter lit].
  match goal with |- context [find_session ?u ?t ?c] =>
    destruct (find_session u t c) as [[sid cache']|] end;
    eexists _, _; (split; [reflexivity|]); cbn; tauto.
Qed.

(** The state [call_n8n_router] leaves. *)
Lemma call_n8n_router_state message sid user s :
  exists result s',
    call_n8n_router message sid user s = (Ret result, s') /\
    posted s' = posted s ++ [router_request message sid user s] /\
    valves s' = valves s /\ clock s' = clock s /\ uuid4 s' = uuid4 s /\
    uuids_drawn s' = uuids_drawn s /\ n8n s' = n8n s /\
    yielded s' = yielded s /\
    (session_cache s' = session_cache s \/
     exists x, session_cache s'
               = dict_update sid (record_exchange x) (session_cache s)).
Proof.
  rewrite call_n8n_router_run. cbv zeta.
  destruct (n8n s (length (posted s)) (router_request message sid user s))
    as [msg|msg|r]; [eexists _, _; split; [reflexivity|]; cbn; tauto ..|].
  destruct (status_code r =? 200);
    [|eexists _, _; split; [reflexivity|]; cbn; tauto].
  destruct (json_body r) as [result|msg];
    [|eexists _, _; split; [reflexivity|]; cbn; tauto].
  destruct (dict_lookup sid (session_cache s));
    [|eexists _, _; split; [reflexivity|]; cbn; tauto].
  destruct result; eexists _, _; (split; [reflexivity|]); cbn;
    try tauto.
  repeat (split; [reflexivity|]). right. by eexists.
Qed.

(** One request whose list of messages is not empty, step by step. *)
Lemma run_pipe_steps repr body s m :
  last (messages body) = Some m ->
  log_passes (debug_mode (valves s)) (default [] (content m)) = true ->
  exists sid s1 result s2 evs,
    get_session_id (user body) (started s) = (Ret sid, s1) /\
    call_n8n_router (default [] (content m)) sid (user body) s1
    = (Ret result, s2) /\
    pipe repr body (started s) = (Ret tt, emitted evs s2) /\
    yielded s2 = [] /\
    run_pipe repr body s = (evs, emitted evs s2).
Proof.
  intros Hlast Hlog.
  destruct (pipe_run repr body s m Hlast Hlog)
    as (sid & s1 & result & s2 & evs & (Hsid & Hin & Hframe) & Hcall & Hpipe & _).
  destruct (call_n8n_router_frame (default [] (content m)) sid (user body) s1)
    as (result' & s2' & Hcall' & _ & _ & Hy).
  rewrite Hcall in Hcall'. injection Hcall' as <- <-.
  assert (yielded s2 = []) as Hnil.
  { rewrite Hy. by destruct Hframe as (_ & _ & _ & _ & _ & ->). }
  exists sid, s1, result, s2, evs. repeat (split; [done|]).
  unfold run_pipe. rewrite Hpipe. cbn [snd].
  change (yielded (emitted evs s2)) with (yielded s2 ++ evs). by rewrite Hnil.
Qed.

Lemma run_pipe_empty repr body s :
  last (messages body) = None ->
  pipe repr body (started s)
  = (Ret tt, emitted [EError (lit "No messages provided")] (started s)).
Proof.
  intros Hlast. unfold pipe, pipe_body, try_except. by rewrite Hlast.
Qed.

(** A request that does not reach the workflow leaves everything but the
    events as it was. *)
Lemma run_pipe_stops repr body s :
  reaches_router (debug_mode (valves s)) body = false ->
  exists evs, snd (run_pipe repr body s) = emitted evs (started s).
Proof.
  unfold reaches_router. intros Hstop.
  destruct (last (messages body)) as [m|] eqn:Hlast.
  - destruct (pipe_print_fails repr body s m Hlast Hstop) as [e Hpipe].
    unfold run_pipe. rewrite Hpipe. by eexists.
  - unfold run_pipe. rewrite run_pipe_empty by done. by eexists.
Qed.

(** A request that reaches the workflow has a message that was printed. *)
Lemma reaches_router_message debug body :
  reaches_router debug body = true ->
  exists m,
    last (messages body) = Some m /\
    log_passes debug (default [] (content m)) = true.
Proof.
  unfold reaches_router. destruct (last (messages body)) as [m|]; [|done].
  intros Hlog. by exists m.
Qed.

Lemma elem_of_dict_set {V} k (v : V) d x :
  x ∈ dict_set k v d -> x = (k, v) \/ x ∈ d.
Proof.
  induction d as [|[k' v'] d IH]; cbn.
  - intros Hx. apply list_elem_of_singleton in Hx. by left.
  - destruct (bool_decide (k' = k)).
    + intros Hx. apply elem_of_cons in Hx as [->|Hx]; [by left|].
      right. by right.
    + intros Hx. apply elem_of_cons in Hx as [->|Hx]; [right; by left|].
      destruct (IH Hx) as [->|Hd]; [by left|right; by right].
Qed.

Lemma dict_set_users uid k (v : SessionData) d :
  NoDup ((fun e => user_id (snd e)) <$> d) ->
  Forall (fun e => user_id (snd e) <> uid) d ->
  user_id v = uid ->
  NoDup ((fun e => user_id (snd e)) <$> dict_set k v d).
Proof.
  intros Hnd Hall Hv. induction d as [|[k' v'] d IH]; cbn.
  - apply NoDup_singleton.
  - rewrite fmap_cons in Hnd. apply NoDup_cons in Hnd as [Hnew Hnd].
    apply Forall_cons in Hall as [Hv' Hall]. cbn [snd] in Hnew, Hv'.
    destruct (bool_decide (k' = k)); rewrite fmap_cons; cbn [snd];
      apply NoDup_cons.
    + split; [|done]. rewrite Hv. intros Hin.
      apply list_elem_of_fmap in Hin as (e & He & Hin).
      rewrite Forall_forall in Hall. by apply (Hall e).
    + split; [|by apply IH]. intros Hin.
      apply list_elem_of_fmap in Hin as (e & He & Hin).
      apply elem_of_dict_set in Hin as [->|Hin].
      * cbn in He. congruence.
      * apply Hnew. apply list_elem_of_fmap. by exists e.
Qed.

Lemma dict_update_users k (f : SessionData -> SessionData) d :
  (forall v, user_id (f v) = user_id v) ->
  (fun e => user_id (snd e)) <$> dict_update k f d
  = (fun e => user_id (snd e)) <$> d.
Proof.
  intros Hf. induction d as [|[k' v] d IH]; cbn; [done|].
  destruct (bool_decide (k' = k)); rewrite !fmap_cons; cbn [snd].
  - by rewrite Hf.
  - by rewrite IH.
Qed.

Lemma dict_update_Forall {V} (P : pystr * V -> Prop) k (f : V -> V) d :
  (forall k' v, P (k', v) -> P (k', f v)) ->
  Forall P d -> Forall P (dict_update k f d).
Proof.
  intros Hf Hall. induction Hall as [|[k' v] d Hx Hall IH]; cbn; [done|].
  destruct (bool_decide (k' = k)); constructor; auto.
Qed.

Lemma length_record_exchange x data :
  (length (conversation_history (record_exchange x data)) <= 10)%nat.
Proof.
  unfold record_exchange. cbn [conversation_history].
  destruct (10 <? length (conversation_history data ++ [x]))%nat eqn:E.
  - rewrite length_last_n. lia.
  - by apply Nat.ltb_ge in E.
Qed.

Lemma get_session_id_ok user s :
  cache_ok (session_cache s) ->
  cache_ok (session_cache (snd (get_session_id user s))).
Proof.
  intros (Hwf & Hnd & Hlen).
  set (alive := fun e : pystr * SessionData =>
                  is_expired (clock s (ticks s)) (session_timeout (valves s))
                             (snd e) = false).
  assert (cache_ok (filter alive (session_cache s))) as (Hwfl & Hndl & Hlenl).
  { split; [by apply dict_wf_filter|]. split.
    - eapply sublist_NoDup; [exact Hnd|]. apply fmap_sublist, sublist_filter.
    - rewrite Forall_forall in Hlen |- *. intros e He. apply Hlen.
      by apply list_elem_of_filter in He as [_ He]. }
  destruct (get_session_id_cases user s Hwf)
    as [(pre & sid & data & post & Hlive & Hpre & Hu & Hrun)|[Hnone Hrun]];
    rewrite Hrun; cbn [snd session_cache with_cache].
  - fold alive in Hlive. rewrite Hlive in Hwfl, Hndl, Hlenl.
    split; [|split].
    + unfold dict_wf. by rewrite (keys_middle sid _ data).
    + by rewrite fmap_app, fmap_cons in Hndl |- *.
    + apply Forall_app in Hlenl as [Hl1 Hl2].
      apply Forall_cons in Hl2 as [Hl2 Hl3].
      apply Forall_app. split; [done|]. by constructor.
  - fold alive in Hnone. split; [|split].
    + by apply dict_set_keys_wf.
    + by apply dict_set_users with (uid := default (lit "anonymous") (u_id user)).
    + rewrite Forall_forall in Hlenl |- *. intros e He.
      apply elem_of_dict_set in He as [->|He]; [cbn; lia|by apply Hlenl].
Qed.

Lemma call_n8n_router_ok message sid user s :
  cache_ok (session_cache s) ->
  cache_ok (session_cache (snd (call_n8n_router message sid user s))).
Proof.
  intros (Hwf & Hnd & Hlen).
  destruct (call_n8n_router_state message sid user s)
    as (result & s' & Hrun & _ & _ & _ & _ & _ & _ & _ & [Hc|[x Hc]]);
    rewrite Hrun; cbn [snd]; rewrite Hc; [done|].
  split; [|split].
  - unfold dict_wf. by rewrite dict_update_keys.
  - by rewrite dict_update_users.
  - apply dict_update_Forall; [|done]. intros k v _. cbn [snd].
    apply length_record_exchange.
Qed.

Lemma run_pipe_ok repr body s :
  cache_ok (session_cache s) ->
  cache_ok (session_cache (snd (run_pipe repr body s))).
Proof.
  intros Hok.
  destruct (reaches_router (debug_mode (valves s)) body) eqn:Hreach.
  - destruct (reaches_router_message _ _ Hreach) as (m & Hlast & Hlog).
    destruct (run_pipe_steps repr body s m Hlast Hlog)
      as (sid & s1 & result & s2 & evs & Hsid & Hcall & _ & _ & ->).
    cbn [snd]. change (session_cache (emitted evs s2)) with (session_cache s2).
    pose proof (get_session_id_ok (user body) (started s) Hok) as H1.
    rewrite Hsid in H1. cbn [snd] in H1.
    pose proof (call_n8n_router_ok (default [] (content m)) sid (user body)
                  s1 H1) as H2.
    by rewrite Hcall in H2.
  - destruct (run_pipe_stops repr body s Hreach) as [evs ->]. done.
Qed.


Lemma same_sessions_refl (cache : list (pystr * SessionData)) :
  Forall2 (fun e2 e1 =>
             fst e2 = fst e1 /\ user_id (snd e2) = user_id (snd e1) /\
             last_activity (snd e2) = last_activity (snd e1))
          cache cache.
Proof. induction cache; constructor; done. Qed.

Lemma same_sessions_update sid x (cache : list (pystr * SessionData)) :
  Forall2 (fun e2 e1 =>
             fst e2 = fst e1 /\ user_id (snd e2) = user_id (snd e1) /\
             last_activity (snd e2) = last_activity (snd e1))
          (dict_update sid (record_exchange x) cache) cache.
Proof.
  induction cache as [|[k d] cache IH]; cbn [dict_update]; [constructor|].
  destruct (bool_decide (k = sid)).
  - constructor; [done|apply same_sessions_refl].
  - constructor; done.
Qed.

Lemma NoDup_fmap_eq {A B} (f : A -> B) (l : list A) x y :
  NoDup (f <$> l) -> x ∈ l -> y ∈ l -> f x = f y -> x = y.
Proof.
  induction l as [|a l IH]; intros Hnd Hx Hy Hf.
  - by apply elem_of_nil in Hx.
  - rewrite fmap_cons in Hnd. apply NoDup_cons in Hnd as [Ha Hnd].
    apply elem_of_cons in Hx as [->|Hx], Hy as [->|Hy]; [done| | |by apply IH].
    + exfalso. apply Ha. rewrite Hf. apply list_elem_of_fmap. by exists y.
    + exfalso. apply Ha. rewrite <- Hf. apply list_elem_of_fmap. by exists x.
Qed.

End PipeFrames.

Module PipeExtras.
Import Pipeline ListFacts DictFacts DictMore PipelineFacts SessionIdFacts.
Import PipeFrames.


(** X12: the conversation carries over from one request to the next, for
    two requests that reach the workflow (the debug valve is off, or their
    messages can be printed).  When a user's second request arrives before
    the session has been idle for more than the timeout, it is sent to the
    workflow under the session id of the first and no identifier is drawn;
    and if the workflow answered the first request with a JSON object, the
    history sent with the second ends with that exchange, while after any
    other outcome it is the history that was sent with the first. *)
Theorem conversation_carries_over repr body1 body2 s m1 m2 :
  dict_wf (session_cache s) ->
  last (messages body1) = Some m1 ->
  last (messages body2) = Some m2 ->
  log_passes (debug_mode (valves s)) (default [] (content m1)) = true ->
  log_passes (debug_mode (valves s)) (default [] (content m2)) = true ->
  u_id (user body2) = u_id (user body1) ->
  let s' := snd (run_pipe repr body1 s) in
  gt_int (fsub (clock s' (ticks s')) (clock s (ticks s)))
         (session_timeout (valves s')) = false ->
  exists sid req1 req2,
    posted (snd (run_pipe repr body2 s')) = posted s ++ [req1; req2] /\
    p_session_id (req_json req1) = sid /\
    p_session_id (req_json req2) = sid /\
    uuids_drawn (snd (run_pipe repr body2 s')) = uuids_drawn s' /\
    match n8n s (length (posted s)) req1 with
    | HttpOk r =>
        if status_code r =? 200 then
          match json_body r with
          | inl (PDict d) =>
              last (p_conversation_history (req_json req2))
              = Some (exchange_of (default [] (content m1)) d
                        (clock s (S (S (ticks s)))))
          | _ =>
              p_conversation_history (req_json req2)
              = p_conversation_history (req_json req1)
          end
        else
          p_conversation_history (req_json req2)
          = p_conversation_history (req_json req1)
    | _ =>
        p_conversation_history (req_json req2)
        = p_conversation_history (req_json req1)
    end.
Proof.
  intros Hwf Hlast1 Hlast2 Hlog1 Hlog2 Huser s' Halive. subst s'.
  destruct (run_pipe_steps repr body1 s m1 Hlast1 Hlog1)
    as (sid & s1 & result & s2 & evs & Hsid & Hcall & _ & _ & Hrun1).
  rewrite Hrun1 in *. cbn [snd] in *.
  destruct (get_session_id_frame (user body1) (started s))
    as (sid0 & s10 & Hsid0 & Hv1 & Hclock1 & Hticks1 & _ & Hn1 & Hp1 & _).
  rewrite Hsid in Hsid0. injection Hsid0 as <- <-.
  destruct (call_n8n_router_state (default [] (content m1)) sid (user body1) s1)
    as (r0 & s20 & Hcall0 & Hp2 & Hv2 & Hclock2 & _ & Hu2 & _ & _ & Hcache2).
  rewrite Hcall in Hcall0. injection Hcall0 as <- <-.
  pose proof (get_session_id_first (user body1) (started s) Hwf)
    as (sid0 & s10 & _ & _ & _ & Hsid0 & _ & _ & _ & _ & Hwf1).
  rewrite Hsid in Hsid0. injection Hsid0 as <- <-.
  (* the second request *)
  assert (log_passes (debug_mode (valves (emitted evs s2)))
            (default [] (content m2)) = true) as Hlog2'.
  { change (valves (emitted evs s2)) with (valves s2). by rewrite Hv2, Hv1. }
  destruct (run_pipe_steps repr body2 (emitted evs s2) m2 Hlast2 Hlog2')
    as (sid' & s1' & result' & s2' & evs' & Hsid' & Hcall' & _ & _ & Hrun2).
  rewrite Hrun2. cbn [snd].
  change (posted (emitted evs' s2')) with (posted s2').
  change (uuids_drawn (emitted evs' s2')) with (uuids_drawn s2').
  change (uuids_drawn (emitted evs s2)) with (uuids_drawn s2).
  destruct (resume_session (user body1) (user body2) (started s)
              (started (emitted evs s2)) Hwf Huser)
    as (sid0 & Hfst1 & Hfst2 & Hdrawn & Hhist).
  { rewrite Hsid. cbn [snd].
    change (session_cache (started (emitted evs s2))) with (session_cache s2).
    destruct Hcache2 as [->|[x ->]];
      [apply same_sessions_refl|apply same_sessions_update]. }
  { exact Halive. }
  rewrite Hsid in Hfst1. injection Hfst1 as <-.
  rewrite Hsid' in Hfst2, Hdrawn, Hhist. cbn [fst snd] in Hfst2, Hdrawn, Hhist.
  injection Hfst2 as ->.
  destruct (get_session_id_frame (user body2) (started (emitted evs s2)))
    as (sid0 & s10 & Hsid0 & _ & _ & _ & _ & _ & Hp1' & _).
  rewrite Hsid' in Hsid0. injection Hsid0 as <- <-.
  destruct (call_n8n_router_state (default [] (content m2)) sid (user body2) s1')
    as (r0 & s20 & Hcall0 & Hp2' & _ & _ & _ & Hu2' & _).
  rewrite Hcall' in Hcall0. injection Hcall0 as <- <-.
  exists sid, (router_request (default [] (content m1)) sid (user body1) s1),
    (router_request (default [] (content m2)) sid (user body2) s1').
  split.
  { rewrite Hp2', Hp1'. cbn [posted started emitted].
    rewrite Hp2, Hp1. cbn [posted started]. by rewrite <- app_assoc. }
  split; [done|]. split; [done|].
  split; [by rewrite Hu2', Hdrawn|].
  cbn [req_json router_request p_conversation_history build_payload].
  rewrite Hhist.
  change (session_cache (started (emitted evs s2))) with (session_cache s2).
  (* what the first call left in the history *)
  rewrite call_n8n_router_run in Hcall. cbv zeta in Hcall.
  rewrite Hn1, Hp1, Hclock1, Hticks1 in Hcall.
  cbn [n8n posted clock ticks started] in Hcall.
  destruct (n8n s (length (posted s))
              (router_request (default [] (content m1)) sid (user body1) s1))
    as [msg|msg|r].
  1,2: by injection Hcall as _ <-.
  destruct (status_code r =? 200); [|by injection Hcall as _ <-].
  destruct (json_body r) as [v|msg]; [|by injection Hcall as _ <-].
  destruct (dict_lookup sid (session_cache s1)) as [data|] eqn:Hdata.
  - destruct v; try (by injection Hcall as _ <-).
    injection Hcall as _ <-. cbn [session_cache with_cache].
    rewrite history_after_exchange by (by exists data).
    rewrite !last_last_n by lia. apply last_snoc.
  - exfalso.
    destruct (get_session_id_run (user body1) (started s))
      as (sid0 & s10 & Hsid0 & [data' Hin] & _).
    rewrite Hsid in Hsid0. injection Hsid0 as <- <-. congruence.
Qed.

(** X13: a session that has been idle for more than the timeout is not
    resumed.  For two requests that reach the workflow (the debug valve is
    off, or their messages can be printed): when a user's second request
    arrives that late, the first session is dropped, an identifier is
    drawn, and the workflow is called under the new session id with an
    empty history. *)
Theorem idle_session_is_replaced repr body1 body2 s m1 m2 :
  cache_ok (session_cache s) ->
  last (messages body1) = Some m1 ->
  last (messages body2) = Some m2 ->
  log_passes (debug_mode (valves s)) (default [] (content m1)) = true ->
  log_passes (debug_mode (valves s)) (default [] (content m2)) = true ->
  u_id (user body2) = u_id (user body1) ->
  let s' := snd (run_pipe repr body1 s) in
  gt_int (fsub (clock s' (ticks s')) (clock s (ticks s)))
         (session_timeout (valves s')) = true ->
  exists req1 req2,
    posted (snd (run_pipe repr body2 s')) = posted s ++ [req1; req2] /\
    p_session_id (req_json req2) = uuid4 s' (uuids_drawn s') /\
    p_conversation_history (req_json req2) = [] /\
    uuids_drawn (snd (run_pipe repr body2 s')) = S (uuids_drawn s').
Proof.
  intros Hok Hlast1 Hlast2 Hlog1 Hlog2 Huser s' Hidle.
  pose proof (run_pipe_ok repr body1 s Hok) as Hok'. fold s' in Hok'.
  destruct Hok as (Hwf & _ & _). destruct Hok' as (Hwf' & Hnd' & _).
  subst s'.
  destruct (run_pipe_steps repr body1 s m1 Hlast1 Hlog1)
    as (sid & s1 & result & s2 & evs & Hsid & Hcall & _ & _ & Hrun1).
  rewrite Hrun1 in *. cbn [snd] in *.
  destruct (get_session_id_frame (user body1) (started s))
    as (sid0 & s10 & Hsid0 & Hv1 & _ & _ & _ & _ & Hp1 & _).
  rewrite Hsid in Hsid0. injection Hsid0 as <- <-.
  destruct (call_n8n_router_state (default [] (content m1)) sid (user body1) s1)
    as (r0 & s20 & Hcall0 & Hp2 & Hv2 & _ & _ & _ & _ & _ & Hcache2).
  rewrite Hcall in Hcall0. injection Hcall0 as <- <-.
  pose proof (get_session_id_first (user body1) (started s) Hwf)
    as (sid0 & s10 & pre1 & d1 & post1 & Hsid0 & Hc1 & _ & Hu1 & Ht1 & _).
  rewrite Hsid in Hsid0. injection Hsid0 as <- <-.
  (* the first session, as the first request left it *)
  assert (exists d2,
            (sid, d2) ∈ session_cache s2 /\ user_id d2 = user_id d1 /\
            last_activity d2 = last_activity d1) as (d2 & Hin2 & Hu2 & Ht2).
  { assert (Forall2 (fun e2 e1 =>
                       fst e2 = fst e1 /\ user_id (snd e2) = user_id (snd e1) /\
                       last_activity (snd e2) = last_activity (snd e1))
                    (session_cache s2) (session_cache s1)) as Hsame.
    { destruct Hcache2 as [->|[x ->]];
        [apply same_sessions_refl|apply same_sessions_update]. }
    rewrite Hc1 in Hsame.
    apply Forall2_app_inv_r in Hsame as (pre2 & rest & _ & Hrest & Hc2).
    apply Forall2_cons_inv_r in Hrest
      as ([sid2 d2] & post2 & (Hk & Hu2 & Ht2) & _ & ->).
    cbn [fst snd] in Hk, Hu2, Ht2. subst sid2. exists d2.
    split; [|done]. rewrite Hc2. apply elem_of_app. right. by left. }
  (* the second request *)
  change (session_cache (emitted evs s2)) with (session_cache s2) in Hwf', Hnd'.
  assert (log_passes (debug_mode (valves (emitted evs s2)))
            (default [] (content m2)) = true) as Hlog2'.
  { change (valves (emitted evs s2)) with (valves s2). by rewrite Hv2, Hv1. }
  destruct (run_pipe_steps repr body2 (emitted evs s2) m2 Hlast2 Hlog2')
    as (sid' & s1' & result' & s2' & evs' & Hsid' & Hcall' & _ & _ & Hrun2).
  rewrite Hrun2. cbn [snd].
  change (posted (emitted evs' s2')) with (posted s2').
  change (uuids_drawn (emitted evs' s2')) with (uuids_drawn s2').
  destruct (call_n8n_router_state (default [] (content m2)) sid' (user body2) s1')
    as (r0 & s20 & Hcall0 & Hp2' & _ & _ & _ & Hd2' & _).
  rewrite Hcall' in Hcall0. injection Hcall0 as <- <-.
  destruct (get_session_id_cases (user body2) (started (emitted evs s2)) Hwf')
    as [(pre & sid3 & data & post & Hlive & _ & Hu3 & _)|[_ Hnew]].
  - exfalso.
    assert ((sid3, data)
            ∈ filter (fun e : pystr * SessionData =>
                        is_expired
                          (clock (started (emitted evs s2))
                             (ticks (started (emitted evs s2))))
                          (session_timeout (valves (started (emitted evs s2))))
                          (snd e) = false)
                     (session_cache (started (emitted evs s2)))) as Hin3
      by (rewrite Hlive; apply elem_of_app; right; by left).
    apply list_elem_of_filter in Hin3 as [Halive Hin3].
    change (session_cache (started (emitted evs s2))) with (session_cache s2)
      in Hin3.
    assert ((sid3, data) = (sid, d2)) as Heq.
    { apply (NoDup_fmap_eq (fun e => user_id (snd e)) (session_cache s2));
        [done..|]. cbn [snd]. rewrite Hu3, Hu2, Hu1. by rewrite Huser. }
    injection Heq as -> ->. unfold is_expired in Halive. cbn [snd] in Halive.
    rewrite Ht2, Ht1 in Halive.
    change (clock (started s) (ticks (started s))) with (clock s (ticks s))
      in Halive.
    change (gt_int
              (fsub (clock (emitted evs s2) (ticks (emitted evs s2)))
                 (clock s (ticks s)))
              (session_timeout (valves (emitted evs s2))) = false) in Halive.
    congruence.
  - rewrite Hsid' in Hnew. injection Hnew as -> ->.
    eexists _, _. split.
    { rewrite Hp2'. cbn [posted with_cache drawn tick started emitted].
      rewrite Hp2, Hp1. cbn [posted started]. by rewrite <- app_assoc. }
    split; [reflexivity|]. split; [|by rewrite Hd2'].
    cbn [req_json router_request p_conversation_history build_payload
         session_cache with_cache].
    unfold history_of. by rewrite dict_lookup_set_eq.
Qed.

(** X14: for a session id that is not in the cache, [call_n8n_router]
    sends an empty history, records nothing, and hands back what a reply
    with status 200 decodes to as it is, an object or not. *)
Theorem router_records_nothing_for_unknown_session message sid user s :
  dict_lookup sid (session_cache s) = None ->
  let req := router_request message sid user s in
  exists result s',
    call_n8n_router message sid user s = (Ret result, s') /\
    p_conversation_history (req_json req) = [] /\
    session_cache s' = session_cache s /\
    posted s' = posted s ++ [req] /\
    forall r v,
      n8n s (length (posted s)) req = HttpOk r ->
      status_code r = 200 -> json_body r = inl v -> result = v.
Proof.
  intros Hnone req. subst req. rewrite call_n8n_router_run. cbv zeta.
  assert (p_conversation_history
            (req_json (router_request message sid user s)) = []) as Hempty.
  { cbn [req_json router_request p_conversation_history build_payload].
    unfold history_of. by rewrite Hnone. }
  destruct (n8n s (length (posted s)) (router_request message sid user s))
    as [msg|msg|r]; [by eexists _, _ ..|].
  destruct (status_code r =? 200) eqn:Hstatus.
  - destruct (json_body r) as [v|msg] eqn:Hbody.
    + rewrite Hnone. eexists _, _. split; [reflexivity|].
      split; [exact Hempty|]. split; [done|]. split; [done|].
      intros r' v' Hr' _ Hv'. injection Hr' as <-. congruence.
    + eexists _, _. split; [reflexivity|].
      split; [exact Hempty|]. split; [done|]. split; [done|].
      intros r' v' Hr' _ Hv'. injection Hr' as <-. congruence.
  - eexists _, _. split; [reflexivity|].
    split; [exact Hempty|]. split; [done|]. split; [done|].
    intros r' v' Hr' H200 _. injection Hr' as <-.
    apply Z.eqb_neq in Hstatus. done.
Qed.

End PipeExtras.

(* ===================================================================== *)
(** * The pipeline: the frames on the wire *)
(* ===================================================================== *)

Module WireFacts.
Import Pipeline ListFacts PipelineFacts PipeFrames.


Lemma hex_digit_printable n : (n < 16)%N -> printable (hex_digit n).
Proof.
  intros Hn. unfold hex_digit, printable.
  destruct (n <? 10)%N eqn:E; [apply N.ltb_lt in E|apply N.ltb_ge in E]; lia.
Qed.

Lemma u_escape_printable c : Forall printable (u_escape c).
Proof.
  unfold u_escape.
  repeat (apply Forall_cons; split);
    try (apply hex_digit_printable; apply N.mod_lt; lia);
    try (unfold printable; lia).
  constructor.
Qed.

Lemma json_char_printable c : Forall printable (json_char c).
Proof.
  unfold json_char.
  repeat match goal with
         | |- context [if ?b then _ else _] => destruct b eqn:?
         end;
    try (repeat (apply Forall_cons; split); [unfold printable; lia ..|constructor]).
  - match goal with H : _ && _ = true |- _ =>
      apply andb_prop in H as [H1 H2] end.
    apply N.leb_le in H1. apply N.leb_le in H2.
    repeat constructor; done.
  - apply u_escape_printable.
  - apply Forall_app. split; apply u_escape_printable.
Qed.

Lemma json_str_printable s : Forall printable (json_str s).
Proof.
  unfold json_str. apply Forall_app. split; [repeat constructor; unfold printable; lia|].
  apply Forall_app. split; [|repeat constructor; unfold printable; lia].
  induction s as [|c s IH]; cbn [map concat]; [constructor|].
  apply Forall_app. split; [apply json_char_printable|exact IH].
Qed.

Lemma lit_printable_check (s : string) :
  forallb (fun c => (32 <=? c)%N && (c <=? 126)%N) (lit s) = true ->
  Forall printable (lit s).
Proof.
  intros H. apply Forall_forall. intros c Hc.
  rewrite forallb_forall in H.
  assert ((32 <=? c)%N && (c <=? 126)%N = true) as Hb
    by (apply H; by apply list_elem_of_In).
  apply andb_prop in Hb as [H1 H2].
  apply N.leb_le in H1. apply N.leb_le in H2. done.
Qed.

Lemma json_key_printable (k : string) : Forall printable (json_key k).
Proof.
  unfold json_key. apply Forall_app. split; [apply json_str_printable|].
  by apply lit_printable_check.
Qed.

Ltac printable_parts :=
  repeat first
    [ apply json_key_printable
    | apply json_str_printable
    | by apply lit_printable_check
    | apply Forall_app; split ].

(** X15: every string the generator yields is one frame of the event
    stream: the prefix [data: ], a payload of printable ASCII characters,
    and two line feeds.  Whatever the user wrote and whatever the workflow
    answered, no line feed and no character outside ASCII reaches the
    payload, so no content can end a frame early or start another one. *)
Theorem render_is_one_ascii_frame e :
  exists payload,
    render e = lit "data: " ++ payload ++ [10; 10]%N /\
    Forall printable payload.
Proof.
  destruct e as [text| |msg|]; cbn [render].
  - exists (lit "{" ++ json_key "choices" ++ lit "[{" ++ json_key "delta"
            ++ lit "{" ++ json_key "content" ++ json_str text ++ lit "}}]}").
    split; [by rewrite <- !app_assoc|].
    printable_parts.
  - exists (lit "{" ++ json_key "choices" ++ lit "[{"
            ++ json_key "finish_reason" ++ json_str (lit "stop") ++ lit "}]}").
    split; [by rewrite <- !app_assoc|].
    printable_parts.
  - exists (lit "{" ++ json_key "error" ++ json_str msg ++ lit "}").
    split; [by rewrite <- !app_assoc|].
    printable_parts.
  - exists (lit "[DONE]"). split; [done|]. by apply lit_printable_check.
Qed.

(** Only the sentinel is rendered as the sentinel. *)
Lemma render_sentinel e : render e = render EDone -> e = EDone.
Proof.
  destruct e as [text| |msg|]; [| | |done]; intros H; exfalso;
    apply (f_equal (fun l => nth 6 l 0%N)) in H; vm_compute in H;
    discriminate H.
Qed.

(** X16: for a request with a message [pipe] does not raise, whatever the
    workflow does, and its stream ends with the sentinel [data: [DONE]] and
    shows it nowhere else: a client that reads up to the first sentinel has
    read every event. *)
Theorem stream_has_one_sentinel_at_end repr body s m :
  last (messages body) = Some m ->
  fst (pipe repr body (started s)) = Ret tt /\
  exists frames,
    map render (fst (run_pipe repr body s)) = frames ++ [render EDone] /\
    render EDone ∉ frames.
Proof.
  intros Hlast. split.
  { destruct (log_passes (debug_mode (valves s)) (default [] (content m)))
      eqn:Hlog.
    - destruct (run_pipe_steps repr body s m Hlast Hlog)
        as (sid & s1 & result & s2 & evs & _ & _ & Hpipe & _ & _).
      by rewrite Hpipe.
    - destruct (pipe_print_fails repr body s m Hlast Hlog) as [e Hpipe].
      by rewrite Hpipe. }
  destruct (nonempty_stream_ends_with_sentinel repr body s m Hlast)
    as (contents & closing & -> & Hcontents & Hclosing).
  exists (map render (contents ++ [closing])). split.
  - rewrite !map_app, <- app_assoc. done.
  - intros Hin. apply list_elem_of_fmap in Hin as (e & He & Hin).
    symmetry in He. apply render_sentinel in He. subst e.
    apply elem_of_app in Hin as [Hin|Hin].
    + rewrite Forall_forall in Hcontents. by apply Hcontents in Hin.
    + apply list_elem_of_singleton in Hin.
      destruct Hclosing as [->|[msg ->]]; discriminate Hin.
Qed.

End WireFacts.

(* ===================================================================== *)
(** * The pipeline: what is streamed for a reply *)
(* ===================================================================== *)

Module StreamFacts.
Import Pipeline ListFacts DictFacts StrFacts EffFacts PipelineFacts PipeFrames.

(** The workflow answers the call made from [s] with status 200 and the
    JSON value [v]. *)
Lemma router_returns_reply message sid user s txt v :
  (forall req,
     n8n s (length (posted s)) req
     = HttpOk {| status_code := 200; text := txt; json_body := inl v |}) ->
  is_Some (dict_lookup sid (session_cache s)) ->
  exists result s2,
    call_n8n_router message sid user s = (Ret result, s2) /\
    valves s2 = valves s /\ yielded s2 = yielded s /\
    result = match v with
             | PDict _ => v
             | _ => fallback_result
                      (lit "Kenny router error: "
                       ++ exn_str (attribute_error v "get"))
             end.
Proof.
  intros Hanswer [data Hdata]. rewrite call_n8n_router_run. cbv zeta.
  rewrite Hanswer. cbn [status_code json_body].
  change (200 =? 200) with true. cbv iota. rewrite Hdata.
  destruct v; by eexists _, _.
Qed.

(** The stream of one request, given what the router returned. *)
Lemma run_pipe_on_result repr body s m txt v :
  last (messages body) = Some m ->
  log_passes (debug_mode (valves s)) (default [] (content m)) = true ->
  (forall req,
     n8n s (length (posted s)) req
     = HttpOk {| status_code := 200; text := txt; json_body := inl v |}) ->
  exists result s2,
    valves s2 = valves s /\ yielded s2 = [] /\
    result = match v with
             | PDict _ => v
             | _ => fallback_result
                      (lit "Kenny router error: "
                       ++ exn_str (attribute_error v "get"))
             end /\
    run_pipe repr body s =
    let s' :=
      snd (try_except
             (fallback <- py_get result "fallback" PNone ;;
              (if truthy fallback then stream_fallback (default [] (content m))
               else stream_response repr result) ;;
              yield EFinish ;;
              yield EDone)
             (fun e =>
                yield (EError (lit "Pipeline error: " ++ exn_str e)) ;;
                yield EDone) s2) in
    (yielded s', s').
Proof.
  intros Hlast Hlog Hanswer.
  destruct (get_session_id_run (user body) (started s))
    as (sid & s1 & Hsid & Hin & Hvalves & _ & _ & Hn8n & Hposted & Hy).
  destruct (router_returns_reply (default [] (content m)) sid (user body) s1
              txt v) as (result & s2 & Hcall & Hv2 & Hy2 & Hresult).
  { intros req. rewrite Hn8n, Hposted. apply Hanswer. }
  { exact Hin. }
  exists result, s2. split; [by rewrite Hv2|]. split; [by rewrite Hy2|].
  split; [exact Hresult|]. unfold run_pipe.
  by rewrite (pipe_after_router repr body s m sid s1 result s2 Hlast Hlog
                Hsid Hcall).
Qed.

(** The test of the [fallback] key of a result that is a dict. *)
Lemma fallback_test repr message d (h : pyexn -> M State unit) s :
  try_except
    (fallback <- py_get (PDict d) "fallback" PNone ;;
     (if truthy fallback then stream_fallback message
      else stream_response repr (PDict d)) ;;
     yield EFinish ;;
     yield EDone) h s
  = try_except
      ((if truthy (default PNone (dict_lookup (lit "fallback") d))
        then stream_fallback message
        else stream_response repr (PDict d)) ;;
       yield EFinish ;;
       yield EDone) h s.
Proof.
  unfold try_except.
  by rewrite (bind_ret_run _ _ s
                (default PNone (dict_lookup (lit "fallback") d)) s).
Qed.

(** The end of the [try] block, and the handler. *)
Lemma stream_finished (c : M State unit) s evs :
  yielded s = [] ->
  c s = (Ret tt, emitted evs s) ->
  yielded
    (snd (try_except
            (c ;; yield EFinish ;; yield EDone)
            (fun e =>
               yield (EError (lit "Pipeline error: " ++ exn_str e)) ;;
               yield EDone) s))
  = evs ++ [EFinish; EDone].
Proof.
  intros Hy Hc. unfold try_except, bind at 1. rewrite Hc.
  unfold bind, yield. rewrite !emitted_emitted. cbn [snd].
  change (yielded (emitted ?l s)) with (yielded s ++ l). rewrite Hy.
  cbn [app]. by rewrite <- ?app_assoc.
Qed.

Lemma stream_failed (c : M State unit) s evs e :
  yielded s = [] ->
  c s = (Raise e, emitted evs s) ->
  yielded
    (snd (try_except
            (c ;; yield EFinish ;; yield EDone)
            (fun e =>
               yield (EError (lit "Pipeline error: " ++ exn_str e)) ;;
               yield EDone) s))
  = evs ++ [EError (lit "Pipeline error: " ++ exn_str e); EDone].
Proof.
  intros Hy Hc. unfold try_except, bind at 1. rewrite Hc.
  unfold bind, yield. rewrite !emitted_emitted. cbn [snd].
  change (yielded (emitted ?l s)) with (yielded s ++ l). rewrite Hy.
  cbn [app]. by rewrite <- ?app_assoc.
Qed.


(** [stream_response] on a JSON object, up to the call of [split]. *)
Lemma stream_response_dict repr d s :
  stream_response repr (PDict d) s
  = ((if debug_mode (valves s)
         && ne_str (default (PStr (lit "unknown")) (dict_lookup (lit "intent") d))
                   (lit "unknown")
      then
        percent <- py_format_percent1
                     (default (PFloat (S754_zero false))
                        (dict_lookup (lit "confidence") d)) ;;
        yield (EContent
                 (intent_line repr
                    (default (PStr (lit "unknown"))
                       (dict_lookup (lit "intent") d)) percent))
      else ret tt) ;;
     words <- py_split
                (default (PStr (lit "I'm having trouble processing your request."))
                   (dict_lookup (lit "response") d)) ;;
     for_each (word_chunks words) (fun chunk => yield (EContent chunk))) s.
Proof.
  unfold stream_response.
  rewrite (bind_ret_run _ _ s
             (default (PStr (lit "I'm having trouble processing your request."))
                (dict_lookup (lit "response") d)) s) by reflexivity.
  rewrite (bind_ret_run _ _ s
             (default (PStr (lit "unknown")) (dict_lookup (lit "intent") d)) s)
    by reflexivity.
  rewrite (bind_ret_run _ _ s
             (default (PFloat (S754_zero false))
                (dict_lookup (lit "confidence") d)) s) by reflexivity.
  unfold bind at 1, gets at 1. reflexivity.
Qed.

Lemma diagnostic_run repr d s c :
  default (PFloat (S754_zero false)) (dict_lookup (lit "confidence") d)
  = PFloat c ->
  (if debug_mode (valves s)
      && ne_str (default (PStr (lit "unknown")) (dict_lookup (lit "intent") d))
                (lit "unknown")
   then
     percent <- py_format_percent1
                  (default (PFloat (S754_zero false))
                     (dict_lookup (lit "confidence") d)) ;;
     yield (EContent
              (intent_line repr
                 (default (PStr (lit "unknown"))
                    (dict_lookup (lit "intent") d)) percent))
   else ret tt) s
  = (Ret tt,
     emitted
       (diagnostic repr (debug_mode (valves s))
          (default (PStr (lit "unknown")) (dict_lookup (lit "intent") d)) c)
       s).
Proof.
  intros Hc. unfold diagnostic. rewrite Hc.
  destruct (debug_mode (valves s) && _).
  - reflexivity.
  - by rewrite emitted_nil.
Qed.

(** The chunks of the loop over the words, one word at a time. *)
Lemma word_chunks_cons w ws :
  word_chunks (w :: ws)
  = match ws with
    | [] => [w]
    | _ :: _ => (w ++ lit " ") :: word_chunks ws
    end.
Proof.
  unfold word_chunks. rewrite imap_cons. destruct ws as [|w' ws].
  - cbn. by rewrite app_nil_r.
  - f_equal. apply imap_ext. intros i x _. cbn [length compose].
    f_equal.
    destruct (i <? S (length ws) - 1)%nat eqn:E1,
             (S i <? S (S (length ws)) - 1)%nat eqn:E2; try done.
    + apply Nat.ltb_lt in E1. apply Nat.ltb_ge in E2. lia.
    + apply Nat.ltb_ge in E1. apply Nat.ltb_lt in E2. lia.
Qed.

Lemma word_chunks_spaced ws :
  ws <> [] ->
  concat (word_chunks ws) ++ lit " " = concat (map (fun w => w ++ lit " ") ws).
Proof.
  induction ws as [|w ws IH]; [done|]. intros _.
  rewrite word_chunks_cons. destruct ws as [|w' ws].
  - cbn. by rewrite !app_nil_r.
  - rewrite (map_cons _ w), !concat_cons, <- IH by done.
    by rewrite <- !app_assoc.
Qed.

(** A text without whitespace at its ends and with single spaces between
    its words is what its word chunks add up to. *)
Lemma word_chunks_text r :
  scan false r = Some true -> concat (word_chunks (split r)) = r.
Proof.
  intros Hscan.
  pose proof (single_spaced_text r [] Hscan) as Htext. cbn [rev app] in Htext.
  fold (split r) in Htext.
  destruct (split r) as [|w ws] eqn:Hsplit.
  - cbn in Htext. by destruct r.
  - rewrite <- word_chunks_spaced in Htext by done.
    by apply app_inv_tail in Htext.
Qed.

(** A run of characters that are not whitespace is one word. *)
Lemma split_from_word w : forall cur,
  Forall (fun c => is_space c = false) w ->
  split_from cur w = match rev cur ++ w with [] => [] | x => [x] end.
Proof.
  induction w as [|c w IH]; intros cur Hw; cbn [split_from].
  - rewrite app_nil_r. destruct cur as [|a cur]; [done|].
    cbn [rev]. by destruct (rev cur).
  - apply Forall_cons in Hw as [Hc Hw]. rewrite Hc, IH by done.
    cbn [rev]. by rewrite <- app_assoc.
Qed.

(** The words [split] returns are not empty and hold no whitespace. *)
Lemma split_from_words s : forall cur,
  Forall (fun c => is_space c = false) cur ->
  Forall (fun w => w <> [] /\ Forall (fun c => is_space c = false) w)
         (split_from cur s).
Proof.
  induction s as [|c s IH]; intros cur Hcur; cbn [split_from].
  - destruct cur as [|a cur]; [constructor|].
    constructor; [|constructor]. split.
    + cbn [rev]. by destruct (rev cur).
    + by apply Forall_rev.
  - destruct (is_space c) eqn:Hc.
    + destruct cur as [|a cur]; [by apply IH|].
      constructor; [|by apply IH]. split.
      * cbn [rev]. by destruct (rev cur).
      * by apply Forall_rev.
    + apply IH. by constructor.
Qed.

(** Words joined by single spaces are split into the same words. *)
Lemma split_word_chunks ws :
  Forall (fun w => w <> [] /\ Forall (fun c => is_space c = false) w) ws ->
  split (concat (word_chunks ws)) = ws.
Proof.
  induction ws as [|w ws IH]; intros Hws; [done|].
  apply Forall_cons in Hws as [[Hne Hw] Hws].
  rewrite word_chunks_cons. destruct ws as [|w' ws].
  - cbn [concat]. rewrite app_nil_r. unfold split.
    rewrite split_from_word by done. cbn [rev app]. by destruct w.
  - rewrite concat_cons, <- app_assoc.
    change (lit " " ++ concat (word_chunks (w' :: ws)))
      with (32%N :: concat (word_chunks (w' :: ws))).
    unfold split at 1. rewrite split_from_app_space by done.
    rewrite split_from_word by done. cbn [rev app]. rewrite IH by done.
    by destruct w.
Qed.

Lemma content_text_contents chunks :
  content_text (map EContent chunks) = concat chunks.
Proof.
  unfold content_text. rewrite map_map. by rewrite map_id.
Qed.

End StreamFacts.

Module StreamExtras.
Import Pipeline ListFacts DictFacts StrFacts EffFacts PipelineFacts PipeFrames.
Import StreamFacts.

(** X17: a reply of the workflow that is a JSON object with a textual
    [response] and does not ask for the fallback is streamed as: the
    diagnostic chunk, when the debug valve is on and the intent is not
    "unknown" (the confidence, or 0.0 in its absence, printed as a
    percentage with one decimal); then the words of the response, a space
    after each but the last; then the finish chunk and the sentinel.  The
    whitespace of the response is not kept, its words are: a response with
    single spaces between its words and none at its ends is read back
    unchanged from the word chunks.  This is the stream of a request that
    reaches the workflow: the debug valve is off, or the message of the
    user can be printed. *)
Theorem reply_is_streamed_word_by_word repr body s m txt d r c :
  last (messages body) = Some m ->
  log_passes (debug_mode (valves s)) (default [] (content m)) = true ->
  (forall req,
     n8n s (length (posted s)) req
     = HttpOk {| status_code := 200; text := txt;
                 json_body := inl (PDict d) |}) ->
  truthy (default PNone (dict_lookup (lit "fallback") d)) = false ->
  dict_lookup (lit "response") d = Some (PStr r) ->
  default (PFloat (S754_zero false)) (dict_lookup (lit "confidence") d)
  = PFloat c ->
  let intent :=
    default (PStr (lit "unknown")) (dict_lookup (lit "intent") d) in
  fst (run_pipe repr body s)
  = diagnostic repr (debug_mode (valves s)) intent c
    ++ map EContent (word_chunks (split r)) ++ [EFinish; EDone] /\
  (scan false r = Some true ->
   content_text (map EContent (word_chunks (split r))) = r).
Proof.
  intros Hlast Hlog Hanswer Hfb Hr Hc intent. split.
  - destruct (run_pipe_on_result repr body s m txt (PDict d) Hlast Hlog Hanswer)
      as (result & s2 & Hv2 & Hy2 & -> & ->).
    cbv zeta. cbn [fst]. rewrite fallback_test, Hfb, <- Hv2, app_assoc.
    apply stream_finished; [exact Hy2|].
    rewrite stream_response_dict.
    rewrite (bind_ret_run _ _ _ _ _ (diagnostic_run repr d s2 c Hc)).
    rewrite Hr. cbn [default from_option id].
    rewrite (bind_ret_run _ _ _ (split r) _) by reflexivity.
    by rewrite (for_each_yield EContent), emitted_emitted.
  - intros Htidy. rewrite content_text_contents. by apply word_chunks_text.
Qed.

(** X18: a reply whose [response] is not text (a number, [null], a list,
    an object) cannot be split into words: the stream shows the diagnostic
    chunk, if one is due, then one error event that names the type, then
    the sentinel; there is no finish chunk and no word of the reply.  This
    is the stream of a request that reaches the workflow: the debug valve
    is off, or the message of the user can be printed. *)
Theorem non_text_response_ends_in_error repr body s m txt d v c :
  last (messages body) = Some m ->
  log_passes (debug_mode (valves s)) (default [] (content m)) = true ->
  (forall req,
     n8n s (length (posted s)) req
     = HttpOk {| status_code := 200; text := txt;
                 json_body := inl (PDict d) |}) ->
  truthy (default PNone (dict_lookup (lit "fallback") d)) = false ->
  dict_lookup (lit "response") d = Some v ->
  (forall r, v <> PStr r) ->
  default (PFloat (S754_zero false)) (dict_lookup (lit "confidence") d)
  = PFloat c ->
  let intent :=
    default (PStr (lit "unknown")) (dict_lookup (lit "intent") d) in
  fst (run_pipe repr body s)
  = diagnostic repr (debug_mode (valves s)) intent c
    ++ [EError (lit "Pipeline error: '" ++ type_name v
                ++ lit "' object has no attribute 'split'");
        EDone].
Proof.
  intros Hlast Hlog Hanswer Hfb Hr Hv Hc intent.
  destruct (run_pipe_on_result repr body s m txt (PDict d) Hlast Hlog Hanswer)
    as (result & s2 & Hv2 & Hy2 & -> & ->).
  cbv zeta. cbn [fst]. rewrite fallback_test, Hfb, <- Hv2.
  replace (lit "Pipeline error: '" ++ type_name v
           ++ lit "' object has no attribute 'split'")
    with (lit "Pipeline error: " ++ exn_str (attribute_error v "split"))
    by (unfold attribute_error, exn_str;
        change (lit "Pipeline error: '") with (lit "Pipeline error: " ++ [39%N]);
        change (lit "' object has no attribute 'split'")
          with (lit "' object has no attribute '" ++ lit "split" ++ [39%N]);
        by rewrite <- !app_assoc).
  apply stream_failed; [exact Hy2|].
  rewrite stream_response_dict.
  rewrite (bind_ret_run _ _ _ _ _ (diagnostic_run repr d s2 c Hc)).
  rewrite Hr. cbn [default from_option id].
  apply bind_raise_run.
  destruct v as [|b|z|x|str|l|d']; try reflexivity. by destruct (Hv str).
Qed.

(** X19: with the debug valve on and an intent other than "unknown", a
    confidence that cannot be printed as a percentage (a string, [null], a
    list, an object, an integer too large for a float) loses the whole
    reply: the stream is one error event with the message of the exception
    and the sentinel, and no word of the response.  The message of the
    user is one that can be printed: it holds no surrogate. *)
Theorem bad_confidence_loses_reply repr body s m txt d e :
  last (messages body) = Some m ->
  existsb is_surrogate (default [] (content m)) = false ->
  (forall req,
     n8n s (length (posted s)) req
     = HttpOk {| status_code := 200; text := txt;
                 json_body := inl (PDict d) |}) ->
  truthy (default PNone (dict_lookup (lit "fallback") d)) = false ->
  debug_mode (valves s) = true ->
  ne_str (default (PStr (lit "unknown")) (dict_lookup (lit "intent") d))
         (lit "unknown") = true ->
  py_format_percent1
    (default (PFloat (S754_zero false)) (dict_lookup (lit "confidence") d)) tt
  = (Raise e, tt) ->
  fst (run_pipe repr body s)
  = [EError (lit "Pipeline error: " ++ exn_str e); EDone].
Proof.
  intros Hlast Hclean Hanswer Hfb Hdebug Hintent Hraise.
  assert (log_passes (debug_mode (valves s)) (default [] (content m)) = true)
    as Hlog by (unfold log_passes; by rewrite Hdebug, Hclean).
  destruct (run_pipe_on_result repr body s m txt (PDict d) Hlast Hlog Hanswer)
    as (result & s2 & Hv2 & Hy2 & -> & ->).
  cbv zeta. cbn [fst]. rewrite fallback_test, Hfb.
  change [EError (lit "Pipeline error: " ++ exn_str e); EDone]
    with ([] ++ [EError (lit "Pipeline error: " ++ exn_str e); EDone]).
  apply stream_failed; [exact Hy2|]. rewrite emitted_nil.
  rewrite stream_response_dict, Hv2, Hdebug, Hintent. cbn [andb].
  apply bind_raise_run. apply bind_raise_run.
  destruct (py_format_percent1_pure
              (default (PFloat (S754_zero false))
                 (dict_lookup (lit "confidence") d)) s2) as [o Ho].
  rewrite Ho. f_equal.
  revert Hraise Ho. unfold py_format_percent1.
  destruct (default (PFloat (S754_zero false))
              (dict_lookup (lit "confidence") d)) as [|b|z|x|str|l|d'];
    try (intros H1 H2; unfold raise, ret in *; congruence).
  - destruct (of_Z (if b then 1 else 0));
      intros H1 H2; unfold raise, ret in *; congruence.
  - destruct (of_Z z); intros H1 H2; unfold raise, ret in *; congruence.
Qed.

(** X20: a reply with status 200 whose JSON is not an object, or is an
    object with a true [fallback] field, is answered like a failure of the
    router: the notice, the fallback message with the user's text, the
    finish chunk and the sentinel; nothing of the reply is shown.  This is
    the stream of a request that reaches the workflow: the debug valve is
    off, or the message of the user can be printed. *)
Theorem unusable_reply_is_answered_locally repr body s m txt v :
  last (messages body) = Some m ->
  log_passes (debug_mode (valves s)) (default [] (content m)) = true ->
  (forall req,
     n8n s (length (posted s)) req
     = HttpOk {| status_code := 200; text := txt; json_body := inl v |}) ->
  match v with
  | PDict d => truthy (default PNone (dict_lookup (lit "fallback") d)) = true
  | _ => True
  end ->
  fst (run_pipe repr body s)
  = fallback_events (default [] (content m)) ++ [EFinish; EDone].
Proof.
  intros Hlast Hlog Hanswer Hv.
  destruct (run_pipe_on_result repr body s m txt v Hlast Hlog Hanswer)
    as (result & s2 & Hv2 & Hy2 & Hresult & ->).
  cbv zeta. cbn [fst].
  assert (exists d, result = PDict d /\
                    truthy (default PNone (dict_lookup (lit "fallback") d))
                    = true) as (d & -> & Hfb).
  { destruct v; subst result; try (by eexists); by exists d. }
  rewrite fallback_test, Hfb.
  apply stream_finished; [exact Hy2|]. apply stream_fallback_run.
Qed.

(** X21: the loop that streams a response keeps its words, whatever its
    whitespace: the text a client puts together from the word chunks of
    any response splits into the words of that response. *)
Theorem streamed_words_are_the_words_of_the_response r :
  split (content_text (map EContent (word_chunks (split r)))) = split r.
Proof.
  rewrite content_text_contents. apply split_word_chunks.
  apply split_from_words. constructor.
Qed.

End StreamExtras.

(* ===================================================================== *)
(** * The pipeline: concrete runs *)
(* ===================================================================== *)

Module PipelineWitnesses.
Import Pipeline DictMore SessionIdFacts PipeFrames PipeExtras.
Import WireFacts StreamFacts StreamExtras.

Lemma get_session_id_resumes_or_creates_witness :
  dict_wf (session_cache seven_turns) /\
  exists sid data s1,
    get_session_id alice seven_turns = (Ret sid, s1) /\
    dict_lookup sid (session_cache s1) = Some data /\
    user_id data = lit "alice" /\
    last_activity data = clock seven_turns (ticks seven_turns).
Proof.
  assert (dict_wf (session_cache seven_turns)) as Hwf.
  { unfold dict_wf. vm_compute. apply NoDup_singleton. }
  split; [exact Hwf|].
  destruct (get_session_id_resumes_or_creates alice seven_turns Hwf)
    as (sid & data & s1 & Hrun & _ & Hdata & Hu & Ht & _).
  exists sid, data, s1.
  split; [exact Hrun|]. split; [exact Hdata|]. split; [exact Hu|exact Ht].
Defined.

Lemma same_user_resumes_same_session_witness :
  let s := new_pipe (answers calendar_reply) in
  let s2 := snd (get_session_id alice s) in
  exists sid,
    fst (get_session_id alice s) = Ret sid /\
    fst (get_session_id alice s2) = Ret sid /\
    uuids_drawn (snd (get_session_id alice s2)) = uuids_drawn s2 /\
    history_of sid (session_cache (snd (get_session_id alice s2)))
    = history_of sid (session_cache s2).
Proof.
  apply (same_user_resumes_same_session alice alice
           (new_pipe (answers calendar_reply))
           (snd (get_session_id alice (new_pipe (answers calendar_reply))))).
  - unfold dict_wf. simpl. constructor.
  - reflexivity.
  - vm_compute. repeat constructor.
  - vm_compute. reflexivity.
Defined.


Lemma stream_has_one_sentinel_at_end_witness :
  last (messages (ask (lit "hello")))
  = Some {| content := Some (lit "hello") |} /\
  fst (pipe repr_unused (ask (lit "hello")) (started (new_pipe times_out)))
  = Ret tt /\
  exists frames,
    map render
      (fst (run_pipe repr_unused (ask (lit "hello")) (new_pipe times_out)))
    = frames ++ [render EDone] /\
    render EDone ∉ frames.
Proof.
  split; [reflexivity|].
  apply (stream_has_one_sentinel_at_end repr_unused (ask (lit "hello"))
           (new_pipe times_out) {| content := Some (lit "hello") |}).
  reflexivity.
Defined.

Lemma conversation_carries_over_witness :
  let s := new_pipe (answers calendar_reply) in
  let s' := snd (run_pipe repr_unused (ask (lit "hi")) s) in
  exists sid req1 req2,
    posted (snd (run_pipe repr_unused (ask (lit "more")) s'))
    = posted s ++ [req1; req2] /\
    p_session_id (req_json req1) = sid /\
    p_session_id (req_json req2) = sid /\
    uuids_drawn (snd (run_pipe repr_unused (ask (lit "more")) s'))
    = uuids_drawn s'.
Proof.
  destruct (conversation_carries_over repr_unused (ask (lit "hi"))
              (ask (lit "more")) (new_pipe (answers calendar_reply))
              {| content := Some (lit "hi") |}
              {| content := Some (lit "more") |})
    as (sid & req1 & req2 & Hp & H1 & H2 & Hd & _).
  - unfold dict_wf. simpl. constructor.
  - reflexivity.
  - reflexivity.
  - reflexivity.
  - reflexivity.
  - reflexivity.
  - vm_compute. reflexivity.
  - exists sid, req1, req2.
    split; [exact Hp|]. split; [exact H1|]. split; [exact H2|exact Hd].
Defined.

Lemma reply_is_streamed_word_by_word_witness :
  scan false (lit "All done.") = Some true /\
  fst (run_pipe repr_unused (ask (lit "hello")) (new_pipe (answers plain_reply)))
  = diagnostic repr_unused true (PStr (lit "unknown")) (S754_zero false)
    ++ map EContent (word_chunks (split (lit "All done.")))
    ++ [EFinish; EDone] /\
  content_text (map EContent (word_chunks (split (lit "All done."))))
  = lit "All done.".
Proof.
  assert (scan false (lit "All done.") = Some true) as Htidy by reflexivity.
  split; [exact Htidy|].
  destruct (reply_is_streamed_word_by_word repr_unused (ask (lit "hello"))
              (new_pipe (answers plain_reply))
              {| content := Some (lit "hello") |} []
              [(lit "response", PStr (lit "All done."))]
              (lit "All done.") (S754_zero false))
    as [Hevents Htext].
  - reflexivity.
  - reflexivity.
  - intros req. reflexivity.
  - reflexivity.
  - reflexivity.
  - reflexivity.
  - split; [exact Hevents|exact (Htext Htidy)].
Defined.

Lemma non_text_response_ends_in_error_witness :
  fst (run_pipe repr_unused (ask (lit "hello"))
         (new_pipe (answers numeric_reply)))
  = diagnostic repr_unused true (PStr (lit "unknown")) (S754_zero false)
    ++ [EError (lit "Pipeline error: '" ++ type_name (PInt 42)
                ++ lit "' object has no attribute 'split'");
        EDone].
Proof.
  apply (non_text_response_ends_in_error repr_unused (ask (lit "hello"))
           (new_pipe (answers numeric_reply))
           {| content := Some (lit "hello") |} []
           [(lit "response", PInt 42)] (PInt 42) (S754_zero false)).
  - reflexivity.
  - reflexivity.
  - intros req. reflexivity.
  - reflexivity.
  - reflexivity.
  - intros r. discriminate.
  - reflexivity.
Defined.

Lemma bad_confidence_loses_reply_witness :
  fst (run_pipe repr_unused (ask (lit "hello"))
         (new_pipe (answers vague_reply)))
  = [EError (lit "Pipeline error: "
             ++ exn_str
                  (Error
                     (lit "Unknown format code '%' for object of type 'str'")));
     EDone].
Proof.
  apply (bad_confidence_loses_reply repr_unused (ask (lit "hello"))
           (new_pipe (answers vague_reply))
           {| content := Some (lit "hello") |} []
           [(lit "response", PStr (lit "You have 2 meetings."));
            (lit "intent", PStr (lit "calendar_query"));
            (lit "confidence", PStr (lit "high"))]
           (Error (lit "Unknown format code '%' for object of type 'str'"))).
  - reflexivity.
  - reflexivity.
  - intros req. reflexivity.
  - reflexivity.
  - reflexivity.
  - reflexivity.
  - reflexivity.
Defined.

Lemma unusable_reply_is_answered_locally_witness :
  fst (run_pipe repr_unused (ask (lit "hello"))
         (new_pipe (answers (PList []))))
  = fallback_events (default [] (Some (lit "hello"))) ++ [EFinish; EDone].
Proof.
  apply (unusable_reply_is_answered_locally repr_unused (ask (lit "hello"))
           (new_pipe (answers (PList [])))
           {| content := Some (lit "hello") |} [] (PList [])).
  - reflexivity.
  - reflexivity.
  - intros req. reflexivity.
  - exact I.
Defined.

Lemma idle_session_is_replaced_witness :
  let s := slow_clock_pipe (answers calendar_reply) in
  let s' := snd (run_pipe repr_unused (ask (lit "hi")) s) in
  gt_int (fsub (clock s' (ticks s')) (clock s (ticks s)))
         (session_timeout (valves s')) = true /\
  exists req1 req2,
    posted (snd (run_pipe repr_unused (ask (lit "more")) s'))
    = posted s ++ [req1; req2] /\
    p_session_id (req_json req2) = uuid4 s' (uuids_drawn s') /\
    p_conversation_history (req_json req2) = [] /\
    uuids_drawn (snd (run_pipe repr_unused (ask (lit "more")) s'))
    = S (uuids_drawn s').
Proof.
  assert (gt_int
            (fsub
               (clock (snd (run_pipe repr_unused (ask (lit "hi"))
                              (slow_clock_pipe (answers calendar_reply))))
                  (ticks (snd (run_pipe repr_unused (ask (lit "hi"))
                                 (slow_clock_pipe (answers calendar_reply))))))
               (clock (slow_clock_pipe (answers calendar_reply))
                  (ticks (slow_clock_pipe (answers calendar_reply)))))
            (session_timeout
               (valves (snd (run_pipe repr_unused (ask (lit "hi"))
                               (slow_clock_pipe (answers calendar_reply))))))
          = true) as Hidle by (vm_compute; reflexivity).
  split; [exact Hidle|].
  apply (idle_session_is_replaced repr_unused (ask (lit "hi"))
           (ask (lit "more")) (slow_clock_pipe (answers calendar_reply))
           {| content := Some (lit "hi") |}
           {| content := Some (lit "more") |}).
  - unfold cache_ok, dict_wf. simpl. repeat split; constructor.
  - reflexivity.
  - reflexivity.
  - reflexivity.
  - reflexivity.
  - reflexivity.
  - exact Hidle.
Defined.

Lemma router_records_nothing_for_unknown_session_witness :
  let s := new_pipe (answers (PList [])) in
  let req := router_request (lit "hi") (lit "nobody") alice s in
  exists result s',
    call_n8n_router (lit "hi") (lit "nobody") alice s = (Ret result, s') /\
    p_conversation_history (req_json req) = [] /\
    session_cache s' = session_cache s /\
    posted s' = posted s ++ [req] /\
    forall r v,
      n8n s (length (posted s)) req = HttpOk r ->
      status_code r = 200 -> json_body r = inl v -> result = v.
Proof.
  apply (router_records_nothing_for_unknown_session (lit "hi") (lit "nobody")
           alice (new_pipe (answers (PList [])))).
  reflexivity.
Defined.

End PipelineWitnesses.
